(** * Retrieval fusion and reranking orchestrator

    A shallow embedding of [src/rag/retriever.py], [src/rag/pipeline.py] and
    the helpers of [src/shared/bedrock.py] they call, together with the
    properties the specification states about them; and, further, of the
    batching helpers of [src/shared/bedrock.py], of [chunk_documents] of
    [src/ingest/pipeline.py] and of the query endpoint of [src/api/app.py].

    Conventions of the embedding:
    - a Python [str] is a [string], one [ascii] per code point; the text
      primitives below follow CPython on code points below 256;
    - a Python [int] is a [Z]; a [dict] with string keys is a [gmap string _];
    - a call that may raise returns a [result]; the methods of the retriever
      and of the pipeline thread a [State] holding the long-lived objects and
      the log of backend calls;
    - the external services (vector store, chat model, Bedrock runtime) are
      oracles collected in [Backends]; an oracle sees the calls made so far,
      so a backend may answer the same request differently over time. *)

From Stdlib Require Import ZArith String Ascii List QArith Lia.
From Stdlib Require Import DecimalString DecimalZ.
From stdpp Require Import gmap strings list.

#[local] Set Warnings "-register-all".
#[local] Open Scope Z_scope.
#[local] Open Scope string_scope.

(** ** Python text primitives *)

Module PyStr.

Definition code (c : ascii) : N := N_of_ascii c.

(** [str.isspace] on one code point (below 256). *)
Definition isspace (c : ascii) : bool :=
  let n := code c in
  ((9 <=? n) && (n <=? 13) || (28 <=? n) && (n <=? 32)
   || (n =? 133) || (n =? 160))%N.

(** Line boundaries of [str.splitlines] other than the pair CR LF. *)
Definition is_linebreak (c : ascii) : bool :=
  let n := code c in
  ((10 <=? n) && (n <=? 13) || (28 <=? n) && (n <=? 30) || (n =? 133))%N.

Definition is_cr (c : ascii) : bool := (code c =? 13)%N.
Definition is_lf (c : ascii) : bool := (code c =? 10)%N.

(** [str.lower] on one code point: A-Z and the Latin-1 capitals. *)
Definition lower_char (c : ascii) : ascii :=
  let n := code c in
  if ((65 <=? n) && (n <=? 90)
      || (192 <=? n) && (n <=? 222) && negb (n =? 215))%N
  then ascii_of_N (n + 32) else c.

(** [str.upper] on one code point, for the code points whose upper case is
    again a single code point below 256. *)
Definition upper_char (c : ascii) : ascii :=
  let n := code c in
  if ((97 <=? n) && (n <=? 122)
      || (224 <=? n) && (n <=? 254) && negb (n =? 247))%N
  then ascii_of_N (n - 32) else c.

Definition chars (s : string) : list ascii := list_ascii_of_string s.
Definition of_chars (l : list ascii) : string := string_of_list_ascii l.

Definition lower (s : string) : string := of_chars (map lower_char (chars s)).

(** The title case of one code point: its upper case, but for U+00DF the
    two code points of [Ss]. *)
Definition title_char (c : ascii) : list ascii :=
  if (code c =? 223)%N then ["S"; "s"]%char else [upper_char c].

(** The code points below 256 whose title case lies beyond code point 255:
    U+00B5, which gives U+039C, and U+00FF, which gives U+0178. *)
Definition title_beyond (c : ascii) : bool :=
  ((code c =? 181) || (code c =? 255))%N.

(** The texts whose capitalisation has all its code points below 256: the
    ones that do not start with U+00B5 or U+00FF. *)
Definition capitalizable (s : string) : bool :=
  match chars s with
  | [] => true
  | c :: _ => negb (title_beyond c)
  end.

(** [s.capitalize()] for a [capitalizable] text: the first code point in
    title case, the rest lower-cased. The capitalisation of any other text
    is not a text of the embedding, and [capitalize] does not give it. *)
Definition capitalize (s : string) : string :=
  match chars s with
  | [] => ""
  | c :: l => of_chars (title_char c ++ map lower_char l)
  end.

Fixpoint drop_while (p : ascii -> bool) (l : list ascii) : list ascii :=
  match l with
  | [] => []
  | c :: l' => if p c then drop_while p l' else l
  end.

Definition strip_where (p : ascii -> bool) (l : list ascii) : list ascii :=
  rev (drop_while p (rev (drop_while p l))).

(** [s.strip()] *)
Definition strip (s : string) : string :=
  of_chars (strip_where isspace (chars s)).

(** [s.strip(cs)] *)
Definition strip_chars (cs : string) (s : string) : string :=
  of_chars (strip_where (fun c => bool_decide (c ∈ chars cs)) (chars s)).

(** [s.lstrip(cs)] *)
Definition lstrip_chars (cs : string) (s : string) : string :=
  of_chars (drop_while (fun c => bool_decide (c ∈ chars cs)) (chars s)).

(** [s.splitlines()]: a break ends the current line, CR LF counts as one
    break, and no empty line is produced after the last break. *)
Fixpoint splitlines_from (cur : list ascii) (s : list ascii) : list string :=
  match s with
  | [] => match cur with [] => [] | _ => [of_chars (rev cur)] end
  | c :: s' =>
      if is_cr c then
        match s' with
        | c' :: s'' =>
            if is_lf c' then of_chars (rev cur) :: splitlines_from [] s''
            else of_chars (rev cur) :: splitlines_from [] s'
        | [] => [of_chars (rev cur)]
        end
      else if is_linebreak c then of_chars (rev cur) :: splitlines_from [] s'
      else splitlines_from (c :: cur) s'
  end.

Definition splitlines (s : string) : list string := splitlines_from [] (chars s).

(** [s[:n]] for a non-negative [n]. *)
Definition prefix (n : nat) (s : string) : string := of_chars (take n (chars s)).

(** [sep.join(l)] *)
Fixpoint join (sep : string) (l : list string) : string :=
  match l with
  | [] => ""
  | [s] => s
  | s :: l' => s +:+ sep +:+ join sep l'
  end.

(** [s.find(sub)]: the code points before and after the first occurrence. *)
Fixpoint is_prefix_of (p s : list ascii) : option (list ascii) :=
  match p, s with
  | [], _ => Some s
  | _ :: _, [] => None
  | a :: p', b :: s' => if bool_decide (a = b) then is_prefix_of p' s' else None
  end.

Fixpoint split_at_first (sub : list ascii) (s : list ascii)
  : option (list ascii * list ascii) :=
  match is_prefix_of sub s with
  | Some rest => Some ([], rest)
  | None =>
      match s with
      | [] => None
      | c :: s' =>
          match split_at_first sub s' with
          | Some (before, after) => Some (c :: before, after)
          | None => None
          end
      end
  end.

(** [str(n)] for an [int]. *)
Definition of_int (z : Z) : string := NilZero.string_of_int (Z.to_int z).

Definition nl : string := String (ascii_of_N 10) "".

End PyStr.

(** ** Python values, exceptions and results *)

Inductive exn :=
  | TypeError | AttributeError | IndexError | ValueError | KeyError
  | BackendError (msg : string).

Inductive result (A : Type) : Type :=
  | Ok (a : A)
  | Raise (e : exn).
Arguments Ok {A} a.
Arguments Raise {A} e.

#[global] Instance result_ret : MRet result := @Ok.
#[global] Instance result_bind : MBind result :=
  fun A B f m => match m with Ok a => f a | Raise e => Raise e end.

Definition is_ok {A} (r : result A) : bool :=
  match r with Ok _ => true | Raise _ => false end.

(** A [float]: a finite value, an infinity or a NaN. *)
Inductive pyfloat :=
  | FFinite (q : Q)
  | FInf (negative : bool)
  | FNan.

(** The values a decoded JSON document or a metadata mapping holds. *)
Inductive pyval :=
  | PNone
  | PBool (b : bool)
  | PInt (z : Z)
  | PFloat (f : pyfloat)
  | PStr (s : string)
  | PList (l : list pyval)
  | PDict (m : gmap string pyval).

(** Built-ins of the interpreter that the embedding does not define:
    [repr] of floats and containers, and the format specification [.3f]
    (which raises on a value that is not a number). *)
Class PyBuiltins := {
  py_repr : pyval -> string;
  py_format_3f : pyval -> result string;
}.

(** ** Data of the service *)

Record Document := {
  page_content : string;
  metadata : gmap string pyval;
}.

(** [config.py]: the settings the retrieval service reads. *)
Module Settings.
Record t := {
  bedrock_chat_model_id : string;
  bedrock_embedding_model_id : string;
  bedrock_rerank_model_id : option string;
  pg_host : string;
  pg_port : Z;
  pg_user : string;
  pg_password : string;
  pg_database : string;
  pg_use_ssl : bool;
  vector_collection : string;
  vector_search_k : Z;
  vector_search_k_rerank : Z;
  enable_query_fusion : bool;
  fusion_variant_count : Z;
  enable_hyde : bool;
}.

Definition pg_connection_uri (st : t) : string :=
  "postgresql+psycopg2://" +:+ pg_user st +:+ ":" +:+ pg_password st
  +:+ "@" +:+ pg_host st +:+ ":" +:+ PyStr.of_int (pg_port st)
  +:+ "/" +:+ pg_database st +:+ "?sslmode="
  +:+ (if pg_use_ssl st then "require" else "prefer").
End Settings.

(** Handles of the external services. *)
Record PGVector := {
  connection_string : string;
  collection_name : string;
  embedding_function : string;
}.

Record ChatBedrock := { model_id : string }.

(** A chat prompt template: per message a role and the text, cut at its
    placeholders. *)
Inductive piece := Lit (s : string) | Var (name : string).
Definition ChatPromptTemplate := list (string * list piece).
Definition Messages := list (string * string).

(** The content of a chat response: plain text or a list of segments. *)
Inductive segment := SegStr (s : string) | SegDict (d : gmap string pyval).
Inductive ResponseContent := CText (s : string) | CSegments (l : list segment).

Module Retriever.
Record t := {
  settings : Settings.t;
  vector_store : PGVector;
  primary_k : Z;
  final_k : Z;
  enable_query_fusion : bool;
  enable_hyde : bool;
  fusion_variant_count : Z;
  rerank_model_id : option string;
  last_query_variants : list string;
  last_hypothetical_document : option string;
  _query_llm : ChatBedrock;
  _fusion_prompt : ChatPromptTemplate;
  _hyde_prompt : ChatPromptTemplate;
}.

Definition set_last_query_variants (v : list string) (r : t) : t :=
  {| settings := settings r; vector_store := vector_store r;
     primary_k := primary_k r; final_k := final_k r;
     enable_query_fusion := enable_query_fusion r;
     enable_hyde := enable_hyde r;
     fusion_variant_count := fusion_variant_count r;
     rerank_model_id := rerank_model_id r;
     last_query_variants := v;
     last_hypothetical_document := last_hypothetical_document r;
     _query_llm := _query_llm r; _fusion_prompt := _fusion_prompt r;
     _hyde_prompt := _hyde_prompt r |}.

Definition set_last_hypothetical_document (h : option string) (r : t) : t :=
  {| settings := settings r; vector_store := vector_store r;
     primary_k := primary_k r; final_k := final_k r;
     enable_query_fusion := enable_query_fusion r;
     enable_hyde := enable_hyde r;
     fusion_variant_count := fusion_variant_count r;
     rerank_model_id := rerank_model_id r;
     last_query_variants := last_query_variants r;
     last_hypothetical_document := h;
     _query_llm := _query_llm r; _fusion_prompt := _fusion_prompt r;
     _hyde_prompt := _hyde_prompt r |}.
End Retriever.

Module Pipeline.
Record t := {
  settings : Settings.t;
  retriever : Retriever.t;
  answer_llm : ChatBedrock;
  answer_prompt : ChatPromptTemplate;
}.

Definition set_retriever (r : Retriever.t) (p : t) : t :=
  {| settings := settings p; retriever := r;
     answer_llm := answer_llm p; answer_prompt := answer_prompt p |}.
End Pipeline.

(** One entry of the [contexts] of a result. *)
Record ContextChunk := {
  content : string;
  chunk_metadata : gmap string pyval;
}.

(** The dictionary [run] returns. *)
Record PipelineResult := {
  question : string;
  rewritten_question : string;
  answer : string;
  contexts : list ContextChunk;
  query_variants : list string;
  hyde_document : option string;
}.

(** ** Backends, call log and the monad of the methods *)

(** Which helper of [bedrock.py] reached the Bedrock runtime client. *)
Inductive helper := TextGeneration | Rerank.

Inductive Call :=
  | CallSimilaritySearch (store : PGVector) (query : string) (k : Z)
  | CallChat (model : ChatBedrock) (messages : Messages)
  | CallInvokeModel (by_helper : helper) (model : string) (body : pyval).

(** The external services. Each oracle receives the calls made before it.
    [invoke_model] stands for the runtime client together with the JSON
    encoding of the request and the decoding of the response body. *)
Record Backends := {
  similarity_search :
    list Call -> PGVector -> string -> Z -> result (list Document);
  chat_invoke : list Call -> ChatBedrock -> Messages -> result ResponseContent;
  invoke_model : list Call -> string -> pyval -> result pyval;
}.

(** The long-lived pipeline object and the log of backend calls. *)
Record State := {
  self : Pipeline.t;
  calls : list Call;
}.

(** A method: it reads and updates the state and returns or raises. *)
Definition M (A : Type) : Type := State -> result A * State.

#[global] Instance M_ret : MRet M := fun A a s => (Ok a, s).
#[global] Instance M_bind : MBind M :=
  fun A B f m s =>
    match m s with
    | (Ok a, s') => f a s'
    | (Raise e, s') => (Raise e, s')
    end.

Definition lift {A} (r : result A) : M A := fun s => (r, s).

(** [try: body except Exception as e: handler] *)
Definition try_except {A} (body : M A) (handler : exn -> M A) : M A :=
  fun s =>
    match body s with
    | (Ok a, s') => (Ok a, s')
    | (Raise e, s') => handler e s'
    end.

Definition get_retriever : M Retriever.t :=
  fun s => (Ok (Pipeline.retriever (self s)), s).

Definition get_pipeline : M Pipeline.t := fun s => (Ok (self s), s).

Definition update_retriever (f : Retriever.t -> Retriever.t) : M unit :=
  fun s =>
    (Ok tt,
     {| self := Pipeline.set_retriever (f (Pipeline.retriever (self s))) (self s);
        calls := calls s |}).

(** A backend call: the oracle answers from the log so far, and the call
    is logged whether it returns or raises. *)
Definition backend_call {A} (c : Call) (oracle : list Call -> result A) : M A :=
  fun s => (oracle (calls s), {| self := self s; calls := (calls s ++ [c])%list |}).

Section Service.
Context {builtins : PyBuiltins}.
Variable bk : Backends.

(** ** Dynamic operations on values *)

(** [str(v)] *)
Definition py_str (v : pyval) : string :=
  match v with
  | PNone => "None"
  | PBool true => "True"
  | PBool false => "False"
  | PInt z => PyStr.of_int z
  | PStr s => s
  | _ => py_repr v
  end.

(** [v + s] for a string [s]: only a string can stand on the left. *)
Definition py_add_str (v : pyval) (s : string) : result string :=
  match v with
  | PStr a => Ok (a +:+ s)
  | _ => Raise TypeError
  end.

(** [d.get(k, dflt)] on a [dict]. *)
Definition dict_get (d : gmap string pyval) (k : string) (dflt : pyval) : pyval :=
  default dflt (d !! k).

(** [v.get(k, dflt)] on any value: only a [dict] has the method. *)
Definition py_get (v : pyval) (k : string) (dflt : pyval) : result pyval :=
  match v with
  | PDict d => Ok (dict_get d k dflt)
  | _ => Raise AttributeError
  end.

(** [for x in v]: the items a loop over [v] visits. *)
Definition py_iter (v : pyval) : result (list pyval) :=
  match v with
  | PList l => Ok l
  | PDict d => Ok ((fun kv => PStr kv.1) <$> map_to_list d)
  | PStr s => Ok ((fun c => PStr (String c "")) <$> PyStr.chars s)
  | _ => Raise TypeError
  end.

(** [sep.join(items)]: every item must be a string. *)
Definition py_join (sep : string) (items : list pyval) : result string :=
  texts ← mapM (fun v => match v with
                         | PStr s => Ok s
                         | _ => Raise TypeError
                         end) items;
  mret (PyStr.join sep texts).

Definition float_ge_int (f : pyfloat) (n : Z) : bool :=
  match f with
  | FFinite q => Qle_bool (inject_Z n) q
  | FInf negative => negb negative
  | FNan => false
  end.

(** [v >= n] for an integer [n] and a [v] that is not [None]. *)
Definition py_ge_int (v : pyval) (n : Z) : result bool :=
  match v with
  | PInt z => Ok (n <=? z)%Z
  | PBool b => Ok (n <=? (if b then 1 else 0))%Z
  | PFloat f => Ok (float_ge_int f n)
  | _ => Raise TypeError
  end.

(** [seq[i]] for an integer [i]: a negative index counts from the end. *)
Definition index_int {A} (l : list A) (i : Z) : result A :=
  let j := if (i <? 0)%Z then (Z.of_nat (length l) + i)%Z else i in
  if (j <? 0)%Z then Raise IndexError
  else match l !! Z.to_nat j with
       | Some a => Ok a
       | None => Raise IndexError
       end.

(** [seq[v]] *)
Definition py_index {A} (l : list A) (v : pyval) : result A :=
  match v with
  | PInt z => index_int l z
  | PBool b => index_int l (if b then 1 else 0)
  | _ => Raise TypeError
  end.

(** [seq[:k]]: a negative bound counts from the end. *)
Definition slice_to {A} (k : Z) (l : list A) : list A :=
  if (0 <=? k)%Z then take (Z.to_nat k) l
  else take (Z.to_nat (Z.of_nat (length l) + k)) l.

(** [template.format_messages] with keyword arguments: a placeholder
    without a value raises [KeyError]; a value without a placeholder is
    ignored. *)
Definition format_pieces (kwargs : gmap string string) (ps : list piece)
  : result string :=
  texts ← mapM (fun p => match p with
                         | Lit s => Ok s
                         | Var x => match kwargs !! x with
                                    | Some v => Ok v
                                    | None => Raise KeyError
                                    end
                         end) ps;
  mret (PyStr.join "" texts).

Definition format_messages (t : ChatPromptTemplate) (kwargs : gmap string string)
  : result Messages :=
  mapM (fun m => text ← format_pieces kwargs m.2; mret (m.1, text)) t.

(** ** [shared/prompts.py] *)

Definition get_contextualize_system_prompt : string :=
  "Referring to the conversation history, create a standalone version of the "
  +:+ "<question>. The rewritten question must keep all critical terms. "
  +:+ "Wrap the result in <result> tags. If the conversation is irrelevant, "
  +:+ "return the original question inside <result> tags without modifications.".

Definition get_system_prompt : string :=
  "You are a senior assistant that answers user questions in Vietnamese. "
  +:+ "You will receive background context made of text chunks produced during "
  +:+ "a retrieval step. Read the context carefully and provide the most "
  +:+ "accurate answer possible. If the context is insufficient, reply with "
  +:+ "'Khong co thong tin phu hop trong ngu canh.'".

(** The human prompt, cut at [{contexts}] and [{question}]. *)
Definition get_human_prompt : list piece :=
  [ Lit "Ben duoi la tap cac ngu canh: <contexts>"; Var "contexts";
    Lit ("</contexts>" +:+ PyStr.nl +:+ PyStr.nl
         +:+ "Tra loi cau hoi sau bang tieng Viet, khong them loi mo dau."
         +:+ " Neu khong tim thay thong tin phu hop trong ngu canh hay tra loi"
         +:+ " dung nhu sau: 'Khong co thong tin phu hop trong ngu canh.'"
         +:+ PyStr.nl +:+ PyStr.nl +:+ "<question>");
    Var "question"; Lit "</question>" ].

(** The fusion prompt has no placeholder. *)
Definition get_rag_fusion_prompt : list piece :=
  [ Lit ("Ban se nhan mot cau hoi bang tieng Viet. Hay tao toi da 3 truy van "
         +:+ "tim kiem khac nhau nhung giu nguyen nghia cua cau hoi ban dau. "
         +:+ "Moi truy van viet tren mot dong, khong danh so thu tu.") ].

Definition get_hyde_prompt : list piece :=
  [ Lit ("Viet mot doan van ngan gom 3-5 cau tra loi cau hoi sau day du tren "
         +:+ "toan bo kien thuc ban co. Su dung giong dieu thong tin, khong gioi han"
         +:+ " thong tin. Cau hoi: ");
    Var "question" ].

(** ** [shared/bedrock.py] *)

Definition get_chat_model (id : string) : ChatBedrock := {| model_id := id |}.

Definition text_generation_body (system_prompt user_prompt : string) : pyval :=
  let message role text :=
    PDict {[ "role" := PStr role;
             "content" := PList [PDict {[ "text" := PStr text ]}] ]} in
  PDict {[ "messages" := PList [message "system" system_prompt;
                                message "user" user_prompt] ]}.

Definition invoke_text_generation (model : string)
    (system_prompt user_prompt : string) : M string :=
  let body := text_generation_body system_prompt user_prompt in
  payload ← backend_call (CallInvokeModel TextGeneration model body)
                         (fun log => invoke_model bk log model body);
  lift (output ← py_get payload "output" (PDict ∅);
        message ← py_get output "message" (PDict ∅);
        outputs ← py_get message "content" (PList []);
        items ← py_iter outputs;
        texts ← mapM (fun item => py_get item "text" (PStr "")) items;
        joined ← py_join PyStr.nl texts;
        mret (PyStr.strip joined)).

Definition rerank_body (query : string) (documents : list Document) (top_n : Z)
  : pyval :=
  PDict {[ "query" := PStr query;
           "documents" := PList ((fun d => PStr (page_content d)) <$> documents);
           "topN" := PInt (Z.min top_n (Z.of_nat (length documents)));
           "returnDocuments" := PBool true ]}.

(** One turn of the loop over [results] in [invoke_rerank]; [None] stands
    for [continue]. *)
Definition rerank_entry (documents : list Document) (entry : pyval)
  : result (option Document) :=
  idx ← py_get entry "index" PNone;
  match idx with
  | PNone => Ok None
  | _ =>
      beyond ← py_ge_int idx (Z.of_nat (length documents));
      if beyond : bool then Ok None
      else
        doc ← py_index documents idx;
        score ← py_get entry "relevanceScore" PNone;
        mret (Some {| page_content := page_content doc;
                      metadata := <["rerank_score" := score]> (metadata doc) |})
  end.

Fixpoint rerank_loop (documents : list Document) (results : list pyval)
    (ranked_docs : list Document) : result (list Document) :=
  match results with
  | [] => Ok ranked_docs
  | entry :: rest =>
      r ← rerank_entry documents entry;
      match r with
      | None => rerank_loop documents rest ranked_docs
      | Some d => rerank_loop documents rest (ranked_docs ++ [d])%list
      end
  end.

(** What [invoke_rerank] does with the decoded response body. *)
Definition ranked_documents (documents : list Document) (body : pyval)
  : result (list Document) :=
  results ← py_get body "results" (PList []);
  entries ← py_iter results;
  rerank_loop documents entries [].

Definition invoke_rerank (model : string) (query : string)
    (documents : list Document) (top_n : Z) : M (list Document) :=
  match documents with
  | [] => mret []
  | _ =>
      let payload := rerank_body query documents top_n in
      body ← backend_call (CallInvokeModel Rerank model payload)
                          (fun log => invoke_model bk log model payload);
      lift (ranked_documents documents body)
  end.

(** ** [rag/retriever.py] *)

(** [AuroraPGVectorRetriever.__init__] *)
Definition AuroraPGVectorRetriever (store : PGVector) (st : Settings.t)
  : Retriever.t :=
  {| Retriever.settings := st;
     Retriever.vector_store := store;
     Retriever.primary_k := Settings.vector_search_k st;
     Retriever.final_k := Z.max (Settings.vector_search_k_rerank st) 1;
     Retriever.enable_query_fusion := Settings.enable_query_fusion st;
     Retriever.enable_hyde := Settings.enable_hyde st;
     Retriever.fusion_variant_count := Z.max (Settings.fusion_variant_count st) 1;
     Retriever.rerank_model_id := Settings.bedrock_rerank_model_id st;
     Retriever.last_query_variants := [];
     Retriever.last_hypothetical_document := None;
     Retriever._query_llm := get_chat_model (Settings.bedrock_chat_model_id st);
     Retriever._fusion_prompt :=
       [ ("system", [Lit "Ban la tro ly tao cac truy van tim kiem tuong tu."]);
         ("human", get_rag_fusion_prompt) ];
     Retriever._hyde_prompt :=
       [ ("system", [Lit "Ban viet cac doan van mo phong cau tra loi."]);
         ("human", get_hyde_prompt) ] |}.

(** The two lines that compute [key] in [_deduplicate]. *)
Definition dedup_key (doc : Document) : result string :=
  key ← py_add_str (dict_get (metadata doc) "source" (PStr ""))
                   (py_str (dict_get (metadata doc) "chunk_id" (PStr "")));
  mret (if bool_decide (key = "") then PyStr.prefix 100 (page_content doc)
        else key).

(** The loop of [_deduplicate], with its two locals [seen] and [ordered]. *)
Fixpoint dedup_loop (docs : list Document) (seen : gmap string Document)
    (ordered : list Document) : result (list Document) :=
  match docs with
  | [] => Ok ordered
  | doc :: rest =>
      key ← dedup_key doc;
      match seen !! key with
      | None => dedup_loop rest (<[key := doc]> seen) (ordered ++ [doc])%list
      | Some _ => dedup_loop rest seen ordered
      end
  end.

Definition _deduplicate (docs : list Document) : result (list Document) :=
  dedup_loop docs ∅ [].

Definition segment_text (seg : segment) : option pyval :=
  match seg with
  | SegDict d => Some (dict_get d "text" (PStr ""))
  | SegStr _ => None
  end.

Definition _to_plain_text (response : ResponseContent) : result string :=
  match response with
  | CText s => Ok s
  | CSegments l => py_join PyStr.nl (omap segment_text l)
  end.

(** [line.strip("-* ").strip()] *)
Definition strip_line (line : string) : string :=
  PyStr.strip (PyStr.strip_chars "-* " line).

(** The loop over the lines of the response in
    [_generate_variant_queries]. *)
Fixpoint variants_loop (count : Z) (query : string) (lines : list string)
    (variants : list string) : list string :=
  match lines with
  | [] => variants
  | line :: rest =>
      let stripped := strip_line line in
      if bool_decide (stripped = "") then variants_loop count query rest variants
      else if bool_decide (PyStr.lower stripped = PyStr.lower query)
      then variants_loop count query rest variants
      else
        let variants' := (variants ++ [stripped])%list in
        if (count <=? Z.of_nat (length variants'))%Z then variants'
        else variants_loop count query rest variants'
  end.

Definition parse_variants (count : Z) (query : string) (content : string)
  : list string :=
  variants_loop count query (PyStr.splitlines content) [].

Definition _generate_variant_queries (query : string) : M (list string) :=
  r ← get_retriever;
  if negb (Retriever.enable_query_fusion r) then
    update_retriever (Retriever.set_last_query_variants []);;
    mret []
  else
    messages ← lift (format_messages (Retriever._fusion_prompt r)
                                     {[ "question" := query ]});
    response ← backend_call (CallChat (Retriever._query_llm r) messages)
      (fun log => chat_invoke bk log (Retriever._query_llm r) messages);
    content ← lift (_to_plain_text response);
    let variants :=
      parse_variants (Retriever.fusion_variant_count r) query content in
    update_retriever (Retriever.set_last_query_variants variants);;
    mret variants.

Definition _generate_hypothetical_document (query : string) : M string :=
  r ← get_retriever;
  if negb (Retriever.enable_hyde r) then
    update_retriever (Retriever.set_last_hypothetical_document None);;
    mret ""
  else
    messages ← lift (format_messages (Retriever._hyde_prompt r)
                                     {[ "question" := query ]});
    response ← backend_call (CallChat (Retriever._query_llm r) messages)
      (fun log => chat_invoke bk log (Retriever._query_llm r) messages);
    text ← lift (_to_plain_text response);
    let hypo := PyStr.strip text in
    update_retriever (Retriever.set_last_hypothetical_document (Some hypo));;
    mret hypo.

(** [self.vector_store.similarity_search(query, k=self.primary_k)] *)
Definition search (query : string) : M (list Document) :=
  r ← get_retriever;
  backend_call
    (CallSimilaritySearch (Retriever.vector_store r) query (Retriever.primary_k r))
    (fun log => similarity_search bk log (Retriever.vector_store r) query
                                  (Retriever.primary_k r)).

(** The loop over the variants in [_retrieve_candidates]. *)
Fixpoint extend_with_variants (variants : list string)
    (candidates : list Document) : M (list Document) :=
  match variants with
  | [] => mret candidates
  | variant :: rest =>
      variant_docs ← search variant;
      extend_with_variants rest (candidates ++ variant_docs)%list
  end.

Definition _retrieve_candidates (query : string) : M (list Document) :=
  candidates ← search query;
  variants ← _generate_variant_queries query;
  candidates ← extend_with_variants variants candidates;
  hypothetical ← _generate_hypothetical_document query;
  candidates ← (if bool_decide (hypothetical = "") then mret candidates
                else hyde_docs ← search hypothetical;
                     mret (candidates ++ hyde_docs)%list);
  lift (_deduplicate candidates).

(** [not self.rerank_model_id] *)
Definition rerank_configured (r : Retriever.t) : option string :=
  match Retriever.rerank_model_id r with
  | Some id => if bool_decide (id = "") then None else Some id
  | None => None
  end.

Definition _apply_rerank (query : string) (docs : list Document)
  : M (list Document) :=
  r ← get_retriever;
  match rerank_configured r with
  | None => mret (slice_to (Retriever.final_k r) docs)
  | Some id =>
      try_except
        (reranked ← invoke_rerank id query docs (Retriever.final_k r);
         match reranked with
         | [] => mret (slice_to (Retriever.final_k r) docs)
         | _ => mret reranked
         end)
        (fun _ => mret (slice_to (Retriever.final_k r) docs))
  end.

Definition _get_relevant_documents (query : string) : M (list Document) :=
  candidates ← _retrieve_candidates query;
  _apply_rerank query candidates.

Definition build_vector_store (st : Settings.t) : PGVector :=
  {| connection_string := Settings.pg_connection_uri st;
     collection_name := Settings.vector_collection st;
     embedding_function := Settings.bedrock_embedding_model_id st |}.

Definition build_retriever (st : Settings.t) : Retriever.t :=
  AuroraPGVectorRetriever (build_vector_store st) st.

(** ** [rag/pipeline.py] *)

(** [re.search] of an opening tag, the shortest text and a closing tag:
    the first opening tag that a closing tag follows is the first opening
    tag of the text. *)
Definition _cleanup_result_tag (text : string) : string :=
  match PyStr.split_at_first (PyStr.chars "<result>") (PyStr.chars text) with
  | Some (_, after) =>
      match PyStr.split_at_first (PyStr.chars "</result>") after with
      | Some (inner, _) => PyStr.strip (PyStr.of_chars inner)
      | None => PyStr.strip text
      end
  | None => PyStr.strip text
  end.

(** A turn of the history is a mapping of strings. *)
Definition Turn := gmap string string.

Definition format_turn (turn : Turn) : string :=
  PyStr.capitalize (default "user" (turn !! "role")) +:+ ": "
  +:+ PyStr.strip (default "" (turn !! "content")).

Definition _format_history (history : option (list Turn)) : string :=
  match history with
  | None | Some [] => ""
  | Some turns => PyStr.join PyStr.nl (format_turn <$> turns)
  end.

(** One block of [_format_contexts]; [idx] counts from one. *)
Definition format_block (idx : nat) (doc : Document) : result string :=
  let source := dict_get (metadata doc) "source" (PStr "unknown") in
  let score := dict_get (metadata doc) "rerank_score" PNone in
  let prefix := "[" +:+ PyStr.of_int (Z.of_nat idx) +:+ "] " +:+ py_str source in
  prefix ← match score with
           | PNone => Ok prefix
           | _ => text ← py_format_3f score;
                  mret (prefix +:+ " (score=" +:+ text +:+ ")")
           end;
  mret (prefix +:+ PyStr.nl +:+ PyStr.strip (page_content doc)).

Definition _format_contexts (docs : list Document) : result string :=
  blocks ← mapM (fun p => format_block (S p.1) p.2) (imap pair docs);
  mret (PyStr.join (PyStr.nl +:+ PyStr.nl) blocks).

(** [RAGPipeline.__init__] *)
Definition RAGPipeline (r : Retriever.t) (st : Settings.t) : Pipeline.t :=
  {| Pipeline.settings := st;
     Pipeline.retriever := r;
     Pipeline.answer_llm := get_chat_model (Settings.bedrock_chat_model_id st);
     Pipeline.answer_prompt :=
       [ ("system", [Lit get_system_prompt]); ("human", get_human_prompt) ] |}.

Definition rewrite_user_prompt (history_text question : string) : string :=
  "Conversation so far:" +:+ PyStr.nl +:+ history_text +:+ PyStr.nl +:+ PyStr.nl
  +:+ "Create a standalone question for: <question>" +:+ question
  +:+ "</question>".

Definition _rewrite_question (question : string) (history : option (list Turn))
  : M string :=
  match history with
  | None | Some [] => mret question
  | Some _ =>
      let history_text := _format_history history in
      if bool_decide (history_text = "") then mret question
      else
        p ← get_pipeline;
        try_except
          (response ← invoke_text_generation
                        (Settings.bedrock_chat_model_id (Pipeline.settings p))
                        get_contextualize_system_prompt
                        (rewrite_user_prompt history_text question);
           let rewritten := _cleanup_result_tag response in
           mret (if bool_decide (rewritten = "") then question else rewritten))
          (fun _ => mret question)
  end.

Definition _build_context (docs : list Document) : result string :=
  match docs with
  | [] => Ok ""
  | _ => _format_contexts docs
  end.

(** The text of the answer: the content itself, or the texts of its
    dictionary segments joined without a separator. *)
Definition answer_content (response : ResponseContent) : result string :=
  match response with
  | CText s => Ok s
  | CSegments l => py_join "" (omap segment_text l)
  end.

Definition context_payload (doc : Document) : ContextChunk :=
  {| content := page_content doc; chunk_metadata := metadata doc |}.

Definition run (question : string) (history : option (list Turn))
  : M PipelineResult :=
  rewritten ← _rewrite_question question history;
  retrieved_docs ← _get_relevant_documents rewritten;
  context_text ← lift (_build_context retrieved_docs);
  p ← get_pipeline;
  messages ← lift (format_messages (Pipeline.answer_prompt p)
                     {[ "contexts" := context_text; "question" := rewritten ]});
  response ← backend_call (CallChat (Pipeline.answer_llm p) messages)
    (fun log => chat_invoke bk log (Pipeline.answer_llm p) messages);
  answer_text ← lift (answer_content response);
  r ← get_retriever;
  mret {| question := question;
          rewritten_question := rewritten;
          answer := PyStr.strip answer_text;
          contexts := context_payload <$> retrieved_docs;
          query_variants := Retriever.last_query_variants r;
          hyde_document := Retriever.last_hypothetical_document r |}.

(** ** Notions the properties are stated with *)

(** The two tests of the loop of [_generate_variant_queries] on a stripped
    line: it is kept when it is not blank and differs from the question
    even without regard to case. *)
Definition keeps (query : string) (stripped : string) : bool :=
  negb (bool_decide (stripped = ""))
  && negb (bool_decide (PyStr.lower stripped = PyStr.lower query)).

(** *** The operations as the specification words them *)

(** The key of 4.3: source and chunk number joined when both are present,
    the first 100 characters of the content otherwise. *)
Definition spec_dedup_key (doc : Document) : result string :=
  match metadata doc !! "source", metadata doc !! "chunk_id" with
  | Some src, Some cid => py_add_str src (py_str cid)
  | _, _ => Ok (PyStr.prefix 100 (page_content doc))
  end.

(** The parsing of 4.2: leading markers and surrounding whitespace
    stripped, blank lines and lines equal to the question without regard
    to case discarded, at most [count] lines kept. *)
Definition spec_normalize (line : string) : string :=
  PyStr.strip (PyStr.lstrip_chars "-* " line).

Definition spec_parse_variants (count : Z) (query : string) (content : string)
  : list string :=
  take (Z.to_nat count)
       (filter (fun l => keeps query l = true)
               (spec_normalize <$> PyStr.splitlines content)).


(** *** Positions, calls and configurations *)

(** Position [i] of a list of keys holds the first occurrence of its key. *)
Definition is_first (ks : list string) (i : nat) : bool :=
  match ks !! i with
  | Some k => bool_decide (k ∉ take i ks)
  | None => false
  end.

(** The candidates standing at a first occurrence of their key, in order. *)
Definition first_occurrences (ks : list string) (docs : list Document)
  : list Document :=
  (filter (fun p => is_first ks p.1 = true) (imap pair docs)).*2.

(** The calls a list of calls makes to the text-generation helper, which
    only the rewriter uses. *)
Definition is_rewrite_call (c : Call) : bool :=
  match c with
  | CallInvokeModel TextGeneration _ _ => true
  | _ => false
  end.

Definition rewrite_calls (log : list Call) : list Call :=
  filter (fun c => is_rewrite_call c = true) log.

(** The pipeline object without the two fields of its retriever that a
    request writes. *)
Definition configuration (p : Pipeline.t) : Pipeline.t :=
  Pipeline.set_retriever
    (Retriever.set_last_query_variants []
       (Retriever.set_last_hypothetical_document None (Pipeline.retriever p)))
    p.

Definition same_configuration (s s' : State) : Prop :=
  configuration (self s') = configuration (self s).

Definition same_rewrite_calls (s s' : State) : Prop :=
  rewrite_calls (calls s') = rewrite_calls (calls s).

(** A method relates every state it starts from to the state it leaves. *)
Definition respects (R : State -> State -> Prop) {A} (m : M A) : Prop :=
  forall s, R s (m s).2.

(** The contract of the rerank backend in 6: at most [topN] results. *)
Definition honours_top_n : Prop :=
  forall log model query (documents : list Document) top_n body results entries,
    invoke_model bk log model (rerank_body query documents top_n) = Ok body ->
    py_get body "results" (PList []) = Ok results ->
    py_iter results = Ok entries ->
    (Z.of_nat (length entries)
     <= Z.max 0 (Z.min top_n (Z.of_nat (length documents))))%Z.


End Service.

(** ** Concrete services for the examples *)

Module Fixtures.

(** An interpretation of the built-ins; no example reaches them. *)
Definition unreached : PyBuiltins :=
  {| py_repr := fun _ => ""; py_format_3f := fun _ => Raise ValueError |}.

Definition chunk (source : string) (chunk_id : Z) (text : string) : Document :=
  {| page_content := text;
     metadata := {[ "source" := PStr source; "chunk_id" := PInt chunk_id ]} |}.

Definition A : Document := chunk "s3://docs/a.pdf" 0 "alpha".
Definition B : Document := chunk "s3://docs/a.pdf" 1 "beta".
Definition C : Document := chunk "s3://docs/b.pdf" 0 "gamma".

(** A candidate with a source and no chunk number. *)
Definition source_only : Document :=
  {| page_content := "hello"; metadata := {[ "source" := PStr "a.pdf" ]} |}.

Definition settings_with (rerank : option string) (k k_rerank : Z)
    (fusion : bool) (count : Z) (hyde : bool) : Settings.t :=
  {| Settings.bedrock_chat_model_id := "anthropic.claude-3-haiku-20240307-v1:0";
     Settings.bedrock_embedding_model_id := "amazon.titan-embed-text-v2";
     Settings.bedrock_rerank_model_id := rerank;
     Settings.pg_host := "localhost";
     Settings.pg_port := 5432;
     Settings.pg_user := "rag";
     Settings.pg_password := "secret";
     Settings.pg_database := "rag";
     Settings.pg_use_ssl := true;
     Settings.vector_collection := "rag_docs";
     Settings.vector_search_k := k;
     Settings.vector_search_k_rerank := k_rerank;
     Settings.enable_query_fusion := fusion;
     Settings.fusion_variant_count := count;
     Settings.enable_hyde := hyde |}.

(** The service as [startup_event] builds it, before any request. *)
Definition service (st : Settings.t) : State :=
  {| self := RAGPipeline (build_retriever st) st; calls := [] |}.

Definition backends_of (search : string -> result (list Document))
    (chat : Messages -> result ResponseContent)
    (model : pyval -> result pyval) : Backends :=
  {| similarity_search := fun _ _ query _ => search query;
     chat_invoke := fun _ _ messages => chat messages;
     invoke_model := fun _ _ body => model body |}.

Definition is_fusion_request (messages : Messages) : bool :=
  match messages with
  | (_, text) :: _ =>
      bool_decide (text = "Ban la tro ly tao cac truy van tim kiem tuong tu.")
  | [] => false
  end.

Definition no_model : pyval -> result pyval :=
  fun _ => Raise (BackendError "no model").

(** Scenario A of the specification. *)
Definition settings_A : Settings.t := settings_with None 3 2 false 3 false.
Definition backends_A : Backends :=
  backends_of (fun _ => Ok [A; B; C]) (fun _ => Ok (CText "Answer.")) no_model.

(** Fusion enabled, and the chat model fails on the fusion request only. *)
Definition settings_fusion : Settings.t := settings_with None 3 2 true 2 false.
Definition backends_fusion_down : Backends :=
  backends_of (fun _ => Ok [A; B])
    (fun messages => if is_fusion_request messages
                     then Raise (BackendError "throttled")
                     else Ok (CText "Answer."))
    no_model.

(** Fusion enabled, and the chat model answers the fusion request with the
    three lines of scenario B. *)
Definition lines_B : string :=
  "- v1" +:+ PyStr.nl +:+ "v1" +:+ PyStr.nl +:+ "v2".
Definition backends_fusion : Backends :=
  backends_of (fun _ => Ok [A; B])
    (fun messages => if is_fusion_request messages
                     then Ok (CText lines_B)
                     else Ok (CText "Answer."))
    no_model.

(** A rerank model that returns an entry for every candidate, whatever
    [topN] asks for. *)
Definition settings_rerank (k_rerank : Z) : Settings.t :=
  settings_with (Some "cohere.rerank-v3-5:0") 3 k_rerank false 3 false.
Definition entry_of (index : Z) : pyval := PDict {[ "index" := PInt index ]}.
Definition backends_rerank_all : Backends :=
  backends_of (fun _ => Ok [A; B]) (fun _ => Ok (CText "Answer."))
    (fun _ => Ok (PDict {[ "results" := PList [entry_of 1; entry_of 0] ]})).

(** A rerank model that returns the first [topN] candidates. *)
Definition first_top_n (body : pyval) : result pyval :=
  match body with
  | PDict d =>
      match d !! "topN" with
      | Some (PInt n) =>
          Ok (PDict {[ "results" := PList (entry_of <$> seqZ 0 n) ]})
      | _ => Raise (BackendError "bad request")
      end
  | _ => Raise (BackendError "bad request")
  end.
Definition backends_rerank_top_n : Backends :=
  backends_of (fun _ => Ok [A; B; C]) (fun _ => Ok (CText "Answer."))
    first_top_n.

(** A rerank model whose second entry lacks its index. *)
Definition scored (index : Z) (score : Q) : pyval :=
  PDict {[ "index" := PInt index; "relevanceScore" := PFloat (FFinite score) ]}.
Definition B_scored : Document :=
  {| page_content := "beta";
     metadata := <["rerank_score" := PFloat (FFinite (9 # 10))]> (metadata B) |}.

(** A rerank size of zero in the settings. *)
Definition settings_zero : Settings.t := settings_with None 3 0 true 0 false.

End Fixtures.

(** ** The rest of the service *)

(** *** [shared/bedrock.py]: batching *)

(** The loop of the generator [chunked], with its local [chunk]; the
    chunks it yields, in order. *)
Fixpoint chunked_loop {A} (size : Z) (items : list A) (chunk : list A)
  : list (list A) :=
  match items with
  | [] => match chunk with [] => [] | _ => [chunk] end
  | item :: rest =>
      let chunk' := (chunk ++ [item])%list in
      if (size <=? Z.of_nat (length chunk'))%Z
      then chunk' :: chunked_loop size rest []
      else chunked_loop size rest chunk'
  end.

Definition chunked {A} (items : list A) (size : Z) : list (list A) :=
  chunked_loop size items [].

(** An embedding vector. *)
Definition Embedding := list pyfloat.

(** The embedding model: [embed_documents], which receives the batches
    sent before. *)
Definition Embedder := list (list string) -> list string -> result (list Embedding).

(** The loop of [embed_texts] over the batches, with the batches sent so
    far and the local [results]. *)
Fixpoint embed_batches (embed_documents : Embedder) (batches : list (list string))
    (sent : list (list string)) (results : list Embedding)
  : result (list Embedding) * list (list string) :=
  match batches with
  | [] => (Ok results, sent)
  | batch :: rest =>
      match embed_documents sent batch with
      | Ok vectors =>
          embed_batches embed_documents rest (sent ++ [batch])%list
            (results ++ vectors)%list
      | Raise e => (Raise e, (sent ++ [batch])%list)
      end
  end.

(** [embed_texts]: the result, and the batches sent to the model. *)
Definition embed_texts (embed_documents : Embedder) (texts : list string)
    (batch_size : Z) : result (list Embedding) * list (list string) :=
  embed_batches embed_documents (chunked texts batch_size) [] [].

(** *** [ingest/pipeline.py]: provenance of the chunks *)

(** [d.setdefault(k, v)] *)
Definition setdefault (k : string) (v : pyval) (d : gmap string pyval)
  : gmap string pyval :=
  match d !! k with
  | Some _ => d
  | None => <[k := v]> d
  end.

(** One turn of the loop of [chunk_documents] over the numbered chunks. *)
Definition with_provenance (idx : nat) (chunk : Document) : Document :=
  let metadata := setdefault "chunk_id" (PInt (Z.of_nat idx)) (metadata chunk) in
  let metadata := setdefault "source" (default PNone (metadata !! "source"))
                    metadata in
  {| page_content := page_content chunk; metadata := metadata |}.

(** [chunk_documents], given the text splitter. *)
Definition chunk_documents
    (split_documents : list Document -> result (list Document))
    (documents : list Document) : result (list Document) :=
  chunks ← split_documents documents;
  mret (imap with_provenance chunks).

(** *** [api/app.py]: the query endpoint *)

Module App.







End App.

Section Endpoint.
Context {builtins : PyBuiltins}.
Variable bk : Backends.


End Endpoint.

(** *** Notions for the calls of a request *)

(** The queries of the similarity searches of a log, in order. *)
Definition search_query (c : Call) : option string :=
  match c with
  | CallSimilaritySearch _ query _ => Some query
  | _ => None
  end.

Definition search_queries (log : list Call) : list string :=
  omap search_query log.

(** A document that some similarity search returned. *)
Definition retrieved (bk : Backends) (d : Document) : Prop :=
  exists log store query k docs,
    similarity_search bk log store query k = Ok docs /\ d ∈ docs.

(** *** Notions for the text primitives *)

(** A turn whose role, [user] when absent, has its capitalisation within
    the code points of the embedding. *)
Definition role_in_alphabet (turn : Turn) : Prop :=
  PyStr.capitalizable (default "user" (turn !! "role")) = true.

(** Lists that do not start with a code point of [p]. *)
Definition starts_outside (p : ascii -> bool) (l : list ascii) : Prop :=
  match l with
  | [] => True
  | c :: _ => p c = false
  end.

(** *** Notions for the backend calls of a request *)

(** A backend call made with the handles and the sizes that the pipeline
    [p] holds: a search of its vector store for [primary_k] documents, a
    chat call of its answer model or of the query model of its retriever,
    a text generation with the chat model of its settings, a rerank
    request to its rerank model. *)
Definition configured_call (p : Pipeline.t) (c : Call) : Prop :=
  let r := Pipeline.retriever p in
  match c with
  | CallSimilaritySearch store _ k =>
      store = Retriever.vector_store r /\ k = Retriever.primary_k r
  | CallChat model _ =>
      model = Pipeline.answer_llm p \/ model = Retriever._query_llm r
  | CallInvokeModel TextGeneration model _ =>
      model = Settings.bedrock_chat_model_id (Pipeline.settings p)
  | CallInvokeModel Rerank model _ => rerank_configured r = Some model
  end.

(** From [s] to [s'] the configuration is kept and only such calls are
    made. *)
Definition configured_calls (s s' : State) : Prop :=
  configuration (self s') = configuration (self s)
  /\ exists added,
       calls s' = (calls s ++ added)%list
       /\ Forall (configured_call (self s)) added.

(** *** Notions for what a request itself made and received *)

(** The call [c] was made on the log [log] between the logs [before] and
    [after]. *)
Definition made_between (before after log : list Call) (c : Call) : Prop :=
  before `prefix_of` log /\ (log ++ [c])%list `prefix_of` after.

(** A document that a similarity search made between two logs returned. *)
Definition retrieved_between (bk : Backends) (before after : list Call)
    (d : Document) : Prop :=
  exists log store query k docs,
    made_between before after log (CallSimilaritySearch store query k)
    /\ similarity_search bk log store query k = Ok docs
    /\ d ∈ docs.

Section RequestNotions.
Context {builtins : PyBuiltins}.
Variable bk : Backends.

(** The variants that a retriever [r] generates for [query] between two
    logs: none with fusion disabled, and otherwise the ones parsed from the
    response to the fusion request made between them. *)
Definition generated_variants (r : Retriever.t) (before after : list Call)
    (query : string) (variants : list string) : Prop :=
  if Retriever.enable_query_fusion r
  then exists log messages response content,
         format_messages (Retriever._fusion_prompt r) {[ "question" := query ]}
         = Ok messages
         /\ made_between before after log
              (CallChat (Retriever._query_llm r) messages)
         /\ chat_invoke bk log (Retriever._query_llm r) messages = Ok response
         /\ _to_plain_text response = Ok content
         /\ variants
            = parse_variants (Retriever.fusion_variant_count r) query content
  else variants = [].

(** The hypothetical document that a retriever [r] generates for [query]
    between two logs: the empty text with HyDE disabled, and otherwise the
    stripped text of the response to the HyDE request made between them. *)
Definition generated_hypothetical (r : Retriever.t) (before after : list Call)
    (query : string) (hypo : string) : Prop :=
  if Retriever.enable_hyde r
  then exists log messages response text,
         format_messages (Retriever._hyde_prompt r) {[ "question" := query ]}
         = Ok messages
         /\ made_between before after log
              (CallChat (Retriever._query_llm r) messages)
         /\ chat_invoke bk log (Retriever._query_llm r) messages = Ok response
         /\ _to_plain_text response = Ok text
         /\ hypo = PyStr.strip text
  else hypo = "".

End RequestNotions.

(** ** Further fixtures *)

Module Samples.

(** The result of the request [v1], without history, on the service with
    fusion. *)
Definition fusion_result : PipelineResult :=
  {| question := "v1";
     rewritten_question := "v1";
     answer := "Answer.";
     contexts := [context_payload Fixtures.A; context_payload Fixtures.B];
     query_variants := ["v2"];
     hyde_document := None |}.


(** A splitter that gives two chunks of one source, without chunk
    numbers. *)
Definition two_chunks : list Document :=
  [ Fixtures.source_only;
    {| page_content := "world"; metadata := {[ "source" := PStr "a.pdf" ]} |} ].
Definition splitter (documents : list Document) : result (list Document) :=
  Ok two_chunks.

(** A chunk without metadata. *)
Definition bare : Document := {| page_content := "hello"; metadata := ∅ |}.

(** Candidates whose source is the empty text, and [None]. *)
Definition empty_source : Document :=
  {| page_content := "hello"; metadata := {[ "source" := PStr "" ]} |}.
Definition none_source : Document :=
  {| page_content := "hello"; metadata := {[ "source" := PNone ]} |}.

(** A turn of a history. *)
Definition user_turn : Turn :=
  {[ "role" := "user"; "content" := "Tell me about X." ]}.

(** A response body of the rerank model with one entry. *)
Definition one_entry : pyval :=
  PDict {[ "results" := PList [Fixtures.scored 1 (9 # 10)] ]}.

End Samples.

(** * Properties *)

#[local] Close Scope Z_scope.

(** ** The text primitives on examples *)

Example splitlines_ex :
  PyStr.splitlines ("- v1" +:+ PyStr.nl +:+ "v1" +:+ PyStr.nl +:+ "v2")
  = ["- v1"; "v1"; "v2"].
Proof. reflexivity. Qed.

Example splitlines_trailing :
  PyStr.splitlines ("a" +:+ PyStr.nl +:+ PyStr.nl) = ["a"; ""].
Proof. reflexivity. Qed.

Example strip_chars_ex : PyStr.strip (PyStr.strip_chars "-* " "- v1 *") = "v1".
Proof. reflexivity. Qed.

Example lower_ex : PyStr.lower "What Is X?" = "what is x?".
Proof. reflexivity. Qed.

Example of_int_ex : PyStr.of_int (-12) = "-12".
Proof. reflexivity. Qed.

Example splitlines_crlf :
  PyStr.splitlines
    ("a" +:+ String (ascii_of_N 13) PyStr.nl +:+ "b" +:+ String (ascii_of_N 13) "c")
  = ["a"; "b"; "c"].
Proof. reflexivity. Qed.

Example strip_line_tab : strip_line (String (ascii_of_N 9) "- v1") = "- v1".
Proof. reflexivity. Qed.

Example capitalize_ex : PyStr.capitalize "aSSISTANT" = "Assistant".
Proof. reflexivity. Qed.

Example capitalize_sharp_s :
  PyStr.capitalize (String (ascii_of_N 223) "A") = "Ssa".
Proof. reflexivity. Qed.

Example cleanup_result_tag_ex :
  _cleanup_result_tag "so: <result> What is X? </result> bye </result>"
  = "What is X?".
Proof. reflexivity. Qed.

Example slice_to_negative : slice_to (-1) [1; 2; 3]%Z = [1; 2]%Z.
Proof. reflexivity. Qed.

(** ** The monad of the methods *)

Section MonadFacts.

Lemma M_bind_unfold {A B} (m : M A) (f : A -> M B) (s : State) :
  (m ≫= f) s = match m s with
               | (Ok a, s') => f a s'
               | (Raise e, s') => (Raise e, s')
               end.
Proof. reflexivity. Qed.

Lemma M_bind_returns {A B} (m : M A) (f : A -> M B) s b s' :
  (m ≫= f) s = (Ok b, s') ->
  exists a s1, m s = (Ok a, s1) /\ f a s1 = (Ok b, s').
Proof.
  rewrite M_bind_unfold. destruct (m s) as [[a|e] s1]; [eauto|discriminate].
Qed.

Lemma M_bind_ok {A B} (m : M A) (f : A -> M B) s a s1 :
  m s = (Ok a, s1) -> (m ≫= f) s = f a s1.
Proof. intros H. by rewrite M_bind_unfold, H. Qed.

Lemma M_bind_raises_fst {A B} (m : M A) (f : A -> M B) s e :
  (m s).1 = Raise e -> ((m ≫= f) s).1 = Raise e.
Proof.
  rewrite M_bind_unfold. destruct (m s) as [[a|e'] s1]; simpl; [done|].
  by intros [= ->].
Qed.

End MonadFacts.

(** ** Deduplication *)

Lemma append_empty_r (s : string) : s +:+ "" = s.
Proof.
  induction s as [|c s IH]; [done|].
  change (String c (s +:+ "") = String c s). by rewrite IH.
Qed.

Section DedupProperties.
Context {builtins : PyBuiltins}.

Lemma mapM_result_cons {A B} (f : A -> result B) (x : A) (l : list A) :
  mapM f (x :: l) = y ← f x; k ← mapM f l; mret (y :: k).
Proof. reflexivity. Qed.

(** What a returning run of the loop appends: candidates of the pool, in
    pool order, with distinct keys that were not seen before. *)
Lemma dedup_loop_returns docs : forall seen ordered Y,
  dedup_loop docs seen ordered = Ok Y ->
  exists Z ks, Y = (ordered ++ Z)%list /\ mapM dedup_key Z = Ok ks /\ NoDup ks
    /\ (forall k, k ∈ ks -> seen !! k = None) /\ sublist Z docs.
Proof.
  induction docs as [|doc rest IH]; intros seen ordered Y H; simpl in H.
  - injection H as <-. exists [], []. rewrite app_nil_r.
    repeat split; [constructor | set_solver | constructor].
  - destruct (dedup_key doc) as [key|e] eqn:Hkey; simpl in H; [|discriminate].
    destruct (seen !! key) as [d|] eqn:Hseen.
    + destruct (IH _ _ _ H) as (Z & ks & -> & HZ & Hnd & Hfresh & Hsub).
      exists Z, ks. repeat split; auto. by apply sublist_cons.
    + destruct (IH _ _ _ H) as (Z & ks & -> & HZ & Hnd & Hfresh & Hsub).
      exists (doc :: Z), (key :: ks). rewrite <- app_assoc.
      repeat split.
      * rewrite mapM_result_cons, Hkey, HZ. done.
      * constructor; [|done]. intros Hin. apply Hfresh in Hin.
        by rewrite lookup_insert_eq in Hin.
      * intros k [->|Hin]%elem_of_cons; [done|].
        specialize (Hfresh k Hin).
        destruct (decide (key = k)) as [->|Hne].
        -- by rewrite lookup_insert_eq in Hfresh.
        -- by rewrite lookup_insert_ne in Hfresh.
      * by apply sublist_skip.
Qed.

(** A pool whose keys are distinct and unseen goes through unchanged. *)
Lemma dedup_loop_fresh Z : forall ks seen ordered,
  mapM dedup_key Z = Ok ks -> NoDup ks ->
  (forall k, k ∈ ks -> seen !! k = None) ->
  dedup_loop Z seen ordered = Ok (ordered ++ Z)%list.
Proof.
  induction Z as [|doc rest IH]; intros ks seen ordered HZ Hnd Hfresh; simpl.
  - by rewrite app_nil_r.
  - rewrite mapM_result_cons in HZ.
    destruct (dedup_key doc) as [key|e] eqn:Hkey; simpl in HZ; [|discriminate].
    destruct (mapM dedup_key rest) as [ks'|e] eqn:Hrest; simpl in HZ; [|discriminate].
    injection HZ as <-. simpl.
    rewrite (Hfresh key) by set_solver.
    apply NoDup_cons in Hnd as [Hnotin Hnd].
    rewrite (IH ks' _ _ eq_refl Hnd).
    + by rewrite <- app_assoc.
    + intros k Hin. rewrite lookup_insert_ne; [apply Hfresh; set_solver|].
      intros ->. done.
Qed.

Lemma deduplicate_idempotent X :
  (_deduplicate X ≫= _deduplicate) = _deduplicate X.
Proof.
  destruct (_deduplicate X) as [Y|e] eqn:HX; [|done]. simpl.
  apply dedup_loop_returns in HX as (Z & ks & -> & HZ & Hnd & _ & _).
  simpl. unfold _deduplicate. by rewrite (dedup_loop_fresh Z ks ∅ [] HZ Hnd).
Qed.

Lemma deduplicate_length X Y :
  _deduplicate X = Ok Y -> (length Y <= length X)%nat.
Proof.
  intros (Z & ks & -> & _ & _ & _ & Hsub)%dedup_loop_returns.
  simpl. by apply sublist_length.
Qed.

Lemma result_bind_ok {A B} (a : A) (f : A -> result B) : (Ok a ≫= f) = f a.
Proof. reflexivity. Qed.

Lemma is_first_middle (pre ks : list string) (k : string) :
  is_first (pre ++ k :: ks) (length pre) = bool_decide (k ∉ pre).
Proof.
  unfold is_first. rewrite list_lookup_middle by done.
  by rewrite take_app_length.
Qed.

(** The loop keeps exactly the candidates that stand at the first
    occurrence of their key, counting the keys [pre] seen before it. *)
Lemma dedup_loop_first_occurrences X : forall pre seen ordered,
  (forall k, seen !! k = None <-> k ∉ pre) ->
  dedup_loop X seen ordered =
    ks ← mapM dedup_key X;
    mret (ordered ++ (filter (fun p => is_first (pre ++ ks) p.1 = true)
                        (imap (fun i d => (length pre + i, d)) X)).*2)%list.
Proof.
  induction X as [|doc rest IH]; intros pre seen ordered Hseen.
  - simpl. by rewrite app_nil_r.
  - rewrite mapM_result_cons. cbn [dedup_loop].
    destruct (dedup_key doc) as [key|e] eqn:Hkey; [|done].
    change (Ok key ≫= ?f) with (f key). cbv beta.
    assert (Hshift : imap (fun i d => (length pre + i, d)) (doc :: rest)
      = (length pre, doc) :: imap (fun i d => (length (pre ++ [key]) + i, d)) rest).
    { rewrite imap_cons. f_equal; [f_equal; lia|].
      apply imap_ext. intros i d _. simpl. rewrite length_app. simpl.
      f_equal. lia. }
    destruct (seen !! key) as [d|] eqn:Hlook.
    + assert (Hin : key ∈ pre).
      { apply dec_stable. intros Hn. apply Hseen in Hn. congruence. }
      rewrite (IH (pre ++ [key])%list).
      2:{ intros k. rewrite Hseen, not_elem_of_app, list_elem_of_singleton.
          split; [intros Hk; split; [done|by intros ->]|by intros [? _]]. }
      destruct (mapM dedup_key rest) as [ks|e]; [|done].
      unfold mret, result_ret. rewrite !result_bind_ok.
      rewrite Hshift, filter_cons. rewrite <- app_assoc.
      change ([key] ++ ks)%list with (key :: ks). cbn [fst].
      rewrite is_first_middle.
      rewrite bool_decide_eq_false_2 by (intros Hn; done).
      rewrite decide_False by done. done.
    + assert (Hnotin : key ∉ pre) by by apply Hseen.
      rewrite (IH (pre ++ [key])%list).
      2:{ intros k. rewrite not_elem_of_app, list_elem_of_singleton.
          destruct (decide (key = k)) as [->|Hne].
          - rewrite lookup_insert_eq. split; [done|by intros [_ []]].
          - rewrite lookup_insert_ne by done. rewrite Hseen.
            split; [by intros Hk; split; [|intros ->]|by intros [? _]]. }
      destruct (mapM dedup_key rest) as [ks|e]; [|done].
      unfold mret, result_ret. rewrite !result_bind_ok.
      rewrite Hshift, filter_cons. rewrite <- !app_assoc.
      change ([key] ++ ks)%list with (key :: ks). cbn [fst].
      rewrite is_first_middle.
      rewrite bool_decide_eq_true_2 by done.
      rewrite decide_True by done. done.
Qed.

Lemma deduplicate_first_occurrences X :
  _deduplicate X = ks ← mapM dedup_key X; mret (first_occurrences ks X).
Proof.
  unfold _deduplicate. rewrite (dedup_loop_first_occurrences X []).
  2:{ intros k. rewrite lookup_empty. split; [intros _|done].
      apply not_elem_of_nil. }
  destruct (mapM dedup_key X) as [ks|e]; [|done].
  unfold mret, result_ret. rewrite !result_bind_ok.
  unfold first_occurrences. do 3 f_equal.
Qed.

(** C2 (amended): for every candidate, with the source taken as the empty
    text when absent and the text of the chunk number taken as empty when
    absent: when the source is a text, the deduplication key is the source
    followed by the text of the chunk number, and the first 100 characters
    of the content exactly when that text is empty; when the source is not
    a text, computing the key raises [TypeError]. So a candidate with a
    source and no chunk number is keyed by its source. Deduplication keeps
    exactly the candidates standing at the first occurrence of their key,
    in pool order. *)
Theorem dedup_key_and_first_occurrences :
  (forall doc src cid,
      metadata doc !! "source" = Some (PStr src) ->
      metadata doc !! "chunk_id" = Some cid ->
      src +:+ py_str cid <> "" ->
      dedup_key doc = Ok (src +:+ py_str cid))
  /\ (forall doc src,
        metadata doc !! "source" = Some (PStr src) ->
        metadata doc !! "chunk_id" = None ->
        src <> "" ->
        dedup_key doc = Ok src)
  /\ (forall doc cid,
        metadata doc !! "source" = None ->
        metadata doc !! "chunk_id" = Some cid ->
        py_str cid <> "" ->
        dedup_key doc = Ok (py_str cid))
  /\ (forall doc,
        metadata doc !! "source" = None ->
        metadata doc !! "chunk_id" = None ->
        dedup_key doc = Ok (PyStr.prefix 100 (page_content doc)))
  /\ (forall docs,
        _deduplicate docs
        = ks ← mapM dedup_key docs; mret (first_occurrences ks docs))
  /\ (forall doc,
        let source := default (PStr "") (metadata doc !! "source") in
        let number := py_str (default (PStr "") (metadata doc !! "chunk_id")) in
        (forall src, source = PStr src -> src +:+ number <> "" ->
           dedup_key doc = Ok (src +:+ number))
        /\ (forall src, source = PStr src -> src +:+ number = "" ->
              dedup_key doc = Ok (PyStr.prefix 100 (page_content doc)))
        /\ ((forall src, source <> PStr src) ->
              dedup_key doc = Raise TypeError)).
Proof.
  split; [|split; [|split; [|split; [|split]]]].
  - intros doc src cid Hs Hc Hne. unfold dedup_key, dict_get.
    rewrite Hs, Hc. simpl. by rewrite bool_decide_eq_false_2.
  - intros doc src Hs Hc Hne. unfold dedup_key, dict_get.
    rewrite Hs, Hc. simpl. rewrite append_empty_r.
    by rewrite bool_decide_eq_false_2.
  - intros doc cid Hs Hc Hne. unfold dedup_key, dict_get.
    rewrite Hs, Hc. simpl. by rewrite bool_decide_eq_false_2.
  - intros doc Hs Hc. unfold dedup_key, dict_get. by rewrite Hs, Hc.
  - apply deduplicate_first_occurrences.
  - intros doc source number. subst source number.
    unfold dedup_key, dict_get. split; [|split].
    + intros src -> Hne. simpl. by rewrite bool_decide_eq_false_2.
    + intros src -> He. simpl. by rewrite bool_decide_eq_true_2.
    + intros Hsrc.
      destruct (default (PStr "") (metadata doc !! "source")) as [| | | |src| |];
        try done.
      by destruct (Hsrc src).
Qed.

(** C6: deduplication is idempotent and never lengthens the pool, it
    returns whenever every key can be computed, and the pool [A, B]
    followed by [B, C] gives [A, B, C], with B taken from the first list. *)
Theorem dedup_idempotent_and_scenario_C :
  (forall X, (_deduplicate X ≫= _deduplicate) = _deduplicate X)
  /\ (forall X Y, _deduplicate X = Ok Y -> (length Y <= length X)%nat)
  /\ (forall X, Forall (fun d => is_ok (dedup_key d) = true) X ->
                is_ok (_deduplicate X) = true)
  /\ (forall A B B' C kA kB kC,
        dedup_key A = Ok kA -> dedup_key B = Ok kB ->
        dedup_key B' = Ok kB -> dedup_key C = Ok kC ->
        kA <> kB -> kA <> kC -> kB <> kC ->
        _deduplicate ([A; B] ++ [B'; C]) = Ok [A; B; C]).
Proof.
  repeat split.
  - apply deduplicate_idempotent.
  - apply deduplicate_length.
  - intros X HX. rewrite deduplicate_first_occurrences.
    assert (exists ks, mapM dedup_key X = Ok ks) as [ks ->]; [|done].
    induction HX as [|d X Hd _ [ks IH]]; [by exists []|].
    rewrite mapM_result_cons, IH.
    destruct (dedup_key d) as [k|e]; [by eexists|done].
  - intros A B B' C kA kB kC HA HB HB' HC Hab Hac Hbc.
    unfold _deduplicate. simpl. rewrite HA. simpl.
    rewrite lookup_empty, HB. simpl.
    rewrite lookup_insert_ne, lookup_empty by done.
    rewrite HB'. simpl. rewrite lookup_insert_eq, HC. simpl.
    by rewrite !lookup_insert_ne, lookup_empty by done.
Qed.

End DedupProperties.

(** ** Relations every method respects *)

Section Frame.
Context {builtins : PyBuiltins}.
Variable bk : Backends.
Variable R : State -> State -> Prop.
Hypothesis R_refl : forall s, R s s.
Hypothesis R_trans : forall s1 s2 s3, R s1 s2 -> R s2 s3 -> R s1 s3.
Hypothesis R_update : forall f s,
  configuration (Pipeline.set_retriever (f (Pipeline.retriever (self s))) (self s))
    = configuration (self s) ->
  R s (update_retriever f s).2.
Hypothesis R_call : forall A c (o : list Call -> result A) s,
  is_rewrite_call c = false -> R s (backend_call c o s).2.

Lemma respects_ret {A} (a : A) : respects R (mret a).
Proof. intros s. apply R_refl. Qed.

Lemma respects_lift {A} (r : result A) : respects R (lift r).
Proof. intros s. apply R_refl. Qed.

Lemma respects_get_retriever : respects R get_retriever.
Proof. intros s. apply R_refl. Qed.

Lemma respects_get_pipeline : respects R get_pipeline.
Proof. intros s. apply R_refl. Qed.

Lemma respects_bind {A B} (m : M A) (f : A -> M B) :
  respects R m -> (forall a, respects R (f a)) -> respects R (m ≫= f).
Proof.
  intros Hm Hf s. rewrite M_bind_unfold. specialize (Hm s).
  destruct (m s) as [[a|e] s1]; simpl in *; [|done].
  eapply R_trans; [exact Hm|apply Hf].
Qed.

Lemma respects_try_except {A} (body : M A) (handler : exn -> M A) :
  respects R body -> (forall e, respects R (handler e)) ->
  respects R (try_except body handler).
Proof.
  intros Hb Hh s. unfold try_except. specialize (Hb s).
  destruct (body s) as [[a|e] s1]; simpl in *; [done|].
  eapply R_trans; [exact Hb|apply Hh].
Qed.

Lemma respects_set_last_query_variants v :
  respects R (update_retriever (Retriever.set_last_query_variants v)).
Proof. intros s. by apply R_update. Qed.

Lemma respects_set_last_hypothetical_document h :
  respects R (update_retriever (Retriever.set_last_hypothetical_document h)).
Proof. intros s. by apply R_update. Qed.

Lemma respects_backend_call {A} c (o : list Call -> result A) :
  is_rewrite_call c = false -> respects R (backend_call c o).
Proof. intros Hc s. by apply R_call. Qed.

Ltac respects_step :=
  first
    [ apply respects_ret | apply respects_lift | apply respects_get_retriever
    | apply respects_get_pipeline | apply respects_set_last_query_variants
    | apply respects_set_last_hypothetical_document
    | apply respects_backend_call; reflexivity
    | apply respects_bind; [|intros ?]
    | apply respects_try_except; [|intros ?] ].

Lemma respects_search query : respects R (search bk query).
Proof. unfold search. repeat respects_step. Qed.

Lemma respects_generate_variant_queries query :
  respects R (_generate_variant_queries bk query).
Proof.
  unfold _generate_variant_queries. respects_step; [respects_step|].
  destruct (negb _); repeat respects_step.
Qed.

Lemma respects_generate_hypothetical_document query :
  respects R (_generate_hypothetical_document bk query).
Proof.
  unfold _generate_hypothetical_document. respects_step; [respects_step|].
  destruct (negb _); repeat respects_step.
Qed.

Lemma respects_extend_with_variants variants : forall candidates,
  respects R (extend_with_variants bk variants candidates).
Proof.
  induction variants as [|v rest IH]; intros candidates; simpl.
  - respects_step.
  - respects_step; [apply respects_search|]. apply IH.
Qed.

Lemma respects_retrieve_candidates query :
  respects R (_retrieve_candidates bk query).
Proof.
  unfold _retrieve_candidates.
  respects_step; [apply respects_search|].
  respects_step; [apply respects_generate_variant_queries|].
  respects_step; [apply respects_extend_with_variants|].
  respects_step; [apply respects_generate_hypothetical_document|].
  respects_step; [|respects_step].
  case_bool_decide; [respects_step|].
  respects_step; [apply respects_search|respects_step].
Qed.

Lemma respects_invoke_rerank id query docs top_n :
  respects R (invoke_rerank bk id query docs top_n).
Proof.
  unfold invoke_rerank. destruct docs; repeat respects_step.
Qed.

Lemma respects_apply_rerank query docs :
  respects R (_apply_rerank bk query docs).
Proof.
  unfold _apply_rerank. respects_step; [respects_step|].
  destruct (rerank_configured _); [|respects_step].
  respects_step; [|respects_step].
  apply respects_bind; [apply respects_invoke_rerank|].
  intros [|d reranked]; respects_step.
Qed.

Lemma respects_get_relevant_documents query :
  respects R (_get_relevant_documents bk query).
Proof.
  unfold _get_relevant_documents.
  respects_step; [apply respects_retrieve_candidates|].
  apply respects_apply_rerank.
Qed.

Lemma respects_run question history :
  respects R (_rewrite_question bk question history) ->
  respects R (run bk question history).
Proof.
  intros Hrw. unfold run. respects_step; [exact Hrw|].
  respects_step; [apply respects_get_relevant_documents|].
  repeat respects_step.
Qed.

End Frame.

(** ** The request leaves the configuration alone *)

Section Configuration.
Context {builtins : PyBuiltins}.
Variable bk : Backends.

Lemma same_configuration_refl s : same_configuration s s.
Proof. reflexivity. Qed.

Lemma same_configuration_trans s1 s2 s3 :
  same_configuration s1 s2 -> same_configuration s2 s3 ->
  same_configuration s1 s3.
Proof. unfold same_configuration. congruence. Qed.

Lemma same_configuration_update f s :
  configuration (Pipeline.set_retriever (f (Pipeline.retriever (self s))) (self s))
    = configuration (self s) ->
  same_configuration s (update_retriever f s).2.
Proof. intros H. exact H. Qed.

Lemma same_configuration_call A c (o : list Call -> result A) s :
  same_configuration s (backend_call c o s).2.
Proof. reflexivity. Qed.

Lemma invoke_text_generation_self model sys usr s :
  self (invoke_text_generation bk model sys usr s).2 = self s.
Proof.
  unfold invoke_text_generation. rewrite M_bind_unfold.
  unfold backend_call, lift.
  destruct (invoke_model _ _ _ _); reflexivity.
Qed.

Lemma rewrite_question_self question history s :
  self (_rewrite_question bk question history s).2 = self s.
Proof.
  unfold _rewrite_question.
  destruct history as [[|t ts]|]; try reflexivity.
  case_bool_decide; [reflexivity|].
  rewrite M_bind_unfold. unfold get_pipeline, try_except.
  rewrite M_bind_unfold.
  pose proof (invoke_text_generation_self
    (Settings.bedrock_chat_model_id (Pipeline.settings (self s)))
    get_contextualize_system_prompt
    (rewrite_user_prompt (_format_history (Some (t :: ts))) question) s)
    as Hself.
  destruct (invoke_text_generation _ _ _ _ _) as [[r|e] s1]; exact Hself.
Qed.

(** The rewriter never raises. *)
Lemma rewrite_question_returns question history s :
  exists rewritten, (_rewrite_question bk question history s).1 = Ok rewritten.
Proof.
  unfold _rewrite_question.
  destruct history as [[|t ts]|]; try (eexists; reflexivity).
  case_bool_decide; [eexists; reflexivity|].
  rewrite M_bind_unfold. unfold get_pipeline, try_except.
  rewrite M_bind_unfold.
  destruct (invoke_text_generation _ _ _ _ _) as [[r|e] s1];
    eexists; reflexivity.
Qed.

Lemma run_same_configuration question history s :
  same_configuration s (run bk question history s).2.
Proof.
  apply (respects_run bk same_configuration same_configuration_refl
           same_configuration_trans same_configuration_update).
  - intros A c o s0 _. apply same_configuration_call.
  - intros s0. unfold same_configuration.
    by rewrite rewrite_question_self.
Qed.

End Configuration.

(** ** The calls to the text-generation helper *)

Section RewriteCalls.
Context {builtins : PyBuiltins}.
Variable bk : Backends.

Lemma same_rewrite_calls_refl s : same_rewrite_calls s s.
Proof. reflexivity. Qed.

Lemma same_rewrite_calls_trans s1 s2 s3 :
  same_rewrite_calls s1 s2 -> same_rewrite_calls s2 s3 ->
  same_rewrite_calls s1 s3.
Proof. unfold same_rewrite_calls. congruence. Qed.

Lemma same_rewrite_calls_update f s :
  same_rewrite_calls s (update_retriever f s).2.
Proof. reflexivity. Qed.

Lemma same_rewrite_calls_call A c (o : list Call -> result A) s :
  is_rewrite_call c = false -> same_rewrite_calls s (backend_call c o s).2.
Proof.
  intros Hc. unfold same_rewrite_calls, rewrite_calls, backend_call. simpl.
  rewrite filter_app, filter_cons, decide_False by congruence.
  by rewrite filter_nil, app_nil_r.
Qed.

Lemma run_without_history_rewrite_calls question history s :
  history = None \/ history = Some [] ->
  same_rewrite_calls s (run bk question history s).2.
Proof.
  intros Hh.
  apply (respects_run bk same_rewrite_calls same_rewrite_calls_refl
           same_rewrite_calls_trans).
  - intros f s0 _. apply same_rewrite_calls_update.
  - apply same_rewrite_calls_call.
  - intros s0. destruct Hh as [-> | ->]; reflexivity.
Qed.

End RewriteCalls.

(** ** Parsing of the fusion response *)

Section Variants.

(** The lines the loop keeps, before the cap. *)
Lemma variants_loop_take count query lines : forall variants,
  (Z.of_nat (length variants) < count)%Z ->
  variants_loop count query lines variants
  = take (Z.to_nat count)
         (variants ++ filter (fun l => keeps query l = true)
                             (strip_line <$> lines)).
Proof.
  induction lines as [|line rest IH]; intros variants Hlen; simpl.
  - rewrite filter_nil, app_nil_r. symmetry. apply take_ge. lia.
  - rewrite filter_cons.
    destruct (bool_decide (strip_line line = "")) eqn:Hblank.
    { rewrite decide_False by (unfold keeps; rewrite Hblank; done).
      by apply IH. }
    destruct (bool_decide (PyStr.lower (strip_line line) = PyStr.lower query))
      eqn:Hsame.
    { rewrite decide_False by (unfold keeps; rewrite Hblank, Hsame; done).
      by apply IH. }
    rewrite decide_True by (unfold keeps; rewrite Hblank, Hsame; done).
    destruct (Z.leb_spec count (Z.of_nat (length (variants ++ [strip_line line]))))
      as [Hfull|Hroom].
    + rewrite (cons_middle _ variants (filter _ _)), (assoc_L (++)).
      symmetry. apply take_app_length'.
      rewrite length_app in *. simpl in *. lia.
    + rewrite IH by done. by rewrite (cons_middle _ variants (filter _ _)), (assoc_L (++)).
Qed.

Lemma parse_variants_take count query content :
  (1 <= count)%Z ->
  parse_variants count query content
  = take (Z.to_nat count)
         (filter (fun l => keeps query l = true)
                 (strip_line <$> PyStr.splitlines content)).
Proof.
  intros Hcount. unfold parse_variants.
  by rewrite variants_loop_take by (simpl; lia).
Qed.

End Variants.

(** ** Retrieval and the rerank stage *)

Section Rerank.
Context {builtins : PyBuiltins}.
Variable bk : Backends.

Lemma slice_to_take {A} (k : Z) (l : list A) :
  (0 <= k)%Z -> slice_to k l = take (Z.to_nat k) l.
Proof. intros Hk. unfold slice_to. by rewrite (proj2 (Z.leb_le 0 k)). Qed.

Lemma apply_rerank_not_configured query docs s :
  rerank_configured (Pipeline.retriever (self s)) = None ->
  _apply_rerank bk query docs s
  = (Ok (slice_to (Retriever.final_k (Pipeline.retriever (self s))) docs), s).
Proof.
  intros Hnone. unfold _apply_rerank. rewrite M_bind_unfold.
  unfold get_retriever. by rewrite Hnone.
Qed.

Lemma search_unfold query s :
  search bk query s
  = (similarity_search bk (calls s)
       (Retriever.vector_store (Pipeline.retriever (self s))) query
       (Retriever.primary_k (Pipeline.retriever (self s))),
     {| self := self s;
        calls := (calls s ++
          [CallSimilaritySearch
             (Retriever.vector_store (Pipeline.retriever (self s))) query
             (Retriever.primary_k (Pipeline.retriever (self s)))])%list |}).
Proof. reflexivity. Qed.

Lemma generate_variant_queries_disabled query s :
  Retriever.enable_query_fusion (Pipeline.retriever (self s)) = false ->
  _generate_variant_queries bk query s
  = (Ok [], (update_retriever (Retriever.set_last_query_variants []) s).2).
Proof.
  intros Hoff. unfold _generate_variant_queries. rewrite M_bind_unfold.
  unfold get_retriever. by rewrite Hoff.
Qed.

Lemma generate_hypothetical_document_disabled query s :
  Retriever.enable_hyde (Pipeline.retriever (self s)) = false ->
  _generate_hypothetical_document bk query s
  = (Ok "", (update_retriever (Retriever.set_last_hypothetical_document None) s).2).
Proof.
  intros Hoff. unfold _generate_hypothetical_document. rewrite M_bind_unfold.
  unfold get_retriever. by rewrite Hoff.
Qed.

(** Retrieval with fusion and HyDE off: the base search alone. *)
Lemma retrieve_candidates_base_only query s base :
  Retriever.enable_query_fusion (Pipeline.retriever (self s)) = false ->
  Retriever.enable_hyde (Pipeline.retriever (self s)) = false ->
  (search bk query s).1 = Ok base ->
  exists s', _retrieve_candidates bk query s = (_deduplicate base, s')
    /\ same_configuration s s'
    /\ calls s' = (calls s ++
         [CallSimilaritySearch
            (Retriever.vector_store (Pipeline.retriever (self s))) query
            (Retriever.primary_k (Pipeline.retriever (self s)))])%list.
Proof.
  intros Hfusion Hhyde Hbase. unfold _retrieve_candidates.
  rewrite M_bind_unfold. destruct (search bk query s) as [r s1] eqn:Hs.
  simpl in Hbase. subst r.
  rewrite search_unfold in Hs. injection Hs as _ <-.
  assert (Hself : forall c, self {| self := self s; calls := c |} = self s)
    by done.
  rewrite M_bind_unfold, generate_variant_queries_disabled
    by done.
  rewrite M_bind_unfold. cbn [extend_with_variants mret M_ret].
  rewrite M_bind_unfold, generate_hypothetical_document_disabled
    by done.
  rewrite M_bind_unfold. rewrite bool_decide_eq_true_2 by done.
  cbn [mret M_ret]. unfold lift. eexists. split; [reflexivity|].
  split; reflexivity.
Qed.

Lemma same_configuration_fields s s' :
  same_configuration s s' ->
  let p := self s in
  let p' := self s' in
  let r := Pipeline.retriever p in
  let r' := Pipeline.retriever p' in
  Pipeline.settings p' = Pipeline.settings p
  /\ Pipeline.answer_llm p' = Pipeline.answer_llm p
  /\ Pipeline.answer_prompt p' = Pipeline.answer_prompt p
  /\ Retriever.settings r' = Retriever.settings r
  /\ Retriever.vector_store r' = Retriever.vector_store r
  /\ Retriever.primary_k r' = Retriever.primary_k r
  /\ Retriever.final_k r' = Retriever.final_k r
  /\ Retriever.enable_query_fusion r' = Retriever.enable_query_fusion r
  /\ Retriever.enable_hyde r' = Retriever.enable_hyde r
  /\ Retriever.fusion_variant_count r' = Retriever.fusion_variant_count r
  /\ Retriever.rerank_model_id r' = Retriever.rerank_model_id r
  /\ Retriever._query_llm r' = Retriever._query_llm r
  /\ Retriever._fusion_prompt r' = Retriever._fusion_prompt r
  /\ Retriever._hyde_prompt r' = Retriever._hyde_prompt r.
Proof.
  unfold same_configuration, configuration.
  destruct (self s) as [st [] llm prompt], (self s') as [st' [] llm' prompt'].
  simpl. intros H. injection H as -> -> -> -> -> -> -> -> -> -> -> -> -> ->.
  repeat split.
Qed.

Lemma same_configuration_rerank_configured s s' :
  same_configuration s s' ->
  rerank_configured (Pipeline.retriever (self s'))
  = rerank_configured (Pipeline.retriever (self s)).
Proof.
  intros H. apply same_configuration_fields in H.
  unfold rerank_configured. by rewrite (proj1 (proj2 (proj2 (proj2 (proj2
    (proj2 (proj2 (proj2 (proj2 (proj2 (proj2 H))))))))))).
Qed.

(** Three candidates with distinct keys are all kept. *)
Lemma deduplicate_distinct3 A B C kA kB kC :
  dedup_key A = Ok kA -> dedup_key B = Ok kB -> dedup_key C = Ok kC ->
  kA <> kB -> kA <> kC -> kB <> kC ->
  _deduplicate [A; B; C] = Ok [A; B; C].
Proof.
  intros HA HB HC Hab Hac Hbc. unfold _deduplicate. simpl.
  rewrite HA. simpl. rewrite lookup_empty, HB. simpl.
  rewrite lookup_insert_ne, lookup_empty by done.
  rewrite HC. simpl.
  by rewrite !lookup_insert_ne, lookup_empty by done.
Qed.

(** C8: without a rerank backend the stage returns the first [final_k]
    candidates in their order; in scenario A (no history, fusion and HyDE
    off, no rerank backend, primary_k = 3, final_k = 2, base search
    returning the three distinct candidates A, B, C, and the answer model
    returning) the contexts are A and B. *)
Theorem no_rerank_truncation_and_scenario_A :
  (forall query docs s,
      rerank_configured (Pipeline.retriever (self s)) = None ->
      (0 <= Retriever.final_k (Pipeline.retriever (self s)))%Z ->
      _apply_rerank bk query docs s
      = (Ok (take (Z.to_nat (Retriever.final_k (Pipeline.retriever (self s))))
                  docs), s))
  /\ (forall q s A B C kA kB kC ctx msgs resp text,
        let r := Pipeline.retriever (self s) in
        Retriever.enable_query_fusion r = false ->
        Retriever.enable_hyde r = false ->
        rerank_configured r = None ->
        Retriever.primary_k r = 3%Z ->
        Retriever.final_k r = 2%Z ->
        similarity_search bk (calls s) (Retriever.vector_store r) q 3
          = Ok [A; B; C] ->
        dedup_key A = Ok kA -> dedup_key B = Ok kB -> dedup_key C = Ok kC ->
        kA <> kB -> kA <> kC -> kB <> kC ->
        _build_context [A; B] = Ok ctx ->
        format_messages (Pipeline.answer_prompt (self s))
          {[ "contexts" := ctx; "question" := q ]} = Ok msgs ->
        chat_invoke bk
          (calls s ++ [CallSimilaritySearch (Retriever.vector_store r) q 3])%list
          (Pipeline.answer_llm (self s)) msgs = Ok resp ->
        answer_content resp = Ok text ->
        exists res s',
          run bk q None s = (Ok res, s')
          /\ contexts res = [context_payload A; context_payload B]
          /\ rewritten_question res = q).
Proof.
  split.
  - intros query docs s Hnone Hk.
    by rewrite apply_rerank_not_configured, slice_to_take.
  - intros q s A B C kA kB kC ctx msgs resp text r Hfusion Hhyde Hnone Hpk Hfk
      Hsearch HA HB HC Hab Hac Hbc Hctx Hmsgs Hchat Htext.
    destruct (retrieve_candidates_base_only q s [A; B; C] Hfusion Hhyde)
      as (s1 & Hretrieve & Hconf & Hcalls).
    { rewrite search_unfold. simpl. fold r. by rewrite Hpk. }
    pose proof (same_configuration_fields _ _ Hconf)
      as (_ & Hllm & Hprompt & _ & _ & _ & Hfk' & _).
    unfold run. rewrite M_bind_unfold. cbn [_rewrite_question mret M_ret].
    rewrite M_bind_unfold. unfold _get_relevant_documents.
    rewrite M_bind_unfold, Hretrieve.
    rewrite (deduplicate_distinct3 A B C kA kB kC) by done.
    rewrite apply_rerank_not_configured
      by (by rewrite (same_configuration_rerank_configured s s1)).
    rewrite Hfk'. fold r. rewrite Hfk.
    change (slice_to 2 [A; B; C]) with [A; B].
    rewrite M_bind_unfold. unfold lift at 1. rewrite Hctx.
    rewrite M_bind_unfold. unfold get_pipeline at 1.
    rewrite M_bind_unfold. unfold lift at 1. rewrite Hprompt, Hmsgs.
    rewrite M_bind_unfold. unfold backend_call at 1.
    rewrite Hllm, Hcalls. fold r. rewrite Hpk, Hchat.
    rewrite M_bind_unfold. unfold lift at 1. rewrite Htext.
    rewrite M_bind_unfold. unfold get_retriever at 1.
    cbn [mret M_ret]. eexists _, _. split; [reflexivity|]. split; reflexivity.
Qed.

End Rerank.

(** ** The request as a whole *)

Section Run.
Context {builtins : PyBuiltins}.
Variable bk : Backends.

(** What a returning [run] went through. *)
Lemma run_returns q h s res s' :
  run bk q h s = (Ok res, s') ->
  exists rew s1 docs s2,
    _rewrite_question bk q h s = (Ok rew, s1)
    /\ _get_relevant_documents bk rew s1 = (Ok docs, s2)
    /\ question res = q
    /\ rewritten_question res = rew
    /\ contexts res = context_payload <$> docs
    /\ self s' = self s2
    /\ query_variants res
       = Retriever.last_query_variants (Pipeline.retriever (self s'))
    /\ hyde_document res
       = Retriever.last_hypothetical_document (Pipeline.retriever (self s')).
Proof.
  unfold run. intros H.
  apply M_bind_returns in H as (rew & s1 & Hrw & H).
  apply M_bind_returns in H as (docs & s2 & Hdocs & H).
  apply M_bind_returns in H as (ctx & s3 & Hctx & H).
  apply M_bind_returns in H as (p & s4 & Hp & H).
  apply M_bind_returns in H as (msgs & s5 & Hmsgs & H).
  apply M_bind_returns in H as (resp & s6 & Hresp & H).
  apply M_bind_returns in H as (text & s7 & Htext & H).
  apply M_bind_returns in H as (r & s8 & Hr & H).
  unfold lift in Hctx, Hmsgs, Htext. unfold get_pipeline in Hp.
  unfold backend_call in Hresp. unfold get_retriever in Hr.
  injection Hctx as _ <-. injection Hp as _ <-. injection Hmsgs as _ <-.
  injection Hresp as _ <-. injection Htext as _ <-. injection Hr as <- <-.
  injection H as <- <-.
  exists rew, s1, docs, s2. repeat split; done.
Qed.

Lemma get_relevant_documents_returns query s docs s' :
  _get_relevant_documents bk query s = (Ok docs, s') ->
  exists candidates s1,
    _retrieve_candidates bk query s = (Ok candidates, s1)
    /\ _apply_rerank bk query candidates s1 = (Ok docs, s').
Proof. unfold _get_relevant_documents. apply M_bind_returns. Qed.

(** C9: with an empty or absent history the rewriter returns the question
    without touching the state, the whole request makes no call to the
    text-generation helper, and a result carries the question as its
    rewritten question. *)
Theorem no_history_no_rewrite q h s :
  h = None \/ h = Some [] ->
  _rewrite_question bk q h s = (Ok q, s)
  /\ rewrite_calls (calls (run bk q h s).2) = rewrite_calls (calls s)
  /\ (forall res s', run bk q h s = (Ok res, s') ->
        rewritten_question res = q).
Proof.
  intros Hh. split; [by destruct Hh as [-> | ->]|]. split.
  - by apply run_without_history_rewrite_calls.
  - intros res s' Hrun.
    apply run_returns in Hrun as (rew & s1 & _ & _ & Hrw & _ & _ & -> & _).
    destruct Hh as [-> | ->]; by injection Hrw as <- _.
Qed.

(** C4 (amended): a request changes no field of the pipeline object and no
    field of its retriever other than [last_query_variants] and
    [last_hypothetical_document]; those two are written by the request,
    and a result reports the values they hold when it is built. *)
Theorem run_frame q h s :
  let p := self s in
  let p' := self (run bk q h s).2 in
  let r := Pipeline.retriever p in
  let r' := Pipeline.retriever p' in
  (Pipeline.settings p' = Pipeline.settings p
   /\ Pipeline.answer_llm p' = Pipeline.answer_llm p
   /\ Pipeline.answer_prompt p' = Pipeline.answer_prompt p
   /\ Retriever.settings r' = Retriever.settings r
   /\ Retriever.vector_store r' = Retriever.vector_store r
   /\ Retriever.primary_k r' = Retriever.primary_k r
   /\ Retriever.final_k r' = Retriever.final_k r
   /\ Retriever.enable_query_fusion r' = Retriever.enable_query_fusion r
   /\ Retriever.enable_hyde r' = Retriever.enable_hyde r
   /\ Retriever.fusion_variant_count r' = Retriever.fusion_variant_count r
   /\ Retriever.rerank_model_id r' = Retriever.rerank_model_id r
   /\ Retriever._query_llm r' = Retriever._query_llm r
   /\ Retriever._fusion_prompt r' = Retriever._fusion_prompt r
   /\ Retriever._hyde_prompt r' = Retriever._hyde_prompt r)
  /\ (forall res, (run bk q h s).1 = Ok res ->
        Retriever.last_query_variants r' = query_variants res
        /\ Retriever.last_hypothetical_document r' = hyde_document res).
Proof.
  cbv zeta. split.
  - apply (same_configuration_fields s), run_same_configuration.
  - intros res Hres. destruct (run bk q h s) as [x s'] eqn:Hrun.
    simpl in Hres. subst x.
    apply run_returns in Hrun
      as (rew & s1 & docs & s2 & _ & _ & _ & _ & _ & _ & Hv & Hd).
    simpl. by rewrite Hv, Hd.
Qed.

End Run.

(** ** The rerank stage with a backend *)

Section RerankStage.
Context {builtins : PyBuiltins}.
Variable bk : Backends.

Lemma rerank_loop_length docs entries : forall ranked l,
  rerank_loop docs entries ranked = Ok l ->
  length l <= length ranked + length entries.
Proof.
  induction entries as [|entry rest IH]; intros ranked l H; simpl in H.
  - injection H as <-. lia.
  - destruct (rerank_entry docs entry) as [[d|]|e]; simpl in H;
      [| |discriminate].
    + apply IH in H. rewrite length_app in H. simpl in *. lia.
    + apply IH in H. simpl. lia.
Qed.

Lemma ranked_documents_length docs body results entries l :
  py_get body "results" (PList []) = Ok results ->
  py_iter results = Ok entries ->
  ranked_documents docs body = Ok l ->
  length l <= length entries.
Proof.
  intros Hres Hent. unfold ranked_documents. rewrite Hres. simpl.
  rewrite Hent. simpl. intros H. by apply rerank_loop_length in H.
Qed.



Lemma invoke_rerank_unfold id query d docs k s :
  invoke_rerank bk id query (d :: docs) k s
  = (invoke_model bk (calls s) id (rerank_body query (d :: docs) k)
       ≫= ranked_documents (d :: docs),
     {| self := self s;
        calls := (calls s ++ [CallInvokeModel Rerank id
                                (rerank_body query (d :: docs) k)])%list |}).
Proof.
  unfold invoke_rerank. rewrite M_bind_unfold. unfold backend_call.
  by destruct (invoke_model _ _ _ _).
Qed.

(** The outcome of the call the rerank stage makes: nothing for an empty
    pool, otherwise what the response body gives. *)
Lemma apply_rerank_configured query docs s id :
  let r := Pipeline.retriever (self s) in
  rerank_configured r = Some id ->
  (_apply_rerank bk query docs s).1
  = Ok (match (match docs with
               | [] => Ok []
               | _ => invoke_model bk (calls s) id
                        (rerank_body query docs (Retriever.final_k r))
                      ≫= ranked_documents docs
               end) with
        | Ok (d :: l) => d :: l
        | _ => slice_to (Retriever.final_k r) docs
        end).
Proof.
  intros r Hid. unfold _apply_rerank. rewrite M_bind_unfold.
  unfold get_retriever. fold r. rewrite Hid. unfold try_except.
  rewrite M_bind_unfold. destruct docs as [|d docs]; [done|].
  rewrite invoke_rerank_unfold.
  destruct (invoke_model _ _ _ _) as [body|e]; [|done]. simpl.
  by destruct (ranked_documents _ _) as [[|x l]|e].
Qed.


Lemma apply_rerank_length query docs s l s' :
  let r := Pipeline.retriever (self s) in
  (0 <= Retriever.final_k r)%Z ->
  rerank_configured r = None \/ honours_top_n bk ->
  _apply_rerank bk query docs s = (Ok l, s') ->
  (Z.of_nat (length l) <= Retriever.final_k r)%Z.
Proof.
  intros r Hk Hcap Hrun.
  assert (Htrunc : (Z.of_nat (length (slice_to (Retriever.final_k r) docs))
                    <= Retriever.final_k r)%Z).
  { rewrite slice_to_take, length_take by done. lia. }
  destruct (rerank_configured r) as [id|] eqn:Hid.
  - pose proof (apply_rerank_configured query docs s id Hid) as Hout.
    rewrite Hrun in Hout. simpl in Hout. injection Hout as ->. fold r.
    destruct Hcap as [?|Hcap]; [done|].
    destruct docs as [|d docs]; [done|].
    destruct (invoke_model _ _ _ _) as [body|e] eqn:Hbody; [|done]. simpl.
    destruct (ranked_documents _ _) as [[|x l]|e] eqn:Hranked; [done| |done].
    pose proof Hranked as Hlen. unfold ranked_documents in Hranked.
    destruct (py_get body "results" (PList [])) as [results|] eqn:Hres;
      [|done].
    simpl in Hranked.
    destruct (py_iter results) as [entries|] eqn:Hent; [|done].
    apply (ranked_documents_length _ _ _ _ _ Hres Hent) in Hlen.
    pose proof (Hcap _ _ _ _ _ _ _ _ Hbody Hres Hent) as Hcapped.
    cbn [length] in Hlen |- *. subst r. lia.
  - rewrite apply_rerank_not_configured in Hrun by done.
    by injection Hrun as <- _.
Qed.

(** C3 (amended): the contexts of a result are at most [final_k] when no
    rerank backend is configured, and when one is configured and returns
    at most [topN] entries. *)
Theorem contexts_within_final_k q h s res s' :
  let r := Pipeline.retriever (self s) in
  (0 <= Retriever.final_k r)%Z ->
  rerank_configured r = None \/ honours_top_n bk ->
  run bk q h s = (Ok res, s') ->
  (Z.of_nat (length (contexts res)) <= Retriever.final_k r)%Z.
Proof.
  intros r Hk Hcap Hrun.
  apply run_returns in Hrun
    as (rew & s1 & docs & s2 & Hrw & Hdocs & _ & _ & -> & _).
  apply get_relevant_documents_returns in Hdocs
    as (candidates & s1' & Hcands & Hrerank).
  assert (Hconf : same_configuration s s1').
  { eapply same_configuration_trans.
    - unfold same_configuration.
      pose proof (rewrite_question_self bk q h s) as Hself.
      rewrite Hrw in Hself. simpl in Hself. by rewrite Hself.
    - pose proof (respects_retrieve_candidates bk same_configuration
        same_configuration_refl same_configuration_trans
        same_configuration_update
        (fun A c o s _ => same_configuration_call A c o s) rew s1) as H.
      by rewrite Hcands in H. }
  pose proof (same_configuration_fields _ _ Hconf)
    as (_ & _ & _ & _ & _ & _ & Hfk & _).
  rewrite length_fmap. fold r in Hfk. rewrite <- Hfk.
  apply (apply_rerank_length rew candidates s1' docs s2); [| |done].
  - by rewrite Hfk.
  - by rewrite (same_configuration_rerank_configured s s1').
Qed.

End RerankStage.

(** ** Generation failures *)

Section Generation.
Context {builtins : PyBuiltins}.
Variable bk : Backends.

Lemma generate_variant_queries_enabled query s msgs :
  let r := Pipeline.retriever (self s) in
  Retriever.enable_query_fusion r = true ->
  format_messages (Retriever._fusion_prompt r) {[ "question" := query ]}
    = Ok msgs ->
  (_generate_variant_queries bk query s).1
  = (content ← (chat_invoke bk (calls s) (Retriever._query_llm r) msgs
                ≫= _to_plain_text);
     mret (parse_variants (Retriever.fusion_variant_count r) query content)).
Proof.
  intros r Hon Hmsgs. unfold _generate_variant_queries.
  rewrite M_bind_unfold. unfold get_retriever. fold r. rewrite Hon. simpl.
  rewrite M_bind_unfold. unfold lift at 1. rewrite Hmsgs.
  rewrite M_bind_unfold. unfold backend_call.
  destruct (chat_invoke _ _ _ _) as [resp|e]; [|done]. simpl.
  rewrite M_bind_unfold. unfold lift.
  by destruct (_to_plain_text resp).
Qed.

Lemma generate_hypothetical_document_enabled query s msgs :
  let r := Pipeline.retriever (self s) in
  Retriever.enable_hyde r = true ->
  format_messages (Retriever._hyde_prompt r) {[ "question" := query ]}
    = Ok msgs ->
  (_generate_hypothetical_document bk query s).1
  = (text ← (chat_invoke bk (calls s) (Retriever._query_llm r) msgs
             ≫= _to_plain_text);
     mret (PyStr.strip text)).
Proof.
  intros r Hon Hmsgs. unfold _generate_hypothetical_document.
  rewrite M_bind_unfold. unfold get_retriever. fold r. rewrite Hon. simpl.
  rewrite M_bind_unfold. unfold lift at 1. rewrite Hmsgs.
  rewrite M_bind_unfold. unfold backend_call.
  destruct (chat_invoke _ _ _ _) as [resp|e]; [|done]. simpl.
  rewrite M_bind_unfold. unfold lift.
  by destruct (_to_plain_text resp).
Qed.

Lemma retrieval_same_configuration_variants query s :
  same_configuration s (_generate_variant_queries bk query s).2.
Proof.
  apply (respects_generate_variant_queries bk same_configuration
    same_configuration_refl same_configuration_trans
    same_configuration_update
    (fun A c o s _ => same_configuration_call A c o s)).
Qed.

Lemma retrieval_same_configuration_extend variants candidates s :
  same_configuration s (extend_with_variants bk variants candidates s).2.
Proof.
  apply (respects_extend_with_variants bk same_configuration
    same_configuration_refl same_configuration_trans
    (fun A c o s _ => same_configuration_call A c o s)).
Qed.

(** C1 (amended): an error of the fusion generation call, or of the HyDE
    generation call, is not recovered: once the base search has returned,
    the error leaves [run] as the error of the request, as an error of the
    base search does. *)
Theorem generation_failure_propagates q h s rew s1 :
  _rewrite_question bk q h s = (Ok rew, s1) ->
  (forall e, (search bk rew s1).1 = Raise e -> (run bk q h s).1 = Raise e)
  /\ (forall base s2 msgs e,
        let r := Pipeline.retriever (self s2) in
        search bk rew s1 = (Ok base, s2) ->
        Retriever.enable_query_fusion r = true ->
        format_messages (Retriever._fusion_prompt r) {[ "question" := rew ]}
          = Ok msgs ->
        chat_invoke bk (calls s2) (Retriever._query_llm r) msgs = Raise e ->
        (run bk q h s).1 = Raise e)
  /\ (forall base s2 variants s3 candidates s4 msgs e,
        let r := Pipeline.retriever (self s2) in
        search bk rew s1 = (Ok base, s2) ->
        _generate_variant_queries bk rew s2 = (Ok variants, s3) ->
        extend_with_variants bk variants base s3 = (Ok candidates, s4) ->
        Retriever.enable_hyde r = true ->
        format_messages (Retriever._hyde_prompt r) {[ "question" := rew ]}
          = Ok msgs ->
        chat_invoke bk (calls s4) (Retriever._query_llm r) msgs = Raise e ->
        (run bk q h s).1 = Raise e).
Proof.
  intros Hrw. split; [|split].
  - intros e Hbase.
    unfold run. rewrite (M_bind_ok _ _ _ _ _ Hrw).
    apply M_bind_raises_fst. unfold _get_relevant_documents.
    apply M_bind_raises_fst. unfold _retrieve_candidates.
    by apply M_bind_raises_fst.
  - intros base s2 msgs e r Hbase Hon Hmsgs Hchat.
    unfold run. rewrite (M_bind_ok _ _ _ _ _ Hrw).
    apply M_bind_raises_fst. unfold _get_relevant_documents.
    apply M_bind_raises_fst. unfold _retrieve_candidates.
    rewrite (M_bind_ok _ _ _ _ _ Hbase).
    apply M_bind_raises_fst.
    rewrite (generate_variant_queries_enabled rew s2 msgs Hon Hmsgs).
    fold r. by rewrite Hchat.
  - intros base s2 variants s3 candidates s4 msgs e r Hbase Hvar Hext Hon
      Hmsgs Hchat.
    assert (Hconf : same_configuration s2 s4).
    { eapply same_configuration_trans.
      - pose proof (retrieval_same_configuration_variants rew s2) as H.
        rewrite Hvar in H. exact H.
      - pose proof (retrieval_same_configuration_extend variants base s3) as H.
        rewrite Hext in H. exact H. }
    pose proof (same_configuration_fields _ _ Hconf)
      as (_ & _ & _ & _ & _ & _ & _ & _ & Hhyde & _ & _ & Hllm & _ & Hprompt).
    fold r in Hhyde, Hllm, Hprompt.
    unfold run. rewrite (M_bind_ok _ _ _ _ _ Hrw).
    apply M_bind_raises_fst. unfold _get_relevant_documents.
    apply M_bind_raises_fst. unfold _retrieve_candidates.
    rewrite (M_bind_ok _ _ _ _ _ Hbase), (M_bind_ok _ _ _ _ _ Hvar),
      (M_bind_ok _ _ _ _ _ Hext).
    apply M_bind_raises_fst.
    rewrite (generate_hypothetical_document_enabled rew s4 msgs)
      by (by rewrite ?Hhyde, ?Hprompt).
    by rewrite Hllm, Hchat.
Qed.

End Generation.

(** ** Parsing and the floors of the constructor *)

Section Floors.
Context {builtins : PyBuiltins}.

(** C7 (amended): the parsed variants are the lines of the response, each
    stripped of dashes, asterisks and spaces at both ends and then of
    whitespace at both ends, without the blank ones and the ones equal to
    the question up to case, cut to the first [fusion_variant_count]; on
    the lines "- v1", "v1", "v2" with the question "v1" and a count of 2
    they are "v2" alone. *)
Theorem parse_variants_spec :
  (forall count query content,
      (1 <= count)%Z ->
      parse_variants count query content
      = take (Z.to_nat count)
             (filter (fun l => keeps query l = true)
                     (strip_line <$> PyStr.splitlines content)))
  /\ (forall bk query s msgs resp content,
        let r := Pipeline.retriever (self s) in
        Retriever.enable_query_fusion r = true ->
        (1 <= Retriever.fusion_variant_count r)%Z ->
        format_messages (Retriever._fusion_prompt r) {[ "question" := query ]}
          = Ok msgs ->
        chat_invoke bk (calls s) (Retriever._query_llm r) msgs = Ok resp ->
        _to_plain_text resp = Ok content ->
        (_generate_variant_queries bk query s).1
        = Ok (take (Z.to_nat (Retriever.fusion_variant_count r))
                   (filter (fun l => keeps query l = true)
                           (strip_line <$> PyStr.splitlines content))))
  /\ parse_variants 2 "v1"
       ("- v1" +:+ PyStr.nl +:+ "v1" +:+ PyStr.nl +:+ "v2") = ["v2"].
Proof.
  split; [exact parse_variants_take|]. split; [|reflexivity].
  intros bk query s msgs resp content r Hon Hcount Hmsgs Hchat Hcontent.
  rewrite (generate_variant_queries_enabled bk query s msgs Hon Hmsgs).
  fold r. rewrite Hchat. simpl. rewrite Hcontent. simpl.
  by rewrite parse_variants_take.
Qed.

(** C10: the constructor sets [final_k] and [fusion_variant_count] to the
    configured values raised to at least 1; so with a configured rerank
    size of 0 or less the truncation of a pool that is not empty has one
    candidate and a result can hold one context, and with any configured
    count a usable line of the fusion response is kept. *)
Theorem constructor_floors store st :
  let r := AuroraPGVectorRetriever store st in
  Retriever.final_k r = Z.max (Settings.vector_search_k_rerank st) 1
  /\ Retriever.fusion_variant_count r
     = Z.max (Settings.fusion_variant_count st) 1
  /\ (1 <= Retriever.final_k r)%Z
  /\ (1 <= Retriever.fusion_variant_count r)%Z
  /\ (forall (d : Document) docs,
        (Settings.vector_search_k_rerank st <= 0)%Z ->
        slice_to (Retriever.final_k r) (d :: docs) = [d])
  /\ (forall query content,
        filter (fun l => keeps query l = true)
               (strip_line <$> PyStr.splitlines content) <> [] ->
        parse_variants (Retriever.fusion_variant_count r) query content <> [])
  /\ (exists bk res s',
        Settings.vector_search_k_rerank Fixtures.settings_zero = 0%Z
        /\ run bk "q" None (Fixtures.service Fixtures.settings_zero)
           = (Ok res, s')
        /\ length (contexts res) = 1).
Proof.
  intros r. simpl.
  split; [done|]. split; [done|]. split; [lia|]. split; [lia|].
  split; [|split].
  - intros d docs Hzero.
    by rewrite (Z.max_r _ 1) by lia.
  - intros query content Hkept.
    rewrite parse_variants_take by lia.
    destruct (filter _ _) as [|l kept]; [done|].
    destruct (Z.to_nat (Z.max (Settings.fusion_variant_count st) 1))
      eqn:Hn; [lia|done].
  - exists (Fixtures.backends_of (fun _ => Ok [Fixtures.A])
              (fun _ => Ok (CText "Answer.")) Fixtures.no_model).
    eexists _, _. split; [reflexivity|]. split; [vm_compute; reflexivity|].
    reflexivity.
Qed.

End Floors.

(** ** The concrete services *)

Lemma first_top_n_honours : honours_top_n Fixtures.backends_rerank_top_n.
Proof.
  intros log model query docs top_n body results entries Hbody Hres Hent.
  simpl in Hbody. unfold Fixtures.first_top_n, rerank_body in Hbody.
  rewrite lookup_insert_ne, lookup_insert_ne, lookup_insert_eq in Hbody
    by done.
  injection Hbody as <-. simpl in Hres. unfold dict_get in Hres.
  rewrite lookup_singleton_eq in Hres. injection Hres as <-.
  injection Hent as <-. rewrite length_fmap, length_seqZ. lia.
Qed.

(** ** The properties on the concrete services *)

(** With fusion enabled and the chat model failing on the fusion request
    only, the base search returns and the request fails. *)
Lemma fusion_failure_fails_request :
  similarity_search Fixtures.backends_fusion_down []
    (build_vector_store Fixtures.settings_fusion) "v1" 3 = Ok [Fixtures.A; Fixtures.B]
  /\ chat_invoke Fixtures.backends_fusion_down []
       (get_chat_model "anthropic.claude-3-haiku-20240307-v1:0")
       [("system", get_system_prompt)] = Ok (CText "Answer.")
  /\ forall builtins : PyBuiltins,
       (@run builtins Fixtures.backends_fusion_down "v1" None
          (Fixtures.service Fixtures.settings_fusion)).1
       = Raise (BackendError "throttled").
Proof.
  split; [reflexivity|]. split; [reflexivity|].
  intros builtins. vm_compute. reflexivity.
Qed.

Lemma generation_failure_propagates_witness :
  (@run Fixtures.unreached Fixtures.backends_fusion_down "v1" None
     (Fixtures.service Fixtures.settings_fusion)).1
  = Raise (BackendError "throttled").
Proof.
  eapply (proj1 (proj2 (@generation_failure_propagates Fixtures.unreached
            Fixtures.backends_fusion_down "v1" None
            (Fixtures.service Fixtures.settings_fusion) _ _ eq_refl)));
    reflexivity.
Defined.

(** A rerank model that ignores [topN]: two contexts with [final_k] 1. *)
Lemma rerank_backend_exceeds_final_k :
  Retriever.final_k
    (Pipeline.retriever (self (Fixtures.service (Fixtures.settings_rerank 1))))
  = 1%Z
  /\ forall builtins : PyBuiltins,
       exists res s',
         @run builtins Fixtures.backends_rerank_all "q" None
           (Fixtures.service (Fixtures.settings_rerank 1)) = (Ok res, s')
         /\ length (contexts res) = 2.
Proof.
  split; [reflexivity|]. intros builtins.
  eexists _, _. split; [vm_compute; reflexivity|reflexivity].
Qed.

Lemma contexts_within_final_k_witness :
  exists res s',
    @run Fixtures.unreached Fixtures.backends_rerank_top_n "q" None
      (Fixtures.service (Fixtures.settings_rerank 2)) = (Ok res, s')
    /\ (Z.of_nat (length (contexts res)) <= 2)%Z.
Proof.
  eexists _, _. split; [vm_compute; reflexivity|].
  eapply (@contexts_within_final_k Fixtures.unreached
            Fixtures.backends_rerank_top_n "q" None
            (Fixtures.service (Fixtures.settings_rerank 2)));
    [simpl; lia | right; apply first_top_n_honours | vm_compute; reflexivity].
Defined.

(** A request with fusion enabled writes [last_query_variants]. *)
Lemma run_writes_last_query_variants :
  Retriever.last_query_variants
    (Pipeline.retriever (self (Fixtures.service Fixtures.settings_fusion))) = []
  /\ forall builtins : PyBuiltins,
       Retriever.last_query_variants
         (Pipeline.retriever
            (self (@run builtins Fixtures.backends_fusion "v1" None
                     (Fixtures.service Fixtures.settings_fusion)).2))
       = ["v2"].
Proof.
  split; [reflexivity|]. intros builtins. vm_compute. reflexivity.
Qed.

Lemma run_frame_witness :
  Retriever.final_k
    (Pipeline.retriever
       (self (@run Fixtures.unreached Fixtures.backends_fusion "v1" None
                (Fixtures.service Fixtures.settings_fusion)).2))
  = 2%Z.
Proof.
  pose proof (@run_frame Fixtures.unreached Fixtures.backends_fusion "v1" None
                (Fixtures.service Fixtures.settings_fusion))
    as [(_ & _ & _ & _ & _ & _ & Hfinal & _) _].
  exact Hfinal.
Defined.



(** A line that ends with a dash: the code strips it, the words of the
    specification do not. *)
Lemma trailing_markers_are_stripped :
  parse_variants 2 "q" "v2 -" = ["v2"]
  /\ spec_parse_variants 2 "q" "v2 -" = ["v2 -"].
Proof. split; reflexivity. Qed.

Lemma parse_variants_spec_witness :
  parse_variants 2 "v1" Fixtures.lines_B
  = take 2 (filter (fun l => keeps "v1" l = true)
              (strip_line <$> PyStr.splitlines Fixtures.lines_B)).
Proof.
  apply (proj1 parse_variants_spec 2%Z "v1" Fixtures.lines_B). lia.
Defined.

Lemma no_rerank_truncation_and_scenario_A_witness :
  exists res s',
    @run Fixtures.unreached Fixtures.backends_A "What is X?" None
      (Fixtures.service Fixtures.settings_A) = (Ok res, s')
    /\ contexts res
       = [context_payload Fixtures.A; context_payload Fixtures.B]
    /\ rewritten_question res = "What is X?".
Proof.
  eapply (proj2 (@no_rerank_truncation_and_scenario_A Fixtures.unreached
            Fixtures.backends_A) "What is X?"
            (Fixtures.service Fixtures.settings_A)
            Fixtures.A Fixtures.B Fixtures.C
            "s3://docs/a.pdf0" "s3://docs/a.pdf1" "s3://docs/b.pdf0");
    first [reflexivity | discriminate].
Defined.

Lemma no_history_no_rewrite_witness :
  rewrite_calls
    (calls (@run Fixtures.unreached Fixtures.backends_A "What is X?" None
              (Fixtures.service Fixtures.settings_A)).2)
  = [].
Proof.
  exact (proj1 (proj2 (@no_history_no_rewrite Fixtures.unreached
           Fixtures.backends_A "What is X?" None
           (Fixtures.service Fixtures.settings_A) (or_introl eq_refl)))).
Defined.

Lemma constructor_floors_witness :
  Retriever.final_k
    (AuroraPGVectorRetriever (build_vector_store Fixtures.settings_zero)
       Fixtures.settings_zero) = 1%Z
  /\ slice_to 1 [Fixtures.A; Fixtures.B] = [Fixtures.A].
Proof.
  pose proof (@constructor_floors Fixtures.unreached
                (build_vector_store Fixtures.settings_zero)
                Fixtures.settings_zero)
    as (Hfinal & _ & _ & _ & Hone & _).
  split; [exact Hfinal|]. apply (Hone Fixtures.A [Fixtures.B]). simpl. lia.
Defined.

(** At a candidate with a source and no chunk number the key is the
    source, not the first characters of the content. *)
Lemma dedup_key_of_source_only :
  metadata Fixtures.source_only !! "chunk_id" = None
  /\ forall builtins : PyBuiltins,
       @dedup_key builtins Fixtures.source_only = Ok "a.pdf"
       /\ @dedup_key builtins Fixtures.source_only
          <> Ok (PyStr.prefix 100 (page_content Fixtures.source_only))
       /\ @dedup_key builtins Fixtures.source_only
          <> @spec_dedup_key builtins Fixtures.source_only.
Proof.
  split; [reflexivity|]. intros builtins. repeat split; discriminate.
Qed.

Lemma dedup_key_and_first_occurrences_witness :
  @dedup_key Fixtures.unreached Fixtures.A = Ok "s3://docs/a.pdf0"
  /\ @dedup_key Fixtures.unreached Fixtures.source_only = Ok "a.pdf"
  /\ @dedup_key Fixtures.unreached Samples.empty_source = Ok "hello"
  /\ @dedup_key Fixtures.unreached Samples.none_source = Raise TypeError.
Proof.
  pose proof (@dedup_key_and_first_occurrences Fixtures.unreached)
    as (Hboth & Hsource & _ & _ & _ & Hevery).
  split; [|split; [|split]].
  - apply (Hboth Fixtures.A "s3://docs/a.pdf" (PInt 0));
      [reflexivity | reflexivity | discriminate].
  - apply (Hsource Fixtures.source_only "a.pdf");
      [reflexivity | reflexivity | discriminate].
  - apply (proj1 (proj2 (Hevery Samples.empty_source)) "");
      reflexivity.
  - apply (proj2 (proj2 (Hevery Samples.none_source))).
    intros src. discriminate.
Defined.

Lemma dedup_idempotent_and_scenario_C_witness :
  @_deduplicate Fixtures.unreached
    ([Fixtures.A; Fixtures.B] ++ [Fixtures.B; Fixtures.C])
  = Ok [Fixtures.A; Fixtures.B; Fixtures.C].
Proof.
  pose proof (@dedup_idempotent_and_scenario_C Fixtures.unreached)
    as (_ & _ & _ & Hscenario).
  apply (Hscenario _ _ _ _ "s3://docs/a.pdf0" "s3://docs/a.pdf1"
           "s3://docs/b.pdf0"); (reflexivity || discriminate).
Defined.

(** * Further properties of the code *)

(** ** Deduplication: what the result keeps *)

Section DedupInvariants.
Context {builtins : PyBuiltins}.

Lemma mapM_result_lookup {A B} (f : A -> result B) (l : list A) : forall ks i x,
  mapM f l = Ok ks -> l !! i = Some x ->
  exists k, f x = Ok k /\ ks !! i = Some k.
Proof.
  induction l as [|a l IH]; intros ks i x Hm Hi; [done|].
  rewrite mapM_result_cons in Hm.
  destruct (f a) as [b|e] eqn:Hfa; [|done].
  destruct (mapM f l) as [bs|e] eqn:Hl; [|done].
  injection Hm as <-. destruct i as [|i]; simpl in Hi.
  - injection Hi as <-. by exists b.
  - by apply (IH bs i x).
Qed.

Lemma dedup_loop_covers docs : forall seen ordered Y,
  dedup_loop docs seen ordered = Ok Y ->
  forall d k, d ∈ docs -> dedup_key d = Ok k ->
    is_Some (seen !! k) \/ exists d', d' ∈ Y /\ dedup_key d' = Ok k.
Proof.
  induction docs as [|doc rest IH]; intros seen ordered Y H d k Hd Hk.
  - by inversion Hd.
  - simpl in H. destruct (dedup_key doc) as [key|e] eqn:Hkey; [|done].
    simpl in H. apply elem_of_cons in Hd as [->|Hd].
    + assert (key = k) as -> by congruence.
      destruct (seen !! k) as [x|] eqn:Hseen; [left; by eexists|].
      right. exists doc. split; [|done].
      apply dedup_loop_returns in H as (Z & ks & -> & _).
      set_solver.
    + destruct (seen !! key) as [x|] eqn:Hseen.
      * by apply (IH _ _ _ H d k).
      * destruct (IH _ _ _ H d k Hd Hk) as [Hin|?]; [|by right].
        destruct (decide (key = k)) as [->|Hne].
        -- right. exists doc. split; [|done].
           apply dedup_loop_returns in H as (Z & ks & -> & _).
           set_solver.
        -- left. by rewrite lookup_insert_ne in Hin.
Qed.

(** X1: what [_deduplicate] returns is a sub-list of the pool, in the
    order of the pool; no two of its documents have the same key; and every
    key of the pool is the key of one of them. *)
Theorem deduplicate_keeps_one_per_key X Y :
  _deduplicate X = Ok Y ->
  sublist Y X
  /\ (forall i j d d' k,
        Y !! i = Some d -> Y !! j = Some d' ->
        dedup_key d = Ok k -> dedup_key d' = Ok k -> i = j)
  /\ (forall d k, d ∈ X -> dedup_key d = Ok k ->
        exists d', d' ∈ Y /\ dedup_key d' = Ok k).
Proof.
  intros H. pose proof H as Hcov.
  apply dedup_loop_returns in H as (Z & ks & -> & HZ & Hnd & _ & Hsub).
  simpl. split; [done|]. split.
  - intros i j d d' k Hi Hj Hd Hd'.
    destruct (mapM_result_lookup _ _ _ _ _ HZ Hi) as (k1 & Hk1 & Hki).
    destruct (mapM_result_lookup _ _ _ _ _ HZ Hj) as (k2 & Hk2 & Hkj).
    assert (k1 = k) as -> by congruence.
    assert (k2 = k) as -> by congruence.
    by apply (NoDup_lookup ks i j k).
  - intros d k Hd Hk.
    destruct (dedup_loop_covers _ _ _ _ Hcov d k Hd Hk) as [Hin|?]; [|done].
    rewrite lookup_empty in Hin. by destruct Hin.
Qed.

Lemma dedup_loop_app X Y : forall seen ordered D,
  dedup_loop (X ++ Y) seen ordered = Ok D ->
  exists DX Z, dedup_loop X seen ordered = Ok DX
    /\ D = (DX ++ Z)%list /\ sublist Z Y.
Proof.
  induction X as [|doc rest IH]; intros seen ordered D H; simpl in *.
  - exists ordered.
    apply dedup_loop_returns in H as (Z & ks & -> & _ & _ & _ & Hsub).
    by exists Z.
  - destruct (dedup_key doc) as [key|e]; [|done]. simpl in *.
    destruct (seen !! key); by apply IH.
Qed.

(** X2: further candidates appended to a pool never displace or reorder
    what the pool alone gives: the result for the longer pool is the result
    for the pool followed by some of the further candidates, in their
    order. *)
Theorem deduplicate_app X Y D :
  _deduplicate (X ++ Y) = Ok D ->
  exists DX Z,
    _deduplicate X = Ok DX
    /\ D = (DX ++ Z)%list
    /\ sublist Z Y
    /\ (forall n, n <= length DX -> take n D = take n DX).
Proof.
  intros H. apply dedup_loop_app in H as (DX & Z & HX & -> & Hsub).
  exists DX, Z. repeat split; [done..|].
  intros n Hn. by rewrite take_app_le.
Qed.

End DedupInvariants.

(** ** The variants, for any count *)

Section VariantInvariants.

Lemma variants_loop_invariant (P : string -> Prop) count query lines :
  forall variants,
    Forall P variants ->
    (forall line, line ∈ lines -> keeps query (strip_line line) = true ->
                  P (strip_line line)) ->
    (Z.of_nat (length variants) < Z.max count 1)%Z ->
    let out := variants_loop count query lines variants in
    Forall P out /\ (Z.of_nat (length out) <= Z.max count 1)%Z.
Proof.
  induction lines as [|line rest IH]; intros variants HP Hlines Hlen; simpl.
  - split; [done|lia].
  - assert (Hrest : forall l, l ∈ rest ->
              keeps query (strip_line l) = true -> P (strip_line l)).
    { intros l Hl. apply Hlines. by right. }
    destruct (bool_decide (strip_line line = "")) eqn:Hblank;
      [by apply IH|].
    destruct (bool_decide (PyStr.lower (strip_line line) = PyStr.lower query))
      eqn:Hsame; [by apply IH|].
    assert (HP' : Forall P (variants ++ [strip_line line])).
    { apply Forall_app. split; [done|]. apply Forall_singleton.
      apply Hlines; [by left|]. unfold keeps. by rewrite Hblank, Hsame. }
    assert (Hlen' : length (variants ++ [strip_line line]) = S (length variants))
      by (rewrite length_app; simpl; lia).
    destruct (Z.leb_spec count (Z.of_nat (length (variants ++ [strip_line line]))))
      as [Hfull|Hroom].
    + split; [done|lia].
    + apply IH; [done..|lia].
Qed.

Lemma parse_variants_kept count query content :
  let variants := parse_variants count query content in
  (Z.of_nat (length variants) <= Z.max count 1)%Z
  /\ Forall (fun v =>
               v <> "" /\ PyStr.lower v <> PyStr.lower query
               /\ exists line,
                    line ∈ PyStr.splitlines content /\ v = strip_line line)
            variants.
Proof.
  unfold parse_variants.
  destruct (variants_loop_invariant
    (fun v => v <> "" /\ PyStr.lower v <> PyStr.lower query
              /\ exists line,
                   line ∈ PyStr.splitlines content /\ v = strip_line line)
    count query (PyStr.splitlines content) []) as [HP Hlen];
    [done| |simpl; lia|done].
  intros line Hline Hkeeps. unfold keeps in Hkeeps.
  apply andb_true_iff in Hkeeps as [Hblank Hsame].
  apply negb_true_iff, bool_decide_eq_false in Hblank, Hsame.
  repeat split; [done..|]. by exists line.
Qed.

(** X3: for any count, zero and negative ones included, the loop of
    [_generate_variant_queries] keeps at most [max(count, 1)] variants, and
    each of them is a line of the response, stripped, that is not blank and
    differs from the query even without regard to case. *)
Theorem parse_variants_invariants count query content :
  let variants := parse_variants count query content in
  (Z.of_nat (length variants) <= Z.max count 1)%Z
  /\ Forall (fun v =>
               v <> "" /\ PyStr.lower v <> PyStr.lower query
               /\ exists line,
                    line ∈ PyStr.splitlines content /\ v = strip_line line)
            variants.
Proof. apply parse_variants_kept. Qed.

End VariantInvariants.

(** ** Batching *)

Section Batching.
Context {A : Type}.

Lemma chunked_loop_spec (size : Z) (items : list A) : forall chunk,
  (Z.of_nat (length chunk) < Z.max size 1)%Z ->
  let out := chunked_loop size items chunk in
  concat out = (chunk ++ items)%list
  /\ Forall (fun c => c <> [] /\ (Z.of_nat (length c) <= Z.max size 1)%Z) out
  /\ (forall i c, out !! i = Some c -> S i < length out ->
        Z.of_nat (length c) = Z.max size 1).
Proof.
  induction items as [|item rest IH]; intros chunk Hlen; simpl.
  - destruct chunk as [|x chunk]; simpl.
    + repeat split; [done|]. intros i c Hi. by destruct i.
    + rewrite !app_nil_r. split; [done|]. split.
      * apply Forall_singleton. split; [done|]. simpl in Hlen. simpl. lia.
      * intros i c _ Hi. simpl in Hi. lia.
  - assert (Hlen' : length (chunk ++ [item]) = S (length chunk))
      by (rewrite length_app; simpl; lia).
    destruct (Z.leb_spec size (Z.of_nat (length (chunk ++ [item]))))
      as [Hfull|Hroom].
    + destruct (IH []) as (Hcat & Hall & Hsize); [simpl; lia|].
      simpl. rewrite Hcat. simpl. split; [by rewrite <- app_assoc|]. split.
      * constructor; [|done]. split; [by destruct chunk|lia].
      * intros [|i] c Hi Hlast; simpl in *.
        -- injection Hi as <-. lia.
        -- apply (Hsize i c Hi). lia.
    + destruct (IH (chunk ++ [item])%list) as (Hcat & Hall & Hsize); [lia|].
      split; [by rewrite Hcat, <- app_assoc|]. done.
Qed.

(** X4: the chunks [chunked] yields, concatenated, give back the items; no
    chunk is empty; every chunk has at most [max(size, 1)] items, and every
    chunk but the last has exactly that many. *)
Theorem chunked_partitions (items : list A) (size : Z) :
  let chunks := chunked items size in
  concat chunks = items
  /\ Forall (fun c => c <> [] /\ (Z.of_nat (length c) <= Z.max size 1)%Z)
            chunks
  /\ (forall i c, chunks !! i = Some c -> S i < length chunks ->
        Z.of_nat (length c) = Z.max size 1).
Proof. apply (chunked_loop_spec size items []). simpl. lia. Qed.

End Batching.

Section EmbedTexts.

Lemma embed_batches_sent embed batches : forall sent results,
  (embed_batches embed batches sent results).2 `prefix_of` (sent ++ batches)%list
  /\ sent `prefix_of` (embed_batches embed batches sent results).2.
Proof.
  induction batches as [|batch rest IH]; intros sent results; simpl.
  - by rewrite app_nil_r.
  - destruct (embed sent batch) as [vectors|e]; simpl.
    + destruct (IH (sent ++ [batch])%list (results ++ vectors)%list)
        as [Hup Hlow].
      rewrite <- app_assoc in Hup. split; [done|].
      etrans; [|exact Hlow]. by apply prefix_app_r.
    + split; [|by apply prefix_app_r].
      rewrite (cons_middle batch sent rest), (assoc_L (++)).
      by apply prefix_app_r.
Qed.

Lemma embed_batches_returns embed batches : forall sent results out sent',
  embed_batches embed batches sent results = (Ok out, sent') ->
  sent' = (sent ++ batches)%list
  /\ exists vss,
       out = (results ++ concat vss)%list
       /\ Forall2 (fun batch vs => exists before, embed before batch = Ok vs)
                  batches vss.
Proof.
  induction batches as [|batch rest IH]; intros sent results out sent' H;
    simpl in H.
  - injection H as <- <-. rewrite app_nil_r. split; [done|].
    exists []. by rewrite app_nil_r.
  - destruct (embed sent batch) as [vectors|e] eqn:Hb; [|done].
    apply IH in H as (-> & vss & -> & Hall).
    split; [by rewrite <- app_assoc|].
    exists (vectors :: vss). simpl. rewrite <- app_assoc. split; [done|].
    constructor; [by exists sent|done].
Qed.

(** X5: [embed_texts] sends chunks of [chunked] to the model, in order,
    and all of them when it returns; it returns one vector per text when
    the model returns one vector per text of a batch; and with a model that
    embeds each text on its own the result is the embeddings of the texts,
    in order, whatever the batch size. *)
Theorem embed_texts_batches embed texts batch_size :
  (embed_texts embed texts batch_size).2 `prefix_of` chunked texts batch_size
  /\ (forall out sent,
        embed_texts embed texts batch_size = (Ok out, sent) ->
        sent = chunked texts batch_size)
  /\ (forall out sent,
        (forall before batch vs,
            embed before batch = Ok vs -> length vs = length batch) ->
        embed_texts embed texts batch_size = (Ok out, sent) ->
        length out = length texts)
  /\ (forall f,
        (forall before batch, embed before batch = Ok (f <$> batch)) ->
        embed_texts embed texts batch_size
        = (Ok (f <$> texts), chunked texts batch_size)).
Proof.
  unfold embed_texts.
  destruct (chunked_loop_spec batch_size texts []) as (Hcat & _);
    [simpl; lia|].
  change (concat (chunked texts batch_size) = texts) in Hcat.
  split; [|split; [|split]].
  - apply (embed_batches_sent embed (chunked texts batch_size) [] []).
  - intros out sent H. by apply embed_batches_returns in H as (-> & _).
  - intros out sent Hlen H.
    apply embed_batches_returns in H as (_ & vss & -> & Hall). simpl.
    remember (chunked texts batch_size) as batches eqn:Hb. clear Hb.
    subst texts.
    induction Hall as [|batch vs batches vss (before & Hb) _ IH]; [done|].
    simpl. rewrite !length_app, IH. f_equal. by apply (Hlen before).
  - intros f Hf.
    assert (Hgen : forall batches sent results,
      embed_batches embed batches sent results
      = (Ok (results ++ (f <$> concat batches))%list, (sent ++ batches)%list)).
    { induction batches as [|batch rest IH]; intros sent results; simpl.
      - by rewrite !app_nil_r.
      - rewrite Hf, IH, fmap_app, <- !app_assoc. done. }
    by rewrite Hgen, Hcat.
Qed.

End EmbedTexts.

(** ** The steps of the retrieval, one by one *)

Section Steps.
Context {builtins : PyBuiltins}.
Variable bk : Backends.

Lemma search_queries_app log added :
  search_queries (log ++ added) = (search_queries log ++ search_queries added)%list.
Proof. apply omap_app. Qed.

Lemma search_step query s r s' :
  search bk query s = (r, s') ->
  self s' = self s
  /\ calls s' = (calls s ++
       [CallSimilaritySearch (Retriever.vector_store (Pipeline.retriever (self s)))
          query (Retriever.primary_k (Pipeline.retriever (self s)))])%list
  /\ search_queries (calls s') = (search_queries (calls s) ++ [query])%list.
Proof.
  rewrite search_unfold. intros [= <- <-]. simpl.
  split; [done|]. split; [done|]. by rewrite search_queries_app.
Qed.

Lemma generate_variant_queries_step query s variants s' :
  let r := Pipeline.retriever (self s) in
  _generate_variant_queries bk query s = (Ok variants, s') ->
  self s' = Pipeline.set_retriever
              (Retriever.set_last_query_variants variants r) (self s)
  /\ search_queries (calls s') = search_queries (calls s)
  /\ (Retriever.enable_query_fusion r = false ->
        variants = [] /\ calls s' = calls s)
  /\ (Z.of_nat (length variants) <= Z.max (Retriever.fusion_variant_count r) 1)%Z
  /\ Forall (fun v => v <> "" /\ PyStr.lower v <> PyStr.lower query) variants.
Proof.
  intros r. unfold _generate_variant_queries. rewrite M_bind_unfold.
  unfold get_retriever. fold r.
  destruct (Retriever.enable_query_fusion r) eqn:Hon; simpl.
  - intros H.
    apply M_bind_returns in H as (msgs & s1 & Hmsgs & H).
    apply M_bind_returns in H as (resp & s2 & Hresp & H).
    apply M_bind_returns in H as (content & s3 & Hcontent & H).
    apply M_bind_returns in H as ([] & s4 & Hupd & H).
    unfold lift in Hmsgs, Hcontent. unfold backend_call in Hresp.
    unfold update_retriever in Hupd.
    injection Hmsgs as _ <-. injection Hresp as _ <-.
    injection Hcontent as _ <-. injection Hupd as <-.
    injection H as <- <-. simpl. fold r.
    split; [done|]. split; [by rewrite search_queries_app, app_nil_r|].
    split; [done|].
    destruct (parse_variants_kept (Retriever.fusion_variant_count r)
                query content) as [Hlen Hall].
    split; [done|]. eapply Forall_impl; [exact Hall|].
    by intros v (? & ? & _).
  - intros [= <- <-]. simpl. fold r. repeat split; [|constructor]. simpl. lia.
Qed.

Lemma generate_hypothetical_document_step query s hypo s' :
  let r := Pipeline.retriever (self s) in
  _generate_hypothetical_document bk query s = (Ok hypo, s') ->
  self s' = Pipeline.set_retriever
              (Retriever.set_last_hypothetical_document
                 (if Retriever.enable_hyde r then Some hypo else None) r)
              (self s)
  /\ search_queries (calls s') = search_queries (calls s)
  /\ (Retriever.enable_hyde r = false -> hypo = "" /\ calls s' = calls s).
Proof.
  intros r. unfold _generate_hypothetical_document. rewrite M_bind_unfold.
  unfold get_retriever. fold r.
  destruct (Retriever.enable_hyde r) eqn:Hon; simpl.
  - intros H.
    apply M_bind_returns in H as (msgs & s1 & Hmsgs & H).
    apply M_bind_returns in H as (resp & s2 & Hresp & H).
    apply M_bind_returns in H as (text & s3 & Htext & H).
    apply M_bind_returns in H as ([] & s4 & Hupd & H).
    unfold lift in Hmsgs, Htext. unfold backend_call in Hresp.
    unfold update_retriever in Hupd.
    injection Hmsgs as _ <-. injection Hresp as _ <-.
    injection Htext as _ <-. injection Hupd as <-.
    injection H as <- <-. simpl. fold r.
    split; [done|]. split; [by rewrite search_queries_app, app_nil_r|done].
  - intros [= <- <-]. simpl. fold r. done.
Qed.

Lemma extend_with_variants_step variants : forall candidates s more s',
  extend_with_variants bk variants candidates s = (Ok more, s') ->
  self s' = self s
  /\ (exists extra, more = (candidates ++ extra)%list)
  /\ search_queries (calls s') = (search_queries (calls s) ++ variants)%list.
Proof.
  induction variants as [|v rest IH]; intros candidates s more s' H; simpl in H.
  - injection H as <- <-. split; [done|]. split; [|by rewrite app_nil_r].
    exists []. by rewrite app_nil_r.
  - apply M_bind_returns in H as (docs & s1 & Hsearch & H).
    apply search_step in Hsearch as (Hself & _ & Hq).
    apply IH in H as (Hself' & [extra ->] & Hq').
    split; [congruence|]. split.
    + exists (docs ++ extra)%list. by rewrite app_assoc.
    + by rewrite Hq', Hq, <- app_assoc.
Qed.

(** What a returning retrieval went through. *)
Lemma retrieve_candidates_returns query s candidates s' :
  _retrieve_candidates bk query s = (Ok candidates, s') ->
  exists base s1 variants s2 more s3 hypo s4 hyde_docs,
    search bk query s = (Ok base, s1)
    /\ _generate_variant_queries bk query s1 = (Ok variants, s2)
    /\ extend_with_variants bk variants base s2 = (Ok more, s3)
    /\ _generate_hypothetical_document bk query s3 = (Ok hypo, s4)
    /\ ((hypo = "" /\ hyde_docs = [] /\ s' = s4)
        \/ (hypo <> "" /\ search bk hypo s4 = (Ok hyde_docs, s')))
    /\ _deduplicate (more ++ hyde_docs) = Ok candidates.
Proof.
  unfold _retrieve_candidates. intros H.
  apply M_bind_returns in H as (base & s1 & Hbase & H).
  apply M_bind_returns in H as (variants & s2 & Hvar & H).
  apply M_bind_returns in H as (more & s3 & Hext & H).
  apply M_bind_returns in H as (hypo & s4 & Hhypo & H).
  apply M_bind_returns in H as (pool & s5 & Hpool & H).
  unfold lift in H. injection H as Hdedup <-.
  exists base, s1, variants, s2, more, s3, hypo, s4.
  case_bool_decide as Hempty.
  - injection Hpool as <- <-. exists []. rewrite app_nil_r.
    repeat split; try done. by left.
  - apply M_bind_returns in Hpool as (hyde_docs & s6 & Hsearch & Hpool).
    injection Hpool as <- <-. exists hyde_docs.
    repeat split; try done. by right.
Qed.

Lemma invoke_rerank_step id query docs k s r s' :
  invoke_rerank bk id query docs k s = (r, s') ->
  self s' = self s /\ search_queries (calls s') = search_queries (calls s)
  /\ (docs = [] -> s' = s).
Proof.
  destruct docs as [|d docs].
  - unfold invoke_rerank, mret, M_ret. intros [= <- <-]. done.
  - rewrite invoke_rerank_unfold. intros [= <- <-]. simpl.
    by rewrite search_queries_app, app_nil_r.
Qed.

Lemma slice_to_nil {A} (k : Z) : slice_to k (@nil A) = [].
Proof. unfold slice_to. destruct (0 <=? k)%Z; apply take_nil. Qed.

Lemma apply_rerank_empty query s : _apply_rerank bk query [] s = (Ok [], s).
Proof.
  unfold _apply_rerank. rewrite M_bind_unfold. unfold get_retriever.
  destruct (rerank_configured _) as [id|].
  - unfold try_except. rewrite M_bind_unfold.
    unfold invoke_rerank, mret, M_ret. by rewrite slice_to_nil.
  - unfold mret, M_ret. by rewrite slice_to_nil.
Qed.

Lemma apply_rerank_step query docs s r s' :
  _apply_rerank bk query docs s = (r, s') ->
  self s' = self s /\ search_queries (calls s') = search_queries (calls s).
Proof.
  unfold _apply_rerank. rewrite M_bind_unfold. unfold get_retriever.
  destruct (rerank_configured _) as [id|].
  - unfold try_except. rewrite M_bind_unfold.
    destruct (invoke_rerank bk id query docs _ s) as [[l|e] s1] eqn:Hinv;
      apply invoke_rerank_step in Hinv as (Hself & Hq & _).
    + by destruct l; intros [= <- <-].
    + by intros [= <- <-].
  - by intros [= <- <-].
Qed.

End Steps.

(** ** The rewriter with a history *)

Section Rewriter.
Context {builtins : PyBuiltins}.
Variable bk : Backends.

Lemma append_nonempty_r (s t : string) : t <> "" -> s +:+ t <> "".
Proof.
  intros Ht. destruct s as [|c s]; [done|].
  change (String c (s +:+ t) <> ""). done.
Qed.

Lemma append_nonempty_l (s t : string) : s <> "" -> s +:+ t <> "".
Proof.
  intros Hs. destruct s as [|c s]; [done|].
  change (String c (s +:+ t) <> ""). done.
Qed.

Lemma format_turn_nonempty turn : format_turn turn <> "".
Proof.
  unfold format_turn. apply append_nonempty_r, append_nonempty_l. done.
Qed.

(** The second guard of [_rewrite_question] never fires. *)
Lemma format_history_nonempty turn turns :
  _format_history (Some (turn :: turns)) <> "".
Proof.
  unfold _format_history. rewrite fmap_cons. simpl.
  destruct (format_turn <$> turns); [apply format_turn_nonempty|].
  apply append_nonempty_l, format_turn_nonempty.
Qed.

Lemma invoke_text_generation_unfold model sys usr s :
  invoke_text_generation bk model sys usr s
  = ((invoke_text_generation bk model sys usr s).1,
     {| self := self s;
        calls := (calls s ++ [CallInvokeModel TextGeneration model
                                (text_generation_body sys usr)])%list |}).
Proof.
  unfold invoke_text_generation. rewrite M_bind_unfold. unfold backend_call.
  by destruct (invoke_model _ _ _ _).
Qed.

Lemma invoke_text_generation_raises model sys usr s e :
  invoke_model bk (calls s) model (text_generation_body sys usr) = Raise e ->
  (invoke_text_generation bk model sys usr s).1 = Raise e.
Proof.
  intros H. unfold invoke_text_generation. rewrite M_bind_unfold.
  unfold backend_call. by rewrite H.
Qed.

Lemma rewrite_question_calls_model q turn turns s :
  let h := Some (turn :: turns) in
  let model := Settings.bedrock_chat_model_id (Pipeline.settings (self s)) in
  let body := text_generation_body get_contextualize_system_prompt
                (rewrite_user_prompt (_format_history h) q) in
  let out := _rewrite_question bk q h s in
  self out.2 = self s
  /\ calls out.2 = (calls s ++ [CallInvokeModel TextGeneration model body])%list
  /\ (exists r, out.1 = Ok r /\ (r = q \/ r <> ""))
  /\ (forall e, invoke_model bk (calls s) model body = Raise e -> out.1 = Ok q).
Proof.
  intros h model body out. subst out. unfold _rewrite_question. subst h.
  rewrite bool_decide_eq_false_2 by apply format_history_nonempty.
  rewrite M_bind_unfold. unfold get_pipeline, try_except.
  rewrite M_bind_unfold. fold model.
  rewrite invoke_text_generation_unfold. fold body.
  pose proof (invoke_text_generation_raises model
    get_contextualize_system_prompt
    (rewrite_user_prompt (_format_history (Some (turn :: turns))) q) s)
    as Hraise. fold body in Hraise.
  destruct (invoke_text_generation bk model _ _ s).1 as [response|e'];
    simpl.
  - split; [done|]. split; [done|]. split.
    + eexists. split; [reflexivity|].
      case_bool_decide; [by left|by right].
    + intros e He. by specialize (Hraise e He).
  - split; [done|]. split; [done|]. split; [|done].
    exists q. split; [done|by left].
Qed.

(** For any history, what the rewriter returns is the question or a text
    that is not empty. *)
Lemma rewrite_question_result q h s r s' :
  _rewrite_question bk q h s = (Ok r, s') ->
  (r = q \/ r <> "")
  /\ self s' = self s
  /\ search_queries (calls s') = search_queries (calls s).
Proof.
  destruct h as [[|turn turns]|].
  - intros [= <- <-]. split; [by left|done].
  - destruct (rewrite_question_calls_model q turn turns s)
      as (Hself & Hcalls & (r' & Hr & Hcase) & _).
    intros H. rewrite H in Hself, Hcalls, Hr. simpl in *.
    injection Hr as ->. split; [done|]. split; [done|].
    by rewrite Hcalls, search_queries_app, app_nil_r.
  - intros [= <- <-]. split; [by left|done].
Qed.

(** X6: with a history that is not empty, and whose roles have their
    capitalisation within the code points of the embedding,
    [_rewrite_question] makes exactly one call, a text generation with the
    contextualising prompt and the formatted history; it leaves the
    pipeline as it is; it never raises: it returns the question itself
    when the call raises, and otherwise the question or a text that is not
    empty. *)
Theorem rewrite_question_with_history q turn turns s :
  Forall role_in_alphabet (turn :: turns) ->
  let h := Some (turn :: turns) in
  let model := Settings.bedrock_chat_model_id (Pipeline.settings (self s)) in
  let body := text_generation_body get_contextualize_system_prompt
                (rewrite_user_prompt (_format_history h) q) in
  let out := _rewrite_question bk q h s in
  self out.2 = self s
  /\ calls out.2 = (calls s ++ [CallInvokeModel TextGeneration model body])%list
  /\ (exists r, out.1 = Ok r /\ (r = q \/ r <> ""))
  /\ (forall e, invoke_model bk (calls s) model body = Raise e -> out.1 = Ok q).
Proof. intros _. apply rewrite_question_calls_model. Qed.

End Rewriter.

(** ** What the rerank stage returns *)

Section RerankOutputs.
Variable bk : Backends.

Lemma index_int_elem {A} (l : list A) (i : Z) (a : A) :
  index_int l i = Ok a ->
  l !! Z.to_nat (if (i <? 0)%Z then Z.of_nat (length l) + i else i)%Z = Some a.
Proof.
  unfold index_int.
  destruct (_ <? 0)%Z; [done|].
  destruct (l !! _) as [x|] eqn:Hl; [|done]. by intros [= <-].
Qed.

Lemma py_index_elem {A} (l : list A) (v : pyval) (a : A) :
  py_index l v = Ok a -> a ∈ l.
Proof.
  destruct v; simpl; try done; intros H%index_int_elem;
    by eapply list_elem_of_lookup_2.
Qed.

Lemma rerank_entry_some docs entry d' :
  rerank_entry docs entry = Ok (Some d') ->
  exists d score,
    d ∈ docs /\ page_content d' = page_content d
    /\ metadata d' = <["rerank_score" := score]> (metadata d).
Proof.
  unfold rerank_entry. destruct (py_get entry "index" PNone) as [idx|] eqn:Hidx;
    [|done]. simpl.
  assert (Hgo : (beyond ← py_ge_int idx (Z.of_nat (length docs));
                 if beyond : bool then Ok None
                 else doc ← py_index docs idx;
                      score ← py_get entry "relevanceScore" PNone;
                      mret (Some {| page_content := page_content doc;
                                    metadata := <["rerank_score" := score]>
                                                  (metadata doc) |}))
                = Ok (Some d') ->
                exists d score,
                  d ∈ docs /\ page_content d' = page_content d
                  /\ metadata d' = <["rerank_score" := score]> (metadata d)).
  { destruct (py_ge_int idx _) as [[|]|]; simpl; [done| |done].
    destruct (py_index docs idx) as [doc|] eqn:Hdoc; [|done]. simpl.
    destruct (py_get entry "relevanceScore" PNone) as [score|]; [|done].
    simpl. intros [= <-]. exists doc, score. split; [|done].
    by eapply py_index_elem. }
  destruct idx; try exact Hgo. done.
Qed.

Lemma rerank_loop_scored docs (Q : Document -> Prop) entries : forall ranked l,
  (forall entry d', rerank_entry docs entry = Ok (Some d') -> Q d') ->
  Forall Q ranked ->
  rerank_loop docs entries ranked = Ok l -> Forall Q l.
Proof.
  induction entries as [|entry rest IH]; intros ranked l HQ Hranked H;
    simpl in H.
  - by injection H as <-.
  - destruct (rerank_entry docs entry) as [[d|]|e] eqn:Hentry; simpl in H;
      [| |done].
    + apply (IH _ _ HQ) in H; [done|].
      apply Forall_app. split; [done|]. apply Forall_singleton.
      by apply (HQ entry).
    + by apply (IH _ _ HQ) in H.
Qed.

Lemma ranked_documents_scored docs body l :
  ranked_documents docs body = Ok l ->
  Forall (fun d' => exists d score,
            d ∈ docs /\ page_content d' = page_content d
            /\ metadata d' = <["rerank_score" := score]> (metadata d)) l.
Proof.
  intros H. unfold ranked_documents in H.
  destruct (py_get body "results" (PList [])) as [results|]; [|done].
  simpl in H. destruct (py_iter results) as [entries|]; [|done].
  simpl in H. eapply rerank_loop_scored; [|constructor|exact H].
  apply rerank_entry_some.
Qed.

(** X7: every document [invoke_rerank] builds from a response body is one
    of the candidates, with its content unchanged and its metadata changed
    at [rerank_score] alone; and there is at most one per entry of the
    result list. *)
Theorem ranked_documents_are_candidates docs body l :
  ranked_documents docs body = Ok l ->
  Forall (fun d' => exists d score,
            d ∈ docs /\ page_content d' = page_content d
            /\ metadata d' = <["rerank_score" := score]> (metadata d)) l
  /\ (forall results entries,
        py_get body "results" (PList []) = Ok results ->
        py_iter results = Ok entries -> length l <= length entries).
Proof.
  intros H. split.
  - by apply (ranked_documents_scored docs body).
  - intros results entries Hres Hent.
    by apply (ranked_documents_length docs body results entries).
Qed.

(** X8: how [invoke_rerank] reads an integer index of an entry: at or
    beyond the number of candidates the entry is passed over; from zero up
    it designates the candidate at that position; a negative index down to
    minus the number of candidates counts from the end of the candidates;
    below that the entry raises [IndexError]. *)
Theorem rerank_entry_integer_index docs d (z : Z) :
  let n := Z.of_nat (length docs) in
  let score := dict_get d "relevanceScore" PNone in
  let scored doc := {| page_content := page_content doc;
                       metadata := <["rerank_score" := score]> (metadata doc) |} in
  dict_get d "index" PNone = PInt z ->
  ((n <= z)%Z -> rerank_entry docs (PDict d) = Ok None)
  /\ (forall doc, (0 <= z < n)%Z -> docs !! Z.to_nat z = Some doc ->
        rerank_entry docs (PDict d) = Ok (Some (scored doc)))
  /\ (forall doc, (- n <= z < 0)%Z -> docs !! Z.to_nat (n + z) = Some doc ->
        rerank_entry docs (PDict d) = Ok (Some (scored doc)))
  /\ ((z < - n)%Z -> rerank_entry docs (PDict d) = Raise IndexError).
Proof.
  intros n score scored Hidx. unfold rerank_entry. simpl. rewrite Hidx. simpl.
  fold n. repeat split.
  - intros Hz. by rewrite (proj2 (Z.leb_le n z)).
  - intros doc Hz Hdoc. rewrite (proj2 (Z.leb_gt n z)) by lia.
    unfold index_int. rewrite (proj2 (Z.ltb_ge z 0)) by lia.
    rewrite (proj2 (Z.ltb_ge z 0)) by lia. by rewrite Hdoc.
  - intros doc Hz Hdoc. rewrite (proj2 (Z.leb_gt n z)) by lia.
    unfold index_int. rewrite (proj2 (Z.ltb_lt z 0)) by lia. fold n.
    rewrite (proj2 (Z.ltb_ge (n + z) 0)) by lia. by rewrite Hdoc.
  - intros Hz. rewrite (proj2 (Z.leb_gt n z)) by lia.
    unfold index_int. rewrite (proj2 (Z.ltb_lt z 0)) by lia. fold n.
    by rewrite (proj2 (Z.ltb_lt (n + z) 0)) by lia.
Qed.

Lemma slice_to_subseteq {A} (k : Z) (l : list A) : slice_to k l ⊆ l.
Proof. unfold slice_to. destruct (0 <=? k)%Z; apply subseteq_take. Qed.

(** What the stage returns: candidates, as they are or with a score. *)
Lemma apply_rerank_outputs query docs s l s' :
  _apply_rerank bk query docs s = (Ok l, s') ->
  Forall (fun d' => exists d,
            d ∈ docs /\ page_content d' = page_content d
            /\ (metadata d' = metadata d
                \/ exists score,
                     metadata d' = <["rerank_score" := score]> (metadata d))) l.
Proof.
  intros H.
  assert (Hslice : forall k,
    Forall (fun d' => exists d,
              d ∈ docs /\ page_content d' = page_content d
              /\ (metadata d' = metadata d
                  \/ exists score,
                       metadata d' = <["rerank_score" := score]> (metadata d)))
           (slice_to k docs)).
  { intros k. apply Forall_forall. intros d Hd. exists d.
    split; [by apply (slice_to_subseteq k)|]. split; [done|by left]. }
  destruct (rerank_configured (Pipeline.retriever (self s))) as [id|] eqn:Hid.
  - pose proof (apply_rerank_configured bk query docs s id Hid) as Hout.
    rewrite H in Hout. simpl in Hout. injection Hout as ->.
    destruct docs as [|d0 docs]; [apply Hslice|].
    destruct (invoke_model _ _ _ _) as [body|e]; [|apply Hslice]. simpl.
    destruct (ranked_documents _ _) as [[|x l]|e] eqn:Hranked;
      [apply Hslice| |apply Hslice].
    apply ranked_documents_scored in Hranked.
    eapply Forall_impl; [exact Hranked|].
    intros d' (d & score & Hd & Hc & Hm). exists d. split; [done|].
    split; [done|]. right. by exists score.
  - rewrite apply_rerank_not_configured in H by done.
    injection H as <- _. apply Hslice.
Qed.

(** X9: [_apply_rerank] never raises and leaves the retriever as it is; it
    makes at most one backend call, the rerank request, and
    none without a rerank model or for an empty pool, for which it returns
    the empty list; every document it returns is one of the candidates,
    with its content unchanged and its metadata unchanged or changed at
    [rerank_score] alone. *)
Theorem rerank_stage_effects query docs s :
  let out := _apply_rerank bk query docs s in
  let r := Pipeline.retriever (self s) in
  self out.2 = self s
  /\ (calls out.2 = calls s
      \/ exists id,
           rerank_configured r = Some id /\ docs <> []
           /\ calls out.2
              = (calls s
                 ++ [CallInvokeModel Rerank id
                       (rerank_body query docs (Retriever.final_k r))])%list)
  /\ (docs = [] -> out = (Ok [], s))
  /\ exists l,
       out.1 = Ok l
       /\ Forall (fun d' => exists d,
                    d ∈ docs /\ page_content d' = page_content d
                    /\ (metadata d' = metadata d
                        \/ exists score,
                             metadata d'
                             = <["rerank_score" := score]> (metadata d))) l.
Proof.
  intros out r.
  assert (Hout : exists l, out.1 = Ok l).
  { subst out. unfold _apply_rerank. rewrite M_bind_unfold.
    unfold get_retriever. destruct (rerank_configured _) as [id|]; [|by eexists].
    unfold try_except.
    match goal with
    | |- context [match ?x with _ => _ end] => destruct x as [[l|e] s1]
    end; by eexists. }
  assert (Hstate : self out.2 = self s
    /\ (calls out.2 = calls s
        \/ exists id,
             rerank_configured r = Some id /\ docs <> []
             /\ calls out.2
                = (calls s
                   ++ [CallInvokeModel Rerank id
                         (rerank_body query docs (Retriever.final_k r))])%list)
    /\ (docs = [] -> out = (Ok [], s))).
  { subst out. unfold _apply_rerank. rewrite M_bind_unfold.
    unfold get_retriever. fold r.
    destruct (rerank_configured r) as [id|] eqn:Hid.
    - unfold try_except. rewrite M_bind_unfold.
      destruct docs as [|d docs].
      + unfold invoke_rerank, mret, M_ret. simpl. rewrite slice_to_nil.
        split; [done|]. split; [by left|done].
      + rewrite invoke_rerank_unfold.
        assert (Hcalls : forall (x : result (list Document) * State),
          x.2 = {| self := self s;
                   calls := (calls s ++ [CallInvokeModel Rerank id
                               (rerank_body query (d :: docs)
                                  (Retriever.final_k r))])%list |} ->
          self x.2 = self s
          /\ (calls x.2 = calls s
              \/ exists id0,
                   Some id = Some id0 /\ d :: docs <> []
                   /\ calls x.2
                      = (calls s
                         ++ [CallInvokeModel Rerank id0
                               (rerank_body query (d :: docs)
                                  (Retriever.final_k r))])%list)
          /\ (d :: docs = [] -> x = (Ok [], s))).
        { intros x ->. split; [done|]. split; [|done].
          right. by exists id. }
        destruct (invoke_model _ _ _ _ ≫= _) as [[|x l]|e]; by apply Hcalls.
    - unfold mret, M_ret. simpl. split; [done|]. split; [by left|].
      intros ->. by rewrite slice_to_nil. }
  destruct Hstate as (Hself & Hcalls & Hnil).
  split; [done|]. split; [done|]. split; [done|].
  destruct Hout as [l Hl]. exists l. split; [done|].
  apply (apply_rerank_outputs query docs s l out.2).
  rewrite <- Hl. apply surjective_pairing.
Qed.

End RerankOutputs.

(** ** The request, from the question to the result *)

Section Request.
Context {builtins : PyBuiltins}.
Variable bk : Backends.

Lemma search_retrieved query s docs s' :
  search bk query s = (Ok docs, s') -> Forall (retrieved bk) docs.
Proof.
  rewrite search_unfold. intros [= H _]. apply Forall_forall. intros d Hd.
  by eexists _, _, _, _, _.
Qed.

Lemma extend_with_variants_retrieved variants : forall candidates s more s',
  extend_with_variants bk variants candidates s = (Ok more, s') ->
  Forall (retrieved bk) candidates -> Forall (retrieved bk) more.
Proof.
  induction variants as [|v rest IH]; intros candidates s more s' H Hc;
    simpl in H.
  - by injection H as <- _.
  - apply M_bind_returns in H as (docs & s1 & Hsearch & H).
    apply (IH _ _ _ _ H). apply Forall_app. split; [done|].
    by apply search_retrieved in Hsearch.
Qed.

(** What a returning retrieval did, step by step. *)
Lemma get_relevant_documents_trace query s docs s' :
  _get_relevant_documents bk query s = (Ok docs, s') ->
  let r := Pipeline.retriever (self s) in
  exists base s1 extra candidates variants hypo sr,
    search bk query s = (Ok base, s1)
    /\ _deduplicate (base ++ extra) = Ok candidates
    /\ Forall (retrieved bk) (base ++ extra)
    /\ _apply_rerank bk query candidates sr = (Ok docs, s')
    /\ self sr = self s'
    /\ self s' = Pipeline.set_retriever
         (Retriever.set_last_hypothetical_document
            (if Retriever.enable_hyde r then Some hypo else None)
            (Retriever.set_last_query_variants variants r)) (self s)
    /\ search_queries (calls s')
       = (search_queries (calls s) ++ query :: variants
          ++ (if bool_decide (hypo = "") then [] else [hypo]))%list
    /\ (Retriever.enable_query_fusion r = false -> variants = [])
    /\ (Retriever.enable_hyde r = false -> hypo = "")
    /\ (Z.of_nat (length variants)
        <= Z.max (Retriever.fusion_variant_count r) 1)%Z
    /\ Forall (fun v => v <> "" /\ PyStr.lower v <> PyStr.lower query) variants.
Proof.
  intros H r.
  apply get_relevant_documents_returns in H as (candidates & sr & Hret & Hrr).
  apply retrieve_candidates_returns in Hret
    as (base & s1 & variants & s2 & more & s3 & hypo & s4 & hyde_docs
        & Hbase & Hvar & Hext & Hhypo & Hhyde & Hdedup).
  pose proof (search_retrieved _ _ _ _ Hbase) as Hbase_ret.
  pose proof (extend_with_variants_retrieved _ _ _ _ _ Hext Hbase_ret)
    as Hmore_ret.
  pose proof (search_step bk _ _ _ _ Hbase) as (Hself1 & _ & Hq1).
  pose proof (generate_variant_queries_step bk _ _ _ _ Hvar)
    as (Hself2 & Hq2 & Hoff & Hlen & Hall).
  pose proof (extend_with_variants_step bk _ _ _ _ _ Hext)
    as (Hself3 & [extra ->] & Hq3).
  pose proof (generate_hypothetical_document_step bk _ _ _ _ Hhypo)
    as (Hself4 & Hq4 & Hhoff).
  pose proof (apply_rerank_step bk _ _ _ _ _ Hrr) as (Hselfr & Hqr).
  rewrite Hself1 in Hself2, Hoff, Hlen. fold r in Hself2, Hoff, Hlen.
  rewrite Hself3, Hself2 in Hself4, Hhoff. simpl in Hself4, Hhoff.
  assert (Hfinal : self sr = Pipeline.set_retriever
            (Retriever.set_last_hypothetical_document
               (if Retriever.enable_hyde r then Some hypo else None)
               (Retriever.set_last_query_variants variants r)) (self s)
          /\ search_queries (calls sr)
             = (search_queries (calls s) ++ query :: variants
                ++ (if bool_decide (hypo = "") then [] else [hypo]))%list
          /\ Forall (retrieved bk) ((base ++ extra) ++ hyde_docs)%list).
  { destruct Hhyde as [(-> & -> & ->) | (Hne & Hsearch)].
    - split; [by rewrite Hself4|]. split.
      + rewrite Hq4, Hq3, Hq2, Hq1, app_nil_r, <- app_assoc. done.
      + by rewrite app_nil_r.
    - pose proof (search_step bk _ _ _ _ Hsearch) as (Hself5 & _ & Hq5).
      split; [by rewrite Hself5, Hself4|]. split.
      + rewrite Hq5, Hq4, Hq3, Hq2, Hq1, bool_decide_eq_false_2 by done.
        by rewrite <- !app_assoc.
      + apply Forall_app. split; [done|].
        by apply search_retrieved in Hsearch. }
  destruct Hfinal as (Hselfsr & Hqsr & Hall_ret).
  exists base, s1, (extra ++ hyde_docs)%list, candidates, variants, hypo, sr.
  rewrite (assoc_L (++)).
  split; [done|]. split; [done|]. split; [done|]. split; [done|].
  split; [done|]. split; [by rewrite Hselfr|]. split; [by rewrite Hqr|].
  split; [by intros Hf; apply Hoff|]. split; [by intros Hf; apply Hhoff|].
  done.
Qed.

End Request.

Section Results.
Context {builtins : PyBuiltins}.
Variable bk : Backends.


(** X13: the answer of a result of [run] is the text that the answer model
    returned, stripped, and the call of the answer model is the last
    backend call of the request. *)
Theorem answer_is_last_call q h s res s' :
  run bk q h s = (Ok res, s') ->
  exists log messages response text,
    calls s' = (log ++ [CallChat (Pipeline.answer_llm (self s)) messages])%list
    /\ chat_invoke bk log (Pipeline.answer_llm (self s)) messages = Ok response
    /\ answer_content response = Ok text
    /\ answer res = PyStr.strip text.
Proof.
  intros H. unfold run in H.
  apply M_bind_returns in H as (rew & s1 & Hrw & H).
  apply M_bind_returns in H as (docs & s2 & Hdocs & H).
  apply M_bind_returns in H as (ctx & s3 & Hctx & H).
  apply M_bind_returns in H as (p & s4 & Hp & H).
  apply M_bind_returns in H as (msgs & s5 & Hmsgs & H).
  apply M_bind_returns in H as (resp & s6 & Hresp & H).
  apply M_bind_returns in H as (text & s7 & Htext & H).
  apply M_bind_returns in H as (r' & s8 & Hr & H).
  unfold lift in Hctx, Hmsgs, Htext. unfold get_pipeline in Hp.
  unfold backend_call in Hresp. unfold get_retriever in Hr.
  destruct (_build_context docs) as [ctx'|] eqn:Hc; [|done].
  injection Hctx as -> <-. injection Hp as <- <-.
  destruct (format_messages _ _) as [msgs'|] eqn:Hm; [|done].
  injection Hmsgs as -> <-.
  injection Hresp as Hresp <-.
  destruct (answer_content resp) as [text'|] eqn:Ha; [|done].
  injection Htext as -> <-. injection Hr as <- <-.
  injection H as <- <-. simpl.
  apply rewrite_question_result in Hrw as (_ & Hself1 & _).
  apply get_relevant_documents_trace in Hdocs
    as (base & sb & extra & candidates & variants & hypo & sr
        & _ & _ & _ & _ & _ & Hself2 & _).
  assert (Hllm : Pipeline.answer_llm (self s2) = Pipeline.answer_llm (self s))
    by by rewrite Hself2, Hself1.
  rewrite Hllm in *.
  by exists (calls s2), msgs, resp, text.
Qed.

(** X14: without a rerank model the documents of the search for the query
    itself come first: [_get_relevant_documents] returns the first
    [final_k] of these documents deduplicated, followed by documents of the
    other searches, and documents of the other searches only fill the
    places that are left. *)
Theorem base_documents_first query s docs s' :
  let r := Pipeline.retriever (self s) in
  rerank_configured r = None ->
  (0 <= Retriever.final_k r)%Z ->
  _get_relevant_documents bk query s = (Ok docs, s') ->
  exists base s1 kept rest,
    search bk query s = (Ok base, s1)
    /\ _deduplicate base = Ok kept
    /\ docs = take (Z.to_nat (Retriever.final_k r)) (kept ++ rest)
    /\ Forall (retrieved bk) rest
    /\ (Z.to_nat (Retriever.final_k r) <= length kept ->
        docs = take (Z.to_nat (Retriever.final_k r)) kept).
Proof.
  intros r Hnone Hk H.
  apply get_relevant_documents_trace in H
    as (base & s1 & extra & candidates & variants & hypo & sr
        & Hbase & Hdedup & Hret & Hrerank & Hsr & Hself & _).
  unfold _deduplicate in Hdedup.
  apply dedup_loop_app in Hdedup as (kept & rest & Hkept & -> & Hsub).
  assert (Hr : rerank_configured (Pipeline.retriever (self sr)) = None
               /\ Retriever.final_k (Pipeline.retriever (self sr))
                  = Retriever.final_k r).
  { rewrite Hsr, Hself. simpl. split; [exact Hnone|done]. }
  destruct Hr as [Hnone' Hfinal].
  rewrite (apply_rerank_not_configured _ _ _ _ Hnone'), Hfinal in Hrerank.
  injection Hrerank as <- _.
  exists base, s1, kept, rest. rewrite slice_to_take by done.
  split; [done|]. split; [done|]. split; [done|]. split.
  - apply Forall_forall. intros d Hd.
    eapply Forall_forall; [exact Hret|].
    apply elem_of_app. right. by eapply sublist_subseteq.
  - intros Hlen. by rewrite take_app_le.
Qed.

End Results.

Section Strings.

Lemma chars_app (a b : string) :
  PyStr.chars (a +:+ b) = (PyStr.chars a ++ PyStr.chars b)%list.
Proof.
  unfold PyStr.chars. induction a as [|c a IH]; [done|].
  change (c :: list_ascii_of_string (a +:+ b)
          = c :: (list_ascii_of_string a ++ list_ascii_of_string b)).
  by rewrite IH.
Qed.

Lemma chars_of_chars l : PyStr.chars (PyStr.of_chars l) = l.
Proof. apply list_ascii_of_string_of_list_ascii. Qed.

Lemma of_chars_chars s : PyStr.of_chars (PyStr.chars s) = s.
Proof. apply string_of_list_ascii_of_string. Qed.

Lemma is_prefix_of_app sub rest :
  PyStr.is_prefix_of sub (sub ++ rest) = Some rest.
Proof.
  induction sub as [|c sub IH]; simpl; [by destruct rest|].
  by rewrite bool_decide_eq_true_2.
Qed.

Lemma split_at_first_found c sub pre rest :
  c ∉ pre ->
  PyStr.split_at_first (c :: sub) (pre ++ (c :: sub) ++ rest)
  = Some (pre, rest).
Proof.
  induction pre as [|x pre IH]; intros Hc.
  - cbn [app]. pose proof (is_prefix_of_app (c :: sub) rest) as H.
    destruct sub; simpl in *; by rewrite H.
  - apply not_elem_of_cons in Hc as [Hx Hc].
    cbn [app PyStr.split_at_first PyStr.is_prefix_of].
    rewrite bool_decide_eq_false_2 by done.
    change (match PyStr.split_at_first (c :: sub) (pre ++ (c :: sub) ++ rest) with
            | Some (before, after) => Some (x :: before, after)
            | None => None
            end = Some (x :: pre, rest)).
    by rewrite IH.
Qed.

Lemma split_at_first_absent c sub s :
  c ∉ s -> PyStr.split_at_first (c :: sub) s = None.
Proof.
  induction s as [|x s IH]; intros Hc; [done|].
  apply not_elem_of_cons in Hc as [Hx Hc].
  cbn [PyStr.split_at_first PyStr.is_prefix_of].
  rewrite bool_decide_eq_false_2 by done.
  change (match PyStr.split_at_first (c :: sub) s with
          | Some (before, after) => Some (x :: before, after)
          | None => None
          end = None).
  by rewrite IH.
Qed.

Lemma drop_while_starts_outside p l : starts_outside p (PyStr.drop_while p l).
Proof.
  induction l as [|c l IH]; simpl; [done|].
  destruct (p c) eqn:Hc; [done|]. exact Hc.
Qed.

Lemma drop_while_outside p l :
  starts_outside p l -> PyStr.drop_while p l = l.
Proof. destruct l as [|c l]; simpl; [done|]. by intros ->. Qed.

Lemma drop_while_suffix p l : exists k, l = (k ++ PyStr.drop_while p l)%list.
Proof.
  induction l as [|c l [k IH]]; simpl; [by exists []|].
  destruct (p c); [|by exists []].
  exists (c :: k). simpl. by rewrite <- IH.
Qed.

Lemma strip_where_idempotent p l :
  PyStr.strip_where p (PyStr.strip_where p l) = PyStr.strip_where p l.
Proof.
  unfold PyStr.strip_where.
  pose proof (drop_while_starts_outside p l) as Hm.
  set (m := PyStr.drop_while p l) in *.
  pose proof (drop_while_starts_outside p (rev m)) as Hn.
  destruct (drop_while_suffix p (rev m)) as [k Hk].
  set (n := PyStr.drop_while p (rev m)) in *.
  assert (Hhead : starts_outside p (rev n)).
  { apply (f_equal (@rev ascii)) in Hk. rewrite rev_involutive, rev_app_distr in Hk.
    destruct (rev n) as [|c t]; [done|]. rewrite Hk in Hm. exact Hm. }
  rewrite (drop_while_outside p (rev n)) by done.
  rewrite rev_involutive. subst n.
  by rewrite (drop_while_outside p _ Hn).
Qed.

Lemma strip_idempotent s : PyStr.strip (PyStr.strip s) = PyStr.strip s.
Proof.
  unfold PyStr.strip. by rewrite chars_of_chars, strip_where_idempotent.
Qed.

Lemma of_int_inj a b : PyStr.of_int a = PyStr.of_int b -> a = b.
Proof.
  unfold PyStr.of_int. intros H.
  assert (Hnil : forall z, Z.to_int z <> Decimal.Pos Decimal.Nil
                           /\ Z.to_int z <> Decimal.Neg Decimal.Nil).
  { intros z. split; intros Hz; pose proof (f_equal Z.of_int Hz) as Hz';
      rewrite DecimalZ.of_to in Hz'; subst z; discriminate. }
  apply DecimalZ.to_int_inj.
  pose proof (NilZero.isi (Z.to_int a) (proj1 (Hnil a)) (proj2 (Hnil a))) as Ha.
  pose proof (NilZero.isi (Z.to_int b) (proj1 (Hnil b)) (proj2 (Hnil b))) as Hb.
  rewrite H, Hb in Ha. by injection Ha.
Qed.

Lemma of_int_nonempty z : PyStr.of_int z <> "".
Proof.
  unfold PyStr.of_int. intros H.
  assert (Hnil : Z.to_int z <> Decimal.Pos Decimal.Nil
                 /\ Z.to_int z <> Decimal.Neg Decimal.Nil).
  { split; intros Hz; pose proof (f_equal Z.of_int Hz) as Hz';
      rewrite DecimalZ.of_to in Hz'; subst z; discriminate. }
  pose proof (NilZero.isi (Z.to_int z) (proj1 Hnil) (proj2 Hnil)) as Hz.
  rewrite H in Hz. discriminate.
Qed.

Lemma append_inj_l (s a b : string) : s +:+ a = s +:+ b -> a = b.
Proof.
  induction s as [|c s IH]; [done|].
  change (String c (s +:+ a) = String c (s +:+ b) -> a = b).
  intros H. injection H as H. by apply IH.
Qed.

End Strings.

Section Tag.

(** X15: [_cleanup_result_tag] returns the text between the tags,
    stripped, when no [<] stands before the opening tag or between the
    tags; and it returns a text without [<], stripped. *)
Theorem cleanup_result_tag_extracts :
  (forall pre inner post,
     "<"%char ∉ PyStr.chars pre -> "<"%char ∉ PyStr.chars inner ->
     _cleanup_result_tag
       (pre +:+ "<result>" +:+ inner +:+ "</result>" +:+ post)
     = PyStr.strip inner)
  /\ (forall text,
        "<"%char ∉ PyStr.chars text ->
        _cleanup_result_tag text = PyStr.strip text).
Proof.
  split.
  - intros pre inner post Hpre Hinner. unfold _cleanup_result_tag.
    rewrite !chars_app.
    change (PyStr.chars "<result>") with ("<"%char :: PyStr.chars "result>").
    change (PyStr.chars "</result>") with ("<"%char :: PyStr.chars "/result>").
    rewrite (split_at_first_found "<" _ (PyStr.chars pre)) by done.
    rewrite (split_at_first_found "<" _ (PyStr.chars inner)) by done.
    by rewrite of_chars_chars.
  - intros text Htext. unfold _cleanup_result_tag.
    change (PyStr.chars "<result>") with ("<"%char :: PyStr.chars "result>").
    by rewrite split_at_first_absent.
Qed.

(** X16: what [_cleanup_result_tag] returns has no white space at either
    end: stripping it again changes nothing. *)
Theorem cleanup_result_tag_stripped text :
  PyStr.strip (_cleanup_result_tag text) = _cleanup_result_tag text.
Proof.
  unfold _cleanup_result_tag.
  destruct (PyStr.split_at_first _ _) as [[before after]|];
    [|apply strip_idempotent].
  destruct (PyStr.split_at_first _ _) as [[inner rest]|];
    apply strip_idempotent.
Qed.

End Tag.

Section Ingest.
Context {builtins : PyBuiltins}.

Lemma setdefault_lookup k v d j :
  setdefault k v d !! j
  = if bool_decide (j = k) then Some (default v (d !! k)) else d !! j.
Proof.
  unfold setdefault. case_bool_decide as Hj.
  - subst j. destruct (d !! k) eqn:Hk; [done|]. by rewrite lookup_insert_eq.
  - destruct (d !! k) eqn:Hk; [done|]. by rewrite lookup_insert_ne.
Qed.

Lemma with_provenance_lookup idx chunk j :
  metadata (with_provenance idx chunk) !! j
  = if bool_decide (j = "source")
    then Some (default PNone (metadata chunk !! "source"))
    else if bool_decide (j = "chunk_id")
    then Some (default (PInt (Z.of_nat idx)) (metadata chunk !! "chunk_id"))
    else metadata chunk !! j.
Proof.
  unfold with_provenance. cbn [metadata].
  rewrite !setdefault_lookup.
  case_bool_decide as Hs.
  - subst j. rewrite bool_decide_eq_false_2 by done.
    by destruct (metadata chunk !! "source").
  - done.
Qed.

(** X17: [chunk_documents] returns the chunks of the splitter, in their
    order and with their text and the metadata they have; it adds the keys
    [chunk_id] and [source] and no other: [chunk_id] is the position of the
    chunk unless the chunk has one, and [source] is [None] unless the chunk
    has one. *)
Theorem chunk_documents_provenance split_documents documents out :
  chunk_documents split_documents documents = Ok out ->
  exists chunks,
    split_documents documents = Ok chunks
    /\ length out = length chunks
    /\ forall i chunk, chunks !! i = Some chunk ->
       exists chunk',
         out !! i = Some chunk'
         /\ page_content chunk' = page_content chunk
         /\ metadata chunk ⊆ metadata chunk'
         /\ metadata chunk' !! "chunk_id"
            = Some (default (PInt (Z.of_nat i)) (metadata chunk !! "chunk_id"))
         /\ metadata chunk' !! "source"
            = Some (default PNone (metadata chunk !! "source"))
         /\ dom (metadata chunk')
            = dom (metadata chunk) ∪ {[ "chunk_id"; "source" ]}.
Proof.
  unfold chunk_documents. intros H.
  destruct (split_documents documents) as [chunks|e]; [|done].
  injection H as <-. exists chunks. split; [done|].
  split; [by rewrite length_imap|].
  intros i chunk Hi. exists (with_provenance i chunk).
  split; [by rewrite list_lookup_imap, Hi|].
  split; [done|]. split.
  { apply map_subseteq_spec. intros j v Hj.
    rewrite with_provenance_lookup.
    destruct (decide (j = "source")) as [->|Hs];
      [by rewrite bool_decide_eq_true_2, Hj|].
    rewrite (bool_decide_eq_false_2 _ Hs).
    destruct (decide (j = "chunk_id")) as [->|Hc];
      [by rewrite bool_decide_eq_true_2, Hj|].
    by rewrite (bool_decide_eq_false_2 _ Hc). }
  split; [by rewrite with_provenance_lookup|].
  split; [by rewrite with_provenance_lookup|].
  apply set_eq. intros j.
  rewrite elem_of_union, !elem_of_dom, with_provenance_lookup.
  rewrite elem_of_union, !elem_of_singleton.
  destruct (decide (j = "source")) as [->|Hs].
  { rewrite bool_decide_eq_true_2 by done.
    split; [intros _; right; by right|intros _; by eexists]. }
  rewrite (bool_decide_eq_false_2 _ Hs).
  destruct (decide (j = "chunk_id")) as [->|Hc].
  { rewrite bool_decide_eq_true_2 by done.
    split; [intros _; right; by left|intros _; by eexists]. }
  rewrite (bool_decide_eq_false_2 _ Hc).
  split; [by left|by intros [?|[?|?]]].
Qed.

Lemma dedup_key_with_provenance src idx chunk :
  metadata chunk !! "source" = Some (PStr src) ->
  metadata chunk !! "chunk_id" = None ->
  dedup_key (with_provenance idx chunk)
  = Ok (src +:+ PyStr.of_int (Z.of_nat idx)).
Proof.
  intros Hs Hc. unfold dedup_key, dict_get.
  rewrite !with_provenance_lookup, Hs, Hc. simpl.
  rewrite bool_decide_eq_false_2; [done|].
  apply append_nonempty_r, of_int_nonempty.
Qed.

Lemma mapM_dedup_key_imap src chunks : forall k,
  Forall (fun chunk => metadata chunk !! "source" = Some (PStr src)
                       /\ metadata chunk !! "chunk_id" = None) chunks ->
  mapM dedup_key (imap (fun i => with_provenance (k + i)) chunks)
  = Ok ((fun i => src +:+ PyStr.of_int (Z.of_nat i)) <$> seq k (length chunks)).
Proof.
  induction chunks as [|chunk chunks IH]; intros k Hall; [done|].
  apply Forall_cons in Hall as [[Hs Hc] Hall].
  cbn [imap length seq fmap list_fmap]. rewrite mapM_result_cons.
  rewrite Nat.add_0_r, (dedup_key_with_provenance src) by done.
  rewrite result_bind_ok.
  rewrite (imap_ext _ (fun i => with_provenance (S k + i)))
    by (intros; simpl; f_equal; lia).
  by rewrite IH.
Qed.

(** X18: chunks of one source to which [chunk_documents] gives their
    chunk numbers have different keys for [_deduplicate], which keeps all
    of them. *)
Theorem chunks_of_one_source_are_kept split_documents documents chunks src :
  split_documents documents = Ok chunks ->
  Forall (fun chunk => metadata chunk !! "source" = Some (PStr src)
                       /\ metadata chunk !! "chunk_id" = None) chunks ->
  exists out,
    chunk_documents split_documents documents = Ok out
    /\ _deduplicate out = Ok out.
Proof.
  intros Hsplit Hall. unfold chunk_documents. rewrite Hsplit.
  eexists. split; [done|].
  unfold _deduplicate.
  rewrite (dedup_loop_fresh _ _ ∅ [] (mapM_dedup_key_imap src chunks 0 Hall));
    [done| |done].
  apply NoDup_fmap_2; [|apply NoDup_seq].
  intros i j Hij. apply append_inj_l, of_int_inj in Hij. lia.
Qed.

Lemma dedup_key_raises doc e : dedup_key doc = Raise e -> e = TypeError.
Proof.
  unfold dedup_key, py_add_str.
  destruct (dict_get (metadata doc) "source" (PStr "")); simpl;
    intros H; by try injection H as <-.
Qed.

Lemma dedup_loop_raises docs doc e : forall seen ordered,
  doc ∈ docs -> dedup_key doc = Raise e ->
  dedup_loop docs seen ordered = Raise TypeError.
Proof.
  induction docs as [|d docs IH]; intros seen ordered Hin Hkey;
    [by inversion Hin|].
  simpl. destruct (dedup_key d) as [key|e'] eqn:Hd.
  - apply elem_of_cons in Hin as [->|Hin]; [congruence|].
    simpl. destruct (seen !! key); by apply IH.
  - simpl. by rewrite (dedup_key_raises _ _ Hd).
Qed.

(** X19: a chunk without a source gets the source [None] from
    [chunk_documents], and [_deduplicate] raises [TypeError] on candidates
    that have such a chunk among them. *)
Theorem chunk_without_source_fails_deduplicate idx chunk candidates :
  metadata chunk !! "source" = None ->
  with_provenance idx chunk ∈ candidates ->
  metadata (with_provenance idx chunk) !! "source" = Some PNone
  /\ _deduplicate candidates = Raise TypeError.
Proof.
  intros Hs Hin. split; [by rewrite with_provenance_lookup, Hs|].
  eapply dedup_loop_raises; [exact Hin|].
  unfold dedup_key, dict_get. by rewrite with_provenance_lookup, Hs.
Qed.

End Ingest.

Section EndpointFacts.
Context {builtins : PyBuiltins}.
Variable bk : Backends.


End EndpointFacts.

(** ** The backend calls of a request, whatever its outcome *)

Section ConfiguredCalls.
Context {builtins : PyBuiltins}.
Variable bk : Backends.

Lemma configured_call_configuration p p' c :
  configuration p' = configuration p ->
  configured_call p' c -> configured_call p c.
Proof.
  unfold configuration, configured_call, rerank_configured.
  destruct p as [st [] llm prompt], p' as [st' [] llm' prompt'].
  simpl. intros H. injection H as -> -> -> -> -> -> -> -> -> -> -> -> -> ->.
  done.
Qed.

Lemma configured_calls_refl s : configured_calls s s.
Proof. split; [done|]. exists []. by rewrite app_nil_r. Qed.

Lemma configured_calls_trans s1 s2 s3 :
  configured_calls s1 s2 -> configured_calls s2 s3 -> configured_calls s1 s3.
Proof.
  intros [Hc1 (a1 & Hl1 & Ha1)] [Hc2 (a2 & Hl2 & Ha2)].
  split; [by rewrite Hc2|]. exists (a1 ++ a2)%list.
  split; [by rewrite Hl2, Hl1, app_assoc|].
  apply Forall_app. split; [done|].
  eapply Forall_impl; [exact Ha2|]. intros c.
  by apply configured_call_configuration.
Qed.

Lemma configured_calls_pure {A} (m : M A) s :
  (m s).2 = s -> configured_calls s (m s).2.
Proof. intros ->. apply configured_calls_refl. Qed.

Lemma configured_calls_update f s :
  configuration (Pipeline.set_retriever (f (Pipeline.retriever (self s))) (self s))
  = configuration (self s) ->
  configured_calls s (update_retriever f s).2.
Proof. intros H. split; [exact H|]. exists []. simpl. by rewrite app_nil_r. Qed.

Lemma configured_calls_call {A} c (o : list Call -> result A) s :
  configured_call (self s) c -> configured_calls s (backend_call c o s).2.
Proof.
  intros H. split; [done|]. exists [c]. split; [done|].
  by apply Forall_singleton.
Qed.

Lemma configured_calls_bind {A B} (m : M A) (f : A -> M B) s :
  configured_calls s (m s).2 ->
  (forall a s1, m s = (Ok a, s1) -> configured_calls s1 (f a s1).2) ->
  configured_calls s ((m ≫= f) s).2.
Proof.
  intros Hm Hf. rewrite M_bind_unfold.
  destruct (m s) as [[a|e] s1]; simpl in *; [|done].
  eapply configured_calls_trans; [exact Hm|by apply Hf].
Qed.

Lemma configured_calls_try_except {A} (body : M A) (handler : exn -> M A) s :
  configured_calls s (body s).2 ->
  (forall e s1, configured_calls s1 (handler e s1).2) ->
  configured_calls s (try_except body handler s).2.
Proof.
  intros Hb Hh. unfold try_except.
  destruct (body s) as [[a|e] s1]; simpl in *; [done|].
  eapply configured_calls_trans; [exact Hb|apply Hh].
Qed.

(** A step whose first part reads the state or lifts a value. *)
Ltac configured_read H :=
  apply configured_calls_bind;
    [by apply configured_calls_pure
    |intros ? ? H;
     unfold get_retriever, get_pipeline, lift in H;
     injection H as H <-].

Lemma search_configured query s : configured_calls s (search bk query s).2.
Proof.
  unfold search. configured_read H. subst.
  by apply configured_calls_call.
Qed.

Lemma generate_variant_queries_configured query s :
  configured_calls s (_generate_variant_queries bk query s).2.
Proof.
  unfold _generate_variant_queries. configured_read H. subst.
  destruct (negb _).
  - apply configured_calls_bind;
      [by apply configured_calls_update|by intros; apply configured_calls_pure].
  - configured_read H.
    apply configured_calls_bind;
      [apply configured_calls_call; by right|intros response s1 _].
    apply configured_calls_bind;
      [by apply configured_calls_pure|intros content s2 _].
    apply configured_calls_bind;
      [by apply configured_calls_update|by intros; apply configured_calls_pure].
Qed.

Lemma generate_hypothetical_document_configured query s :
  configured_calls s (_generate_hypothetical_document bk query s).2.
Proof.
  unfold _generate_hypothetical_document. configured_read H. subst.
  destruct (negb _).
  - apply configured_calls_bind;
      [by apply configured_calls_update|by intros; apply configured_calls_pure].
  - configured_read H.
    apply configured_calls_bind;
      [apply configured_calls_call; by right|intros response s1 _].
    apply configured_calls_bind;
      [by apply configured_calls_pure|intros content s2 _].
    apply configured_calls_bind;
      [by apply configured_calls_update|by intros; apply configured_calls_pure].
Qed.

Lemma extend_with_variants_configured variants : forall candidates s,
  configured_calls s (extend_with_variants bk variants candidates s).2.
Proof.
  induction variants as [|v rest IH]; intros candidates s; simpl.
  - apply configured_calls_refl.
  - apply configured_calls_bind; [apply search_configured|].
    intros docs s1 _. apply IH.
Qed.

Lemma retrieve_candidates_configured query s :
  configured_calls s (_retrieve_candidates bk query s).2.
Proof.
  unfold _retrieve_candidates.
  apply configured_calls_bind; [apply search_configured|intros c1 s1 _].
  apply configured_calls_bind;
    [apply generate_variant_queries_configured|intros vs s2 _].
  apply configured_calls_bind;
    [apply extend_with_variants_configured|intros c2 s3 _].
  apply configured_calls_bind;
    [apply generate_hypothetical_document_configured|intros hypo s4 _].
  apply configured_calls_bind; [|by intros; apply configured_calls_pure].
  case_bool_decide; [by apply configured_calls_pure|].
  apply configured_calls_bind; [apply search_configured|].
  by intros; apply configured_calls_pure.
Qed.

Lemma apply_rerank_configured_calls query docs s :
  configured_calls s (_apply_rerank bk query docs s).2.
Proof.
  unfold _apply_rerank. configured_read H. subst.
  destruct (rerank_configured _) as [id|] eqn:Hid;
    [|by apply configured_calls_pure].
  apply configured_calls_try_except;
    [|by intros; apply configured_calls_pure].
  apply configured_calls_bind.
  - unfold invoke_rerank. destruct docs as [|d docs];
      [by apply configured_calls_pure|].
    apply configured_calls_bind;
      [by apply configured_calls_call|by intros; apply configured_calls_pure].
  - intros [|d l] s1 _; by apply configured_calls_pure.
Qed.

Lemma rewrite_question_configured question history s :
  configured_calls s (_rewrite_question bk question history s).2.
Proof.
  unfold _rewrite_question.
  destruct history as [[|turn turns]|]; [by apply configured_calls_pure| |
    by apply configured_calls_pure].
  case_bool_decide as Hblank; [by apply configured_calls_pure|].
  configured_read H. subst.
  apply configured_calls_try_except;
    [|by intros; apply configured_calls_pure].
  apply configured_calls_bind; [|by intros; apply configured_calls_pure].
  unfold invoke_text_generation.
  apply configured_calls_bind;
    [by apply configured_calls_call|by intros; apply configured_calls_pure].
Qed.

(** X21: every backend call of a request, whether [run] answers it or
    raises, is made with what the pipeline is configured with: the
    similarity searches go to the vector store of the retriever and ask
    for [primary_k] documents, the chat calls go to the answer model or to
    the query model of the retriever, the text generation uses the chat
    model of the settings, and a rerank request goes to the rerank model;
    and the request leaves this configuration as it is. *)
Theorem run_calls_are_configured question history s :
  configured_calls s (run bk question history s).2.
Proof.
  unfold run.
  apply configured_calls_bind;
    [apply rewrite_question_configured|intros rew s1 _].
  apply configured_calls_bind.
  { unfold _get_relevant_documents.
    apply configured_calls_bind; [apply retrieve_candidates_configured|].
    intros candidates s2 _. apply apply_rerank_configured_calls. }
  intros docs s2 _.
  configured_read Hctx.
  configured_read Hp. subst.
  configured_read Hmsgs.
  apply configured_calls_bind;
    [apply configured_calls_call; by left|intros response s3 _].
  apply configured_calls_bind;
    [by apply configured_calls_pure|intros text s4 _].
  apply configured_calls_bind; by intros; apply configured_calls_pure.
Qed.

End ConfiguredCalls.

(** ** What a request itself searches and receives *)

Section RequestLocal.
Context {builtins : PyBuiltins}.
Variable bk : Backends.

Lemma configured_calls_prefix s s' :
  configured_calls s s' -> calls s `prefix_of` calls s'.
Proof. intros [_ (added & -> & _)]. by apply prefix_app_r. Qed.

Lemma made_between_weaken before before' after after' log c :
  before' `prefix_of` before -> after `prefix_of` after' ->
  made_between before after log c -> made_between before' after' log c.
Proof. intros Hb Ha [H1 H2]. split; by etrans. Qed.

Lemma retrieved_between_weaken before before' after after' d :
  before' `prefix_of` before -> after `prefix_of` after' ->
  retrieved_between bk before after d -> retrieved_between bk before' after' d.
Proof.
  intros Hb Ha (log & store & query & k & docs & Hmade & Hdocs & Hd).
  exists log, store, query, k, docs. split; [|done].
  by eapply made_between_weaken.
Qed.

Lemma generated_variants_weaken r before before' after after' query variants :
  before' `prefix_of` before -> after `prefix_of` after' ->
  generated_variants bk r before after query variants ->
  generated_variants bk r before' after' query variants.
Proof.
  intros Hb Ha. unfold generated_variants.
  destruct (Retriever.enable_query_fusion r); [|done].
  intros (log & messages & response & content & Hm & Hmade & H).
  exists log, messages, response, content. split; [done|]. split; [|done].
  by eapply made_between_weaken.
Qed.

Lemma generated_hypothetical_weaken r before before' after after' query hypo :
  before' `prefix_of` before -> after `prefix_of` after' ->
  generated_hypothetical bk r before after query hypo ->
  generated_hypothetical bk r before' after' query hypo.
Proof.
  intros Hb Ha. unfold generated_hypothetical.
  destruct (Retriever.enable_hyde r); [|done].
  intros (log & messages & response & text & Hm & Hmade & H).
  exists log, messages, response, text. split; [done|]. split; [|done].
  by eapply made_between_weaken.
Qed.

Lemma search_retrieved_between query s docs s' :
  search bk query s = (Ok docs, s') ->
  Forall (retrieved_between bk (calls s) (calls s')) docs.
Proof.
  rewrite search_unfold. intros [= Hdocs <-]. simpl.
  apply Forall_forall. intros d Hd.
  exists (calls s), (Retriever.vector_store (Pipeline.retriever (self s))),
    query, (Retriever.primary_k (Pipeline.retriever (self s))), docs.
  by repeat split.
Qed.

Lemma extend_with_variants_retrieved_between variants :
  forall candidates s more s',
  extend_with_variants bk variants candidates s = (Ok more, s') ->
  exists extra,
    more = (candidates ++ extra)%list
    /\ Forall (retrieved_between bk (calls s) (calls s')) extra.
Proof.
  induction variants as [|v rest IH]; intros candidates s more s' H; simpl in H.
  - injection H as <- <-. exists []. by rewrite app_nil_r.
  - apply M_bind_returns in H as (docs & s1 & Hsearch & H).
    pose proof (search_configured bk v s) as Hp1. rewrite Hsearch in Hp1.
    apply configured_calls_prefix in Hp1.
    pose proof (extend_with_variants_configured bk rest
                  (candidates ++ docs)%list s1) as Hp2.
    rewrite H in Hp2. apply configured_calls_prefix in Hp2. simpl in *.
    apply search_retrieved_between in Hsearch.
    apply IH in H as (extra & -> & Hextra).
    exists (docs ++ extra)%list. split; [by rewrite app_assoc|].
    apply Forall_app. split.
    + eapply Forall_impl; [exact Hsearch|]. intros d.
      by apply retrieved_between_weaken.
    + eapply Forall_impl; [exact Hextra|]. intros d.
      by apply retrieved_between_weaken.
Qed.

Lemma generate_variant_queries_generated query s variants s' :
  _generate_variant_queries bk query s = (Ok variants, s') ->
  generated_variants bk (Pipeline.retriever (self s)) (calls s) (calls s')
    query variants.
Proof.
  unfold _generate_variant_queries, generated_variants.
  rewrite M_bind_unfold. unfold get_retriever.
  destruct (Retriever.enable_query_fusion _) eqn:Hon; simpl.
  - intros H.
    apply M_bind_returns in H as (msgs & s1 & Hmsgs & H).
    apply M_bind_returns in H as (resp & s2 & Hresp & H).
    apply M_bind_returns in H as (content & s3 & Hcontent & H).
    apply M_bind_returns in H as ([] & s4 & Hupd & H).
    unfold lift in Hmsgs, Hcontent. unfold backend_call in Hresp.
    unfold update_retriever in Hupd.
    injection Hmsgs as Hmsgs <-. injection Hresp as Hresp <-.
    injection Hcontent as Hcontent <-. injection Hupd as <-.
    injection H as <- <-. simpl.
    exists (calls s), msgs, resp, content. by repeat split.
  - by intros [= <- <-].
Qed.

Lemma generate_hypothetical_document_generated query s hypo s' :
  _generate_hypothetical_document bk query s = (Ok hypo, s') ->
  generated_hypothetical bk (Pipeline.retriever (self s)) (calls s) (calls s')
    query hypo.
Proof.
  unfold _generate_hypothetical_document, generated_hypothetical.
  rewrite M_bind_unfold. unfold get_retriever.
  destruct (Retriever.enable_hyde _) eqn:Hon; simpl.
  - intros H.
    apply M_bind_returns in H as (msgs & s1 & Hmsgs & H).
    apply M_bind_returns in H as (resp & s2 & Hresp & H).
    apply M_bind_returns in H as (text & s3 & Htext & H).
    apply M_bind_returns in H as ([] & s4 & Hupd & H).
    unfold lift in Hmsgs, Htext. unfold backend_call in Hresp.
    unfold update_retriever in Hupd.
    injection Hmsgs as Hmsgs <-. injection Hresp as Hresp <-.
    injection Htext as Htext <-. injection Hupd as <-.
    injection H as <- <-. simpl.
    exists (calls s), msgs, resp, text. by repeat split.
  - by intros [= <- <-].
Qed.

(** What a returning [_retrieve_candidates] searched and received. *)
Lemma retrieve_candidates_request query s candidates s' :
  _retrieve_candidates bk query s = (Ok candidates, s') ->
  let r := Pipeline.retriever (self s) in
  exists variants hypo,
    Forall (retrieved_between bk (calls s) (calls s')) candidates
    /\ search_queries (calls s')
       = (search_queries (calls s) ++ query :: variants
          ++ (if bool_decide (hypo = "") then [] else [hypo]))%list
    /\ generated_variants bk r (calls s) (calls s') query variants
    /\ generated_hypothetical bk r (calls s) (calls s') query hypo
    /\ (Z.of_nat (length variants)
        <= Z.max (Retriever.fusion_variant_count r) 1)%Z
    /\ Forall (fun v => v <> "" /\ PyStr.lower v <> PyStr.lower query) variants
    /\ (Retriever.enable_query_fusion r = false -> variants = [])
    /\ (Retriever.enable_hyde r = false -> hypo = "").
Proof.
  intros H r.
  apply retrieve_candidates_returns in H
    as (base & s1 & variants & s2 & more & s3 & hypo & s4 & hyde_docs
        & Hbase & Hvar & Hext & Hhypo & Hhyde & Hdedup).
  pose proof (search_configured bk query s) as P1. rewrite Hbase in P1.
  pose proof (generate_variant_queries_configured bk query s1) as P2.
  rewrite Hvar in P2.
  pose proof (extend_with_variants_configured bk variants base s2) as P3.
  rewrite Hext in P3.
  pose proof (generate_hypothetical_document_configured bk query s3) as P4.
  rewrite Hhypo in P4.
  apply configured_calls_prefix in P1, P2, P3, P4. simpl in P1, P2, P3, P4.
  pose proof (search_step bk _ _ _ _ Hbase) as (Hself1 & _ & Hq1).
  pose proof (generate_variant_queries_step bk _ _ _ _ Hvar)
    as (Hself2 & Hq2 & Hoff & Hlen & Hall).
  pose proof (extend_with_variants_step bk _ _ _ _ _ Hext)
    as (Hself3 & _ & Hq3).
  pose proof (generate_hypothetical_document_step bk _ _ _ _ Hhypo)
    as (Hself4 & Hq4 & Hhoff).
  apply generate_variant_queries_generated in Hvar.
  apply generate_hypothetical_document_generated in Hhypo.
  rewrite Hself1 in Hvar, Hoff, Hlen. fold r in Hvar, Hoff, Hlen.
  rewrite Hself3, Hself2, Hself1 in Hhypo, Hhoff. simpl in Hhypo, Hhoff.
  fold r in Hhypo, Hhoff.
  apply search_retrieved_between in Hbase as Rbase.
  apply extend_with_variants_retrieved_between in Hext as (extra & -> & Rextra).
  assert (Hend : calls s4 `prefix_of` calls s'
    /\ search_queries (calls s')
       = (search_queries (calls s4)
          ++ (if bool_decide (hypo = "") then [] else [hypo]))%list
    /\ Forall (retrieved_between bk (calls s4) (calls s')) hyde_docs).
  { destruct Hhyde as [(-> & -> & ->)|[Hne Hsearch]].
    - split; [done|]. split; [by rewrite app_nil_r|constructor].
    - pose proof (search_configured bk hypo s4) as P5. rewrite Hsearch in P5.
      apply configured_calls_prefix in P5.
      pose proof (search_step bk _ _ _ _ Hsearch) as (_ & _ & Hq5).
      split; [done|]. rewrite bool_decide_eq_false_2 by done.
      split; [done|]. by apply search_retrieved_between in Hsearch. }
  destruct Hend as (P5 & Hq5 & Rhyde).
  assert (H3e : calls s3 `prefix_of` calls s') by (by etrans).
  assert (H2e : calls s2 `prefix_of` calls s') by (by etrans).
  assert (H1e : calls s1 `prefix_of` calls s') by (by etrans).
  assert (H02 : calls s `prefix_of` calls s2) by (by etrans).
  assert (H03 : calls s `prefix_of` calls s3) by (by etrans).
  assert (H04 : calls s `prefix_of` calls s4) by (by etrans).
  exists variants, hypo.
  split.
  { unfold _deduplicate in Hdedup.
    apply dedup_loop_returns in Hdedup as (Z & ks & -> & _ & _ & _ & Hsub).
    apply Forall_forall. intros d Hd.
    apply (sublist_subseteq _ _ Hsub) in Hd.
    apply elem_of_app in Hd as [Hd|Hd]; [apply elem_of_app in Hd as [Hd|Hd]|].
    - by apply (retrieved_between_weaken (calls s) (calls s) (calls s1) (calls s'));
        [| |exact (proj1 (Forall_forall _ _) Rbase d Hd)].
    - by apply (retrieved_between_weaken (calls s2) (calls s) (calls s3) (calls s'));
        [| |exact (proj1 (Forall_forall _ _) Rextra d Hd)].
    - by apply (retrieved_between_weaken (calls s4) (calls s) (calls s') (calls s'));
        [| |exact (proj1 (Forall_forall _ _) Rhyde d Hd)]. }
  split.
  { rewrite Hq5, Hq4, Hq3, Hq2, Hq1, <- !app_assoc. done. }
  split.
  { by apply (generated_variants_weaken _ (calls s1) (calls s) (calls s2) (calls s')). }
  split.
  { by apply (generated_hypothetical_weaken _ (calls s3) (calls s) (calls s4) (calls s')). }
  split; [done|]. split; [done|]. split; [|by intros H; apply Hhoff].
  intros H. by apply Hoff.
Qed.

(** What a returning [run] searched and received. *)
Lemma run_request q h s res s' :
  run bk q h s = (Ok res, s') ->
  let r := Pipeline.retriever (self s) in
  let query := rewritten_question res in
  exists docs variants hypo,
    question res = q
    /\ (query = q \/ query <> "")
    /\ contexts res = context_payload <$> docs
    /\ Forall (fun d' => exists d,
                 retrieved_between bk (calls s) (calls s') d
                 /\ page_content d' = page_content d
                 /\ (metadata d' = metadata d
                     \/ exists score,
                          metadata d'
                          = <["rerank_score" := score]> (metadata d))) docs
    /\ search_queries (calls s')
       = (search_queries (calls s) ++ query :: variants
          ++ (if bool_decide (hypo = "") then [] else [hypo]))%list
    /\ generated_variants bk r (calls s) (calls s') query variants
    /\ generated_hypothetical bk r (calls s) (calls s') query hypo
    /\ (Z.of_nat (length variants)
        <= Z.max (Retriever.fusion_variant_count r) 1)%Z
    /\ Forall (fun v => v <> "" /\ PyStr.lower v <> PyStr.lower query) variants
    /\ (Retriever.enable_query_fusion r = false -> variants = [])
    /\ (Retriever.enable_hyde r = false -> hypo = "").
Proof.
  intros H r query. subst query. unfold run in H.
  apply M_bind_returns in H as (rew & s1 & Hrw & H).
  apply M_bind_returns in H as (docs & s2 & Hdocs & H).
  apply M_bind_returns in H as (ctx & s3 & Hctx & H).
  apply M_bind_returns in H as (p & s4 & Hp & H).
  apply M_bind_returns in H as (msgs & s5 & Hmsgs & H).
  apply M_bind_returns in H as (resp & s6 & Hresp & H).
  apply M_bind_returns in H as (text & s7 & Htext & H).
  apply M_bind_returns in H as (r' & s8 & Hr & H).
  unfold lift in Hctx, Hmsgs, Htext. unfold get_pipeline in Hp.
  unfold backend_call in Hresp. unfold get_retriever in Hr.
  injection Hctx as _ <-. injection Hp as _ <-. injection Hmsgs as _ <-.
  injection Hresp as _ <-. injection Htext as _ <-. injection Hr as <- <-.
  injection H as <- <-. simpl.
  pose proof (rewrite_question_configured bk q h s) as P1. rewrite Hrw in P1.
  apply configured_calls_prefix in P1. simpl in P1.
  apply rewrite_question_result in Hrw as (Hrew & Hself1 & Hq1).
  unfold _get_relevant_documents in Hdocs.
  apply M_bind_returns in Hdocs as (candidates & sr & Hcand & Hrerank).
  pose proof (apply_rerank_configured_calls bk rew candidates sr) as P3.
  rewrite Hrerank in P3. apply configured_calls_prefix in P3. simpl in P3.
  pose proof (apply_rerank_step bk _ _ _ _ _ Hrerank) as (_ & Hq3).
  apply apply_rerank_outputs in Hrerank.
  apply retrieve_candidates_request in Hcand
    as (variants & hypo & Rcand & Hq2 & Hvar & Hhypo & Hlen & Hall
        & Hoff & Hhoff).
  rewrite Hself1 in Hvar, Hhypo, Hlen, Hoff, Hhoff.
  fold r in Hvar, Hhypo, Hlen, Hoff, Hhoff.
  assert (Hafter : forall c, calls sr `prefix_of` (calls s2 ++ [c])%list).
  { intros c. etrans; [exact P3|]. by apply prefix_app_r. }
  exists docs, variants, hypo.
  split; [done|]. split; [done|]. split; [done|]. split.
  { eapply Forall_impl; [exact Hrerank|].
    intros d' (d & Hd & Hrest). exists d. split; [|done].
    eapply retrieved_between_weaken;
      [exact P1|apply Hafter|exact (proj1 (Forall_forall _ _) Rcand d Hd)]. }
  split.
  { by rewrite search_queries_app, app_nil_r, Hq3, Hq2, Hq1. }
  split.
  { eapply generated_variants_weaken; [exact P1|apply Hafter|exact Hvar]. }
  split.
  { eapply generated_hypothetical_weaken; [exact P1|apply Hafter|exact Hhypo]. }
  done.
Qed.

(** X10: the similarity searches that a request answered by [run] makes
    are, in this order, one for the rewritten question, one for each
    variant that the request itself parsed from the response to its fusion
    request (none with fusion disabled), and one for the hypothetical
    document that the request itself received from its HyDE request, when
    HyDE is enabled and that text is not empty. *)
Theorem request_searches q h s res s' :
  run bk q h s = (Ok res, s') ->
  let r := Pipeline.retriever (self s) in
  let query := rewritten_question res in
  exists variants hypo,
    search_queries (calls s')
    = (search_queries (calls s) ++ query :: variants
       ++ (if bool_decide (hypo = "") then [] else [hypo]))%list
    /\ generated_variants bk r (calls s) (calls s') query variants
    /\ generated_hypothetical bk r (calls s) (calls s') query hypo.
Proof.
  intros H r query. apply run_request in H
    as (docs & variants & hypo & _ & _ & _ & _ & Hq & Hvar & Hhypo & _).
  by exists variants, hypo.
Qed.

(** X11: in a result of [run], [question] is the question asked and the
    rewritten question is the question or is not empty; the request
    searched for the rewritten question, then for at most
    [max(fusion_variant_count, 1)] variants, none blank and none equal to
    the rewritten question without regard to case, and none at all with
    fusion disabled, and then at most once more, for a text that is not
    empty, and not at all with HyDE disabled. *)
Theorem request_search_bounds q h s res s' :
  run bk q h s = (Ok res, s') ->
  let r := Pipeline.retriever (self s) in
  let query := rewritten_question res in
  question res = q
  /\ (query = q \/ query <> "")
  /\ exists variants further,
       search_queries (calls s')
       = (search_queries (calls s) ++ query :: variants ++ further)%list
       /\ (Z.of_nat (length variants)
           <= Z.max (Retriever.fusion_variant_count r) 1)%Z
       /\ Forall (fun v => v <> "" /\ PyStr.lower v <> PyStr.lower query)
                 variants
       /\ (Retriever.enable_query_fusion r = false -> variants = [])
       /\ length further <= 1
       /\ Forall (fun text => text <> "") further
       /\ (Retriever.enable_hyde r = false -> further = []).
Proof.
  intros H r query. apply run_request in H
    as (docs & variants & hypo & Hquestion & Hrew & _ & _ & Hq & _ & _
        & Hlen & Hall & Hoff & Hhoff).
  split; [done|]. split; [done|].
  exists variants, (if bool_decide (hypo = "") then [] else [hypo]).
  split; [done|]. split; [done|]. split; [done|]. split; [done|].
  case_bool_decide as Hhypo.
  - split; [simpl; lia|]. split; [constructor|done].
  - split; [simpl; lia|]. split; [by apply Forall_singleton|].
    intros Hd. by destruct Hhypo; apply Hhoff.
Qed.

(** X12: every context of a result of [run] is a document that a
    similarity search of the request itself returned, with its content
    unchanged and its metadata unchanged or changed at [rerank_score]
    alone. *)
Theorem contexts_are_retrieved q h s res s' :
  run bk q h s = (Ok res, s') ->
  Forall (fun c => exists d,
            retrieved_between bk (calls s) (calls s') d
            /\ content c = page_content d
            /\ (chunk_metadata c = metadata d
                \/ exists score,
                     chunk_metadata c
                     = <["rerank_score" := score]> (metadata d)))
         (contexts res).
Proof.
  intros H. apply run_request in H
    as (docs & variants & hypo & _ & _ & -> & Hdocs & _).
  apply Forall_fmap. eapply Forall_impl; [exact Hdocs|].
  intros d' (d & Hd & Hc & Hm). by exists d.
Qed.

End RequestLocal.

(** ** The further properties on the concrete services *)

Lemma deduplicate_keeps_one_per_key_witness :
  sublist [Fixtures.A; Fixtures.B] [Fixtures.A; Fixtures.B; Fixtures.A].
Proof.
  apply (@deduplicate_keeps_one_per_key Fixtures.unreached
           [Fixtures.A; Fixtures.B; Fixtures.A] [Fixtures.A; Fixtures.B]).
  reflexivity.
Defined.

Lemma deduplicate_app_witness :
  exists DX Z,
    @_deduplicate Fixtures.unreached [Fixtures.A; Fixtures.B] = Ok DX
    /\ [Fixtures.A; Fixtures.B; Fixtures.C] = (DX ++ Z)%list
    /\ sublist Z [Fixtures.B; Fixtures.C]
    /\ (forall n, n <= length DX ->
        take n [Fixtures.A; Fixtures.B; Fixtures.C] = take n DX).
Proof.
  apply (@deduplicate_app Fixtures.unreached [Fixtures.A; Fixtures.B]
           [Fixtures.B; Fixtures.C]).
  reflexivity.
Defined.

Lemma base_documents_first_witness :
  exists base s1 kept rest,
    search Fixtures.backends_fusion "v1"
      (Fixtures.service Fixtures.settings_fusion) = (Ok base, s1)
    /\ @_deduplicate Fixtures.unreached base = Ok kept
    /\ [Fixtures.A; Fixtures.B] = take 2 (kept ++ rest)
    /\ Forall (retrieved Fixtures.backends_fusion) rest
    /\ (2 <= length kept -> [Fixtures.A; Fixtures.B] = take 2 kept).
Proof.
  apply (@base_documents_first Fixtures.unreached Fixtures.backends_fusion
           "v1" (Fixtures.service Fixtures.settings_fusion)
           [Fixtures.A; Fixtures.B]
           (@_get_relevant_documents Fixtures.unreached
              Fixtures.backends_fusion "v1"
              (Fixtures.service Fixtures.settings_fusion)).2).
  - reflexivity.
  - simpl. lia.
  - vm_compute. reflexivity.
Defined.

Lemma ranked_documents_are_candidates_witness :
  Forall (fun d' => exists d score,
            d ∈ [Fixtures.A; Fixtures.B]
            /\ page_content d' = page_content d
            /\ metadata d' = <["rerank_score" := score]> (metadata d))
         [Fixtures.B_scored].
Proof.
  apply (ranked_documents_are_candidates [Fixtures.A; Fixtures.B]
           Samples.one_entry [Fixtures.B_scored]).
  reflexivity.
Defined.

Lemma rerank_entry_integer_index_witness :
  rerank_entry [Fixtures.A; Fixtures.B] (Fixtures.entry_of (-1))
  = Ok (Some {| page_content := "beta";
                metadata := <["rerank_score" := PNone]> (metadata Fixtures.B) |}).
Proof.
  destruct (rerank_entry_integer_index [Fixtures.A; Fixtures.B]
              {[ "index" := PInt (-1) ]} (-1))
    as (_ & _ & Hneg & _); [reflexivity|].
  apply (Hneg Fixtures.B); [simpl; lia|reflexivity].
Defined.

Lemma rewrite_question_with_history_witness :
  (@_rewrite_question Fixtures.backends_A "What is X?"
     (Some [Samples.user_turn]) (Fixtures.service Fixtures.settings_A)).1
  = Ok "What is X?".
Proof.
  destruct (@rewrite_question_with_history Fixtures.backends_A "What is X?"
              Samples.user_turn [] (Fixtures.service Fixtures.settings_A))
    as (_ & _ & _ & Hraise); [repeat constructor|].
  apply (Hraise (BackendError "no model")). reflexivity.
Defined.

Lemma request_searches_witness :
  exists variants hypo,
    search_queries
      (calls (@run Fixtures.unreached Fixtures.backends_fusion "v1" None
                (Fixtures.service Fixtures.settings_fusion)).2)
    = (search_queries [] ++ "v1" :: variants
       ++ (if bool_decide (hypo = "") then [] else [hypo]))%list
    /\ generated_variants Fixtures.backends_fusion
         (build_retriever Fixtures.settings_fusion) []
         (calls (@run Fixtures.unreached Fixtures.backends_fusion "v1" None
                   (Fixtures.service Fixtures.settings_fusion)).2)
         "v1" variants
    /\ generated_hypothetical Fixtures.backends_fusion
         (build_retriever Fixtures.settings_fusion) []
         (calls (@run Fixtures.unreached Fixtures.backends_fusion "v1" None
                   (Fixtures.service Fixtures.settings_fusion)).2)
         "v1" hypo.
Proof.
  apply (@request_searches Fixtures.unreached Fixtures.backends_fusion
           "v1" None (Fixtures.service Fixtures.settings_fusion)
           Samples.fusion_result).
  vm_compute. reflexivity.
Defined.

Lemma request_search_bounds_witness :
  exists variants further,
    search_queries
      (calls (@run Fixtures.unreached Fixtures.backends_fusion "v1" None
                (Fixtures.service Fixtures.settings_fusion)).2)
    = (search_queries [] ++ "v1" :: variants ++ further)%list
    /\ (Z.of_nat (length variants) <= Z.max 2 1)%Z
    /\ Forall (fun v => v <> "" /\ PyStr.lower v <> PyStr.lower "v1") variants
    /\ (true = false -> variants = [])
    /\ length further <= 1
    /\ Forall (fun text => text <> "") further
    /\ (false = false -> further = []).
Proof.
  apply (@request_search_bounds Fixtures.unreached Fixtures.backends_fusion
           "v1" None (Fixtures.service Fixtures.settings_fusion)
           Samples.fusion_result
           (@run Fixtures.unreached Fixtures.backends_fusion "v1" None
              (Fixtures.service Fixtures.settings_fusion)).2).
  vm_compute. reflexivity.
Defined.

Lemma contexts_are_retrieved_witness :
  Forall (fun c => exists d,
            retrieved_between Fixtures.backends_fusion []
              (calls (@run Fixtures.unreached Fixtures.backends_fusion "v1"
                        None (Fixtures.service Fixtures.settings_fusion)).2) d
            /\ content c = page_content d
            /\ (chunk_metadata c = metadata d
                \/ exists score,
                     chunk_metadata c
                     = <["rerank_score" := score]> (metadata d)))
         [context_payload Fixtures.A; context_payload Fixtures.B].
Proof.
  apply (@contexts_are_retrieved Fixtures.unreached Fixtures.backends_fusion
           "v1" None (Fixtures.service Fixtures.settings_fusion)
           Samples.fusion_result).
  vm_compute. reflexivity.
Defined.

Lemma answer_is_last_call_witness :
  exists log messages response text,
    calls (@run Fixtures.unreached Fixtures.backends_fusion "v1" None
             (Fixtures.service Fixtures.settings_fusion)).2
    = (log ++ [CallChat
                 (Pipeline.answer_llm
                    (self (Fixtures.service Fixtures.settings_fusion)))
                 messages])%list
    /\ chat_invoke Fixtures.backends_fusion log
         (Pipeline.answer_llm
            (self (Fixtures.service Fixtures.settings_fusion))) messages
       = Ok response
    /\ answer_content response = Ok text
    /\ answer Samples.fusion_result = PyStr.strip text.
Proof.
  apply (@answer_is_last_call Fixtures.unreached Fixtures.backends_fusion
           "v1" None (Fixtures.service Fixtures.settings_fusion)).
  vm_compute. reflexivity.
Defined.

Lemma chunk_documents_provenance_witness :
  exists chunks,
    Samples.splitter [] = Ok chunks
    /\ length (imap with_provenance Samples.two_chunks) = length chunks
    /\ forall i chunk, chunks !! i = Some chunk ->
       exists chunk',
         imap with_provenance Samples.two_chunks !! i = Some chunk'
         /\ page_content chunk' = page_content chunk
         /\ metadata chunk ⊆ metadata chunk'
         /\ metadata chunk' !! "chunk_id"
            = Some (default (PInt (Z.of_nat i)) (metadata chunk !! "chunk_id"))
         /\ metadata chunk' !! "source"
            = Some (default PNone (metadata chunk !! "source"))
         /\ dom (metadata chunk')
            = dom (metadata chunk) ∪ {[ "chunk_id"; "source" ]}.
Proof.
  apply (chunk_documents_provenance Samples.splitter []).
  reflexivity.
Defined.

Lemma chunks_of_one_source_are_kept_witness :
  exists out,
    chunk_documents Samples.splitter [] = Ok out
    /\ @_deduplicate Fixtures.unreached out = Ok out.
Proof.
  apply (@chunks_of_one_source_are_kept Fixtures.unreached Samples.splitter
           [] Samples.two_chunks "a.pdf").
  - reflexivity.
  - repeat constructor.
Defined.

Lemma chunk_without_source_fails_deduplicate_witness :
  metadata (with_provenance 0 Samples.bare) !! "source" = Some PNone
  /\ @_deduplicate Fixtures.unreached
       [Fixtures.A; with_provenance 0 Samples.bare] = Raise TypeError.
Proof.
  apply (@chunk_without_source_fails_deduplicate Fixtures.unreached).
  - reflexivity.
  - right. left.
Defined.

